(** * ai-service: statistical context and result normalisation

    A shallow embedding of the parts of the service that its specified
    properties are about:
    - [agents/anomaly_detection.py]: [_calculate_alert_thresholds] and
      [_enhance_detection_result];
    - [agents/demand_forecasting.py]: [_calculate_seasonal_patterns],
      [_enhance_forecast_result] and the [forecast_demand] pipeline around
      them, with the record source and the oracle as collaborators;
    - [agents/delivery_prediction.py]: [_estimate_distance];
    - [models/requests.py] and the endpoints of [main.py]: the declared
      bounds of the request fields and the order validation / pipeline.

    Conventions of the embedding:
    - a Python [float] is a value of a type [F] carrying the operations of
      the class [PyFloat]; the definitions are written once for every such
      [F] and are run on two instances, IEEE binary64 ([float], what
      CPython computes with) and exact rationals ([Q]);
    - a [Dict[str, float]] is a [gmap string F];
    - a naive [datetime] is a number of microseconds on a linear time line,
      a [timedelta] a number of microseconds;
    - [datetime.now()] reads a clock that is part of the threaded state,
      which also records the calls made to the record source and the oracle;
    - an attribute probed with [hasattr] or tested for truthiness is an
      [option]; a call that can raise returns an [option];
    - the text of a prompt is not laid out: the oracle receives the values
      the prompt is built from;
    - a [string] stands for the Python [str] with the same characters;
      [int], slicing and [lower] are Python's on strings of ASCII
      characters, and every property that depends on them says so
      ([PyStr.is_ascii]);
    - pandas is not part of the service: what [pd.to_datetime] makes of a
      column of timestamps ([Pandas]) and the statistics of a series
      ([SeriesStats]) are parameters, and the properties hold for every
      implementation of them. *)

From Stdlib Require Import ZArith QArith Qabs Floats Ascii String List Lia Lqa Sorted.
From stdpp Require Import gmap strings pretty.

Close Scope Q_scope.

(** ** Python floats *)

Class PyFloat (F : Type) := {
  lit : Q -> F;            (* the float a decimal literal of the source denotes *)
  of_int : Z -> F;         (* int operand promoted to float *)
  fadd : F -> F -> F;
  fsub : F -> F -> F;
  fmul : F -> F -> F;
  fdiv : F -> F -> F;
  feqb : F -> F -> bool;   (* == *)
  fltb : F -> F -> bool;   (* <  *)
  fleb : F -> F -> bool    (* <= *)
}.

Definition float_of_Z (z : Z) : float :=
  if (z <? 0)%Z then PrimFloat.opp (PrimFloat.of_uint63 (Uint63.of_Z (- z)))
  else PrimFloat.of_uint63 (Uint63.of_Z z).

#[export] Instance float_PyFloat : PyFloat float := {|
  lit q := PrimFloat.div (float_of_Z (Qnum q)) (float_of_Z (Zpos (Qden q)));
  of_int := float_of_Z;
  fadd := PrimFloat.add;
  fsub := PrimFloat.sub;
  fmul := PrimFloat.mul;
  fdiv := PrimFloat.div;
  feqb := PrimFloat.eqb;
  fltb := PrimFloat.ltb;
  fleb := PrimFloat.leb
|}.

#[export] Instance Q_PyFloat : PyFloat Q := {|
  lit q := q;
  of_int := inject_Z;
  fadd := Qplus;
  fsub := Qminus;
  fmul := Qmult;
  fdiv := Qdiv;
  feqb := Qeq_bool;
  fltb a b := negb (Qle_bool b a);
  fleb := Qle_bool
|}.

(** [min(a, b)] of the builtin: the first argument unless the second is
    strictly smaller. *)
Definition py_min {F} `{PyFloat F} (a b : F) : F := if fltb b a then b else a.

(** Whether a float is a number that JSON can write: neither a NaN nor an
    infinity.  [x - x] is zero for these and only for these. *)
Definition is_finite {F} `{PyFloat F} (x : F) : bool := feqb (fsub x x) (of_int 0).

(** ** Binary64: the value of a float and the float nearest to a value

    The notions in which the rounding of the operations of [float] is
    stated: [SpecFloat] defines the operations on a sign, a mantissa and an
    exponent; here are the value that these denote and the nearest float
    as a function of the value. *)

Module Binary64.
Local Open Scope Z_scope.

(** The number of binary digits of a mantissa. *)
Definition mag (m : positive) : Z := Zpos (digits2_pos m).

Definition fexp64 (g : Z) : Z := Z.max (g - 53) (-1074).

(** Round to nearest, ties to even, of [v] on the grid of step [w]. *)
Definition nearest (v w : Z) : Z :=
  v / w + match 2 * (v mod w) ?= w with
          | Gt => 1
          | Eq => if Z.odd (v / w) then 1 else 0
          | Lt => 0
          end.

Definition location_of (rest w : Z) : location :=
  if rest =? 0 then loc_Exact else loc_Inexact (2 * rest ?= w).

(** What [k] applications of [shr_1] make of the mantissa [m0]. *)
Definition shr_inv (m0 k : Z) (mrs : shr_record) : Prop :=
  shr_m mrs = m0 / 2 ^ k /\
  loc_of_shr_record mrs = location_of (m0 mod 2 ^ k) (2 ^ k).

(** The float that the second half of [binary_round_aux] makes of the
    rounded mantissa [k] at exponent [e]: zero, a finite float or an
    infinity. *)
Definition pack (s : bool) (k e : Z) : spec_float :=
  match k with
  | Zpos p => if e <=? 971 then S754_finite s p e else S754_infinity s
  | _ => S754_zero s
  end.

Definition canonical (k e : Z) : Prop :=
  match k with
  | Zpos p => fexp64 (mag p + e) = e
  | _ => k = 0
  end.

(** A float that is a zero, a canonical finite float or the infinity that
    stands for a canonical float beyond the largest one, with its value in
    units of [2^b]. *)
Definition represents (b : Z) (x : spec_float) (v : Z) : Prop :=
  exists s k e,
    x = pack s k e /\ canonical k e /\ 0 <= k /\ b <= e /\
    v = cond_Zopp s (k * 2 ^ (e - b)).

(** The value, in units of [2^b], of the binary64 float nearest to the
    value [v]; beyond the largest float it is the value that the float would
    have with an unbounded exponent. *)
Definition rndv (b v : Z) : Z :=
  let a := Z.abs v in
  let w := 2 ^ (fexp64 (Z.log2 a + 1 + b) - b) in
  Z.sgn v * (nearest a w * w).

Definition SFval (b : Z) (x : spec_float) : Z :=
  match x with
  | S754_finite s m e => cond_Zopp s (Zpos m * 2 ^ (e - b))
  | _ => 0
  end.

Definition SFfinite (x : spec_float) : bool :=
  match x with
  | S754_zero _ | S754_finite _ _ _ => true
  | _ => false
  end.

End Binary64.

(** ** Python strings *)

Module PyStr.

(** [sub in s] *)
Fixpoint contains (sub s : string) : bool :=
  String.prefix sub s ||
  match s with
  | EmptyString => false
  | String _ s' => contains sub s'
  end.

(** [s.replace(old, new)] for a non-empty [old]: every occurrence, left to
    right, without overlap.  [skip] counts the characters of a matched
    occurrence that are still to be dropped. *)
Fixpoint replace_from (old new : string) (skip : nat) (s : string) : string :=
  match s with
  | EmptyString => EmptyString
  | String c s' =>
      match skip with
      | S k => replace_from old new k s'
      | O =>
          if String.prefix old s
          then new +:+ replace_from old new (String.length old - 1) s'
          else String c (replace_from old new 0 s')
      end
  end.

Definition replace (old new s : string) : string := replace_from old new 0 s.

(** [s[:n]] *)
Fixpoint slice_to (n : nat) (s : string) : string :=
  match n, s with
  | S k, String c s' => String c (slice_to k s')
  | _, _ => EmptyString
  end.

Definition is_space (c : ascii) : bool :=
  let n := nat_of_ascii c in ((9 <=? n) && (n <=? 13)) || (n =? 32).

Definition is_digit (c : ascii) : bool :=
  let n := nat_of_ascii c in (48 <=? n) && (n <=? 57).

Definition digit_val (c : ascii) : Z := Z.of_nat (nat_of_ascii c) - 48.

Fixpoint lstrip (s : list ascii) : list ascii :=
  match s with
  | c :: s' => if is_space c then lstrip s' else s
  | [] => []
  end.

Definition strip (s : list ascii) : list ascii :=
  rev (lstrip (rev (lstrip s))).

(** Decimal digits, single underscores allowed between two digits.
    [prev] tells whether the previous character was a digit. *)
Fixpoint parse_digits (acc : Z) (prev : bool) (s : list ascii) : option Z :=
  match s with
  | [] => if prev then Some acc else None
  | c :: s' =>
      if is_digit c then parse_digits (acc * 10 + digit_val c) true s'
      else if Ascii.eqb c "_" && prev then parse_digits acc false s'
      else None
  end.

(** Whether every character of [s] is an ASCII character. *)
Definition is_ascii (s : string) : bool :=
  forallb (fun c => (nat_of_ascii c <? 128)%nat) (list_ascii_of_string s).

(** [int(s)] on an ASCII string, base 10: surrounding whitespace, an
    optional sign, digits.  [None] is [ValueError].  (On other strings
    Python also accepts the decimal digits and the blanks of other
    scripts, which this function does not know.) *)
Definition int (s : string) : option Z :=
  match strip (list_ascii_of_string s) with
  | c :: s' =>
      if Ascii.eqb c "-" then Z.opp <$> parse_digits 0 false s'
      else if Ascii.eqb c "+" then parse_digits 0 false s'
      else parse_digits 0 false (c :: s')
  | [] => None
  end.

End PyStr.

(** ** Time *)

Definition datetime := Z.
Definition timedelta := Z.

Definition timedelta_minutes (n : Z) : timedelta := (n * 60000000)%Z.
Definition timedelta_hours (n : Z) : timedelta := (n * 3600000000)%Z.
Definition timedelta_days (n : Z) : timedelta := (n * 86400000000)%Z.

(** [.month] of a timestamp: the civil month of its day number. *)
Definition month_of (t : datetime) : Z :=
  let z := (t / 86400000000 + 719468)%Z in
  let doe := (z mod 146097)%Z in
  let yoe := ((doe - doe / 1460 + doe / 36524 - doe / 146096) / 365)%Z in
  let doy := (doe - (365 * yoe + yoe / 4 - yoe / 100))%Z in
  let mp := ((5 * doy + 2) / 153)%Z in
  if (mp <? 10)%Z then (mp + 3)%Z else (mp - 9)%Z.

(** ** pandas: reading a column of timestamps *)

(** What [pd.to_datetime] makes of a column of texts each of which it can
    read as a timestamp when taken alone ([None] is a null cell).  This
    depends on the version of pandas and on the formats of the texts: from
    version 2.0 on the format is inferred from the first text, and the
    call raises when another text is written otherwise. *)
Inductive column_kind :=
| ColumnRaises          (* the call raises *)
| ColumnNaive           (* datetime64[ns]: timestamps without time zone *)
| ColumnAware           (* datetime64[ns, tz]: one time zone throughout *)
| ColumnObject.         (* several time zones: a column of objects, without [.dt] *)

Class Pandas := {
  to_datetime_kind : list (option string) -> column_kind
}.

(** A pandas that reads only ISO 8601 timestamps written to the second,
    all without offset ('1970-01-02T09:30:00') or all with the offset of
    UTC ('1970-01-02T09:30:00+00:00'): on these columns every version of
    pandas does the same. *)
Fixpoint matches_layout (layout text : list ascii) : bool :=
  match layout, text with
  | [], [] => true
  | p :: layout', c :: text' =>
      (if Ascii.eqb p "d" then PyStr.is_digit c else Ascii.eqb p c) &&
      matches_layout layout' text'
  | _, _ => false
  end.

Definition iso_seconds (text : option string) : bool :=
  match text with
  | Some text =>
      matches_layout (list_ascii_of_string "dddd-dd-ddTdd:dd:dd")
                     (list_ascii_of_string text)
  | None => true
  end.

Definition iso_seconds_utc (text : option string) : bool :=
  match text with
  | Some text =>
      matches_layout (list_ascii_of_string "dddd-dd-ddTdd:dd:dd+00:00")
                     (list_ascii_of_string text)
  | None => true
  end.

Definition iso_to_datetime_kind (texts : list (option string)) : column_kind :=
  if forallb iso_seconds texts then ColumnNaive
  else if forallb iso_seconds_utc texts then ColumnAware
  else ColumnRaises.

(** ** The threaded state: the clock and the calls made to collaborators *)

Inductive event :=
| DbQuery (table : string)
| OracleRun.

Record world := {
  clock : nat -> datetime;   (* readings of the successive [datetime.now()] calls *)
  trace : list event         (* most recent call first *)
}.

Definition M (A : Type) : Type := world -> A * world.

#[export] Instance M_ret : MRet M := fun A (a : A) w => (a, w).

#[export] Instance M_bind : MBind M :=
  fun A B (k : A -> M B) (m : M A) w => let (a, w') := m w in k a w'.

Definition now : M datetime :=
  fun w => (clock w 0%nat, {| clock := fun n => clock w (S n); trace := trace w |}).

Definition emit (e : event) : M unit :=
  fun w => (tt, {| clock := clock w; trace := e :: trace w |}).

(** ** agents/anomaly_detection.py *)

Module AnomalyDetection.
Section Thresholds.
Context {F : Type} `{PyFloat F}.

Definition alert_step (baseline_metrics : gmap string F) (sensitivity_factor : F)
    (metric : string) (value : F) (thresholds : gmap string F) : gmap string F :=
  if PyStr.contains "std" metric then
    <[ metric +:+ "_threshold" := fmul value sensitivity_factor ]> thresholds
  else
    let std_key := PyStr.replace "avg" "std" metric in
    match baseline_metrics !! std_key with
    | Some std_value =>
        <[ metric +:+ "_lower" := fsub value (fmul std_value sensitivity_factor) ]>
          (<[ metric +:+ "_upper" := fadd value (fmul std_value sensitivity_factor) ]>
             thresholds)
    | None => thresholds
    end.

Definition _calculate_alert_thresholds
    (baseline_metrics : gmap string F) (sensitivity : F) : gmap string F :=
  let sensitivity_factor := fsub (lit 2.0%Q) sensitivity in
  map_fold (alert_step baseline_metrics sensitivity_factor) ∅ baseline_metrics.

End Thresholds.

Section Normalizer.
Context {F : Type} `{PyFloat F}.
Context {Row Patterns : Type}.   (* a fetched record; the recent-pattern summary *)

(** models/responses.py *)
Record AnomalyItem := {
  anomaly_type : string;
  severity : string;
  description : string;
  affected_entities : list string;
  detected_at : datetime;
  recommendation : option string
}.

Record AnomalyDetectionResponse := {
  anomalies : option (list AnomalyItem);
  total_anomalies : Z;
  analysis_period : gmap string datetime;
  model_confidence : option F;
  next_check_recommended : option datetime
}.

Record AnomalyContext := {
  historical_data : list Row;
  baseline_metrics : gmap string F;
  alert_thresholds : gmap string F;
  recent_patterns : Patterns
}.

Definition count_critical (l : list AnomalyItem) : nat :=
  length (filter (fun a => String.eqb (severity a) "critical" = true) l).

Definition quality_confidence (context : AnomalyContext) : F :=
  let data_quality_score :=
    py_min (fdiv (of_int (Z.of_nat (length (historical_data context)))) (of_int 100))
           (lit 1.0%Q) in
  let baseline_quality_score :=
    py_min (fdiv (of_int (Z.of_nat (size (baseline_metrics context)))) (of_int 10))
           (lit 1.0%Q) in
  fdiv (fadd data_quality_score baseline_quality_score) (of_int 2).

Definition _enhance_detection_result (result : AnomalyDetectionResponse)
    (context : AnomalyContext) (time_range : gmap string datetime)
    : M AnomalyDetectionResponse :=
  let anomalies1 :=
    match anomalies result with
    | Some (a :: l) => a :: l
    | _ => []
    end in
  let total := Z.of_nat (length anomalies1) in
  let confidence :=
    match model_confidence result with
    | Some c => if feqb c (of_int 0) then quality_confidence context else c
    | None => quality_confidence context
    end in
  next ← match next_check_recommended result with
         | Some t => mret t
         | None =>
             if (0 <? total)%Z then
               if (0 <? count_critical anomalies1)%nat
               then t ← now; mret (t + timedelta_minutes 15)%Z
               else t ← now; mret (t + timedelta_hours 1)%Z
             else t ← now; mret (t + timedelta_hours 4)%Z
         end;
  mret {| anomalies := Some anomalies1;
          total_anomalies := total;
          analysis_period := time_range;
          model_confidence := Some confidence;
          next_check_recommended := Some next |}.

End Normalizer.
Arguments AnomalyItem : clear implicits.
Arguments AnomalyDetectionResponse : clear implicits.
Arguments AnomalyContext : clear implicits.
End AnomalyDetection.

(** ** agents/demand_forecasting.py *)

(** [range(a, b)] *)
Definition py_range (a b : Z) : list Z :=
  map (fun i => (a + Z.of_nat i)%Z) (seq 0 (Z.to_nat (b - a))).

(** A list comprehension whose element expression has effects: the
    elements are evaluated from left to right. *)
Fixpoint comprehension {A B} (f : A -> M B) (l : list A) : M (list B) :=
  match l with
  | [] => mret []
  | a :: l' => b ← f a; bs ← comprehension f l'; mret (b :: bs)
  end.

Module DemandForecasting.
Section WithFloat.
Context {F : Type} `{PyFloat F} `{Pandas}.

(** models/responses.py *)
Record DemandForecastItem := {
  product_id : string;
  warehouse_id : option string;
  date : datetime;
  predicted_demand : F;
  confidence_score : F;
  seasonal_factor : option F
}.

Record DemandForecastResponse := {
  forecasts : list DemandForecastItem;
  model_accuracy : option F;
  generated_at : datetime;
  forecast_horizon_days : Z
}.

(** A row of [order_items] joined with its order.  The [orders] cell is
    what the lambda of [_calculate_seasonal_patterns] and
    [pd.to_datetime] see.  The [quantity] cell is [None] when the row has
    no 'quantity' key and [Some None] when the key holds a null; a
    quantity that is present is a number. *)
Inductive created_at_cell :=
| CreatedKeyMissing            (* the dict has no 'created_at': KeyError *)
| CreatedNull                  (* None: becomes NaT *)
| CreatedInvalid               (* a value that is no timestamp: to_datetime raises *)
| CreatedAt (text : string) (t : datetime).
                               (* a timestamp: its text, and the wall-clock
                                  time that the text denotes *)

Inductive orders_cell :=
| OrdersAbsent                 (* the row has no 'orders' key *)
| OrdersNotDict                (* None or any value that is not a dict *)
| OrdersDict (created_at : created_at_cell).

Record order_item := {
  orders : orders_cell;
  quantity : option (option F)
}.

Record DemandContext := {
  historical_data : list order_item;
  seasonal_patterns : gmap string F;
  external_factors : gmap string string
}.

(** [Series.mean()] over the cells that are not null. *)
Definition mean (cells : list F) : F :=
  fdiv (fold_left fadd cells (of_int 0)) (of_int (Z.of_nat (length cells))).

(** What the lambda returns for a row; [None] when it raises [KeyError]. *)
Definition date_cell (r : order_item) : option created_at_cell :=
  match orders r with
  | OrdersDict CreatedKeyMissing => None
  | OrdersDict cell => Some cell
  | _ => Some CreatedNull
  end.

(** [df['orders'].apply(lambda ...)] *)
Fixpoint created_at_column (data : list order_item) : option (list created_at_cell) :=
  match data with
  | [] => Some []
  | r :: data' =>
      match date_cell r, created_at_column data' with
      | Some cell, Some cells => Some (cell :: cells)
      | _, _ => None
      end
  end.

Definition cell_invalid (cell : created_at_cell) : bool :=
  match cell with CreatedInvalid => true | _ => false end.

Definition cell_text (cell : created_at_cell) : option string :=
  match cell with CreatedAt text _ => Some text | _ => None end.

Definition cell_time (cell : created_at_cell) : option datetime :=
  match cell with CreatedAt _ t => Some t | _ => None end.

(** [pd.to_datetime] on the column, as the rest of the function sees it:
    [None] when the call raises, and when it returns a column of objects,
    on which [.dt] raises. *)
Definition to_datetime (cells : list created_at_cell) : option (list (option datetime)) :=
  if existsb cell_invalid cells then None
  else
    match to_datetime_kind (map cell_text cells) with
    | ColumnNaive | ColumnAware => Some (map cell_time cells)
    | ColumnRaises | ColumnObject => None
    end.

(** A cell of the 'quantity' column: a null and a missing key are both NaN. *)
Definition quantity_cell (r : order_item) : option F :=
  match quantity r with
  | Some (Some q) => Some q
  | _ => None
  end.

(** The 'date' column, next to the 'quantity' column. *)
Definition date_column (data : list order_item)
    : option (list (option datetime * option F)) :=
  match created_at_column data with
  | Some cells =>
      match to_datetime cells with
      | Some dates => Some (zip dates (map quantity_cell data))
      | None => None
      end
  | None => None
  end.

(** [df.dropna(subset=['date'])], keeping the month and the quantity. *)
Definition dropna (col : list (option datetime * option F)) : list (Z * option F) :=
  omap (fun '(d, q) => match d with Some t => Some (month_of t, q) | None => None end) col.

Definition has_orders_column (data : list order_item) : bool :=
  existsb (fun r => match orders r with OrdersAbsent => false | _ => true end) data.

(** ['quantity' in df.columns]: some row has the key. *)
Definition has_quantity_column (data : list order_item) : bool :=
  existsb (fun r => match quantity r with Some _ => true | None => false end) data.

Definition quantities (rows : list (Z * option F)) : list F :=
  omap snd rows.

Definition month_rows (month : Z) (rows : list (Z * option F)) : list (Z * option F) :=
  filter (fun r => r.1 = month) rows.

Definition month_key (month : Z) : string := "month_" +:+ pretty month.

Definition seasonal_entry (rows : list (Z * option F)) (month : Z) : F :=
  match month_rows month rows with
  | _ :: _ => fdiv (mean (quantities (month_rows month rows))) (mean (quantities rows))
  | [] => lit 1.0%Q
  end.

Definition _calculate_seasonal_patterns (historical_data : list order_item)
    : gmap string F :=
  match historical_data with
  | [] => ∅
  | _ :: _ =>
      if negb (has_orders_column historical_data) then ∅
      else
        match date_column historical_data with
        | None => ∅
        | Some col =>
            match dropna col with
            | [] => ∅
            | rows =>
                if negb (has_quantity_column historical_data) then ∅
                else
                  fold_left
                    (fun seasonal_patterns month =>
                       <[ month_key month := seasonal_entry rows month ]> seasonal_patterns)
                    (py_range 1 13) ∅
            end
        end
  end.

Definition _get_external_factors : gmap string string :=
  <[ "competitive_landscape" := "stable" ]>
    (<[ "supply_chain_status" := "normal" ]>
       (<[ "market_trend" := "growing" ]>
          (<[ "economic_indicator" := "stable" ]> ∅))).

(** The brief handed to the oracle, before it is laid out as text. *)
Record ForecastPrompt := {
  prompt_products : string;
  prompt_warehouses : string;
  prompt_forecast_days : Z;
  prompt_total_records : nat;
  prompt_seasonal : gmap string F;
  prompt_external : gmap string string
}.

Definition _build_forecast_prompt (product_ids : list string)
    (warehouse_ids : option (list string)) (forecast_days : Z)
    (context : DemandContext) : ForecastPrompt :=
  {| prompt_products := String.concat ", " product_ids;
     prompt_warehouses :=
       match warehouse_ids with
       | Some (w :: ws) => String.concat ", " (w :: ws)
       | _ => "All"
       end;
     prompt_forecast_days := forecast_days;
     prompt_total_records := length (historical_data context);
     prompt_seasonal := seasonal_patterns context;
     prompt_external := external_factors context |}.

Definition placeholder (i : Z) : M DemandForecastItem :=
  t ← now;
  mret {| product_id := "sample_product";
          warehouse_id := None;
          date := (t + timedelta_days i)%Z;
          predicted_demand := lit 10.0%Q;
          confidence_score := lit 0.7%Q;
          seasonal_factor := Some (lit 1.0%Q) |}.

Definition _enhance_forecast_result (result : DemandForecastResponse)
    (forecast_days : Z) : M DemandForecastResponse :=
  forecasts1 ← match forecasts result with
               | [] => comprehension placeholder (py_range 0 (Z.min forecast_days 7))
               | _ :: _ => mret (forecasts result)
               end;
  generated ← now;
  let accuracy :=
    match model_accuracy result with
    | Some a => if feqb a (of_int 0) then lit 0.85%Q else a
    | None => lit 0.85%Q
    end in
  mret {| forecasts := forecasts1;
          model_accuracy := Some accuracy;
          generated_at := generated;
          forecast_horizon_days := forecast_days |}.

(** The collaborators of the agent: the [order_items] query ([None] when
    it raises) and the run of the oracle ([None] when it fails). *)
Record collaborators := {
  select_order_items :
    list string -> option (list string) -> datetime -> option (list order_item);
  agent_run : ForecastPrompt -> option DemandForecastResponse
}.

Definition _fetch_historical_data (env : collaborators) (product_ids : list string)
    (warehouse_ids : option (list string)) : M (list order_item) :=
  let warehouse_filter :=
    match warehouse_ids with
    | Some (w :: ws) => Some (w :: ws)
    | _ => None
    end in
  t ← now;
  let start_date := (t - timedelta_days 365)%Z in
  _ ← emit (DbQuery "order_items");
  mret (match select_order_items env product_ids warehouse_filter start_date with
        | Some data => data
        | None => []
        end).

(** The first half of [forecast_demand]: the context it assembles. *)
Definition forecast_context (env : collaborators) (product_ids : list string)
    (warehouse_ids : option (list string)) (include_seasonality : bool)
    : M DemandContext :=
  historical ← _fetch_historical_data env product_ids warehouse_ids;
  let seasonal :=
    if include_seasonality then _calculate_seasonal_patterns historical else ∅ in
  mret {| historical_data := historical;
          seasonal_patterns := seasonal;
          external_factors := _get_external_factors |}.

Definition forecast_demand (env : collaborators) (product_ids : list string)
    (warehouse_ids : option (list string)) (forecast_days : Z)
    (include_seasonality : bool) : M (option DemandForecastResponse) :=
  context ← forecast_context env product_ids warehouse_ids include_seasonality;
  let prompt := _build_forecast_prompt product_ids warehouse_ids forecast_days context in
  _ ← emit OracleRun;
  match agent_run env prompt with
  | None => mret None
  | Some output =>
      result ← _enhance_forecast_result output forecast_days;
      mret (Some result)
  end.

End WithFloat.
Arguments DemandForecastItem : clear implicits.
Arguments DemandForecastResponse : clear implicits.
Arguments order_item : clear implicits.
Arguments DemandContext : clear implicits.
Arguments ForecastPrompt : clear implicits.
Arguments collaborators : clear implicits.
End DemandForecasting.

(** ** agents/delivery_prediction.py *)

Module DeliveryPrediction.

(** [int(zip[:3]) if zip else 0]; [None] when [int] raises. *)
Definition zip_prefix (zip : option string) : option Z :=
  match zip with
  | Some (String c s) => PyStr.int (PyStr.slice_to 3 (String c s))
  | _ => Some 0%Z
  end.

Definition _estimate_distance (origin_zip dest_zip : option string) : Z :=
  match zip_prefix origin_zip with
  | None => 500
  | Some origin_num =>
      match zip_prefix dest_zip with
      | None => 500
      | Some dest_num =>
          let zip_diff := Z.abs (origin_num - dest_num) in
          Z.min (zip_diff * 50) 3000
      end
  end%Z.

End DeliveryPrediction.

(** ** models/requests.py *)

Module Requests.
Section WithFloat.
Context {F : Type} `{PyFloat F}.

Inductive validation_error :=
| Missing (field : string)
| GreaterThanEqual (field : string)       (* the [ge] bound is violated *)
| LessThanEqual (field : string).         (* the [le] bound is violated *)

Inductive validated (A : Type) :=
| Valid (a : A)
| Invalid (errors : list validation_error).
Arguments Valid {A} a.
Arguments Invalid {A} errors.

(** [Field(default, ge=lo, le=hi)] on an [int] *)
Definition check_int_range (field : string) (lo hi v : Z) : list validation_error :=
  (if (lo <=? v)%Z then [] else [GreaterThanEqual field]) ++
  (if (v <=? hi)%Z then [] else [LessThanEqual field]).

(** [Field(default, ge=lo, le=hi)] on a [float] *)
Definition check_float_range (field : string) (lo hi v : F) : list validation_error :=
  (if fleb lo v then [] else [GreaterThanEqual field]) ++
  (if fleb v hi then [] else [LessThanEqual field]).

Definition required {A} (field : string) (v : option A) : list validation_error :=
  match v with
  | Some _ => []
  | None => [Missing field]
  end.

(** A request body as received, with fields of the declared types (a body
    with a field of another type, or with a null for a field that is not
    optional, is refused as well, and is not described here): a field the
    body omits is [None]. *)
Record DemandForecastBody := {
  body_product_ids : option (list string);
  body_warehouse_ids : option (list string);
  body_forecast_days : option Z;
  body_include_seasonality : option bool
}.

Record DemandForecastRequest := {
  product_ids : list string;
  warehouse_ids : option (list string);
  forecast_days : Z;
  include_seasonality : bool
}.

Definition validate_DemandForecastRequest (body : DemandForecastBody)
    : validated DemandForecastRequest :=
  let errors :=
    required "product_ids" (body_product_ids body) ++
    match body_forecast_days body with
    | Some d => check_int_range "forecast_days" 1 365 d
    | None => []
    end in
  match body_product_ids body, errors with
  | Some ids, [] =>
      Valid {| product_ids := ids;
               warehouse_ids := body_warehouse_ids body;
               forecast_days := default 30%Z (body_forecast_days body);
               include_seasonality := default true (body_include_seasonality body) |}
  | _, _ => Invalid errors
  end.

Record AnomalyDetectionBody := {
  body_data_type : option string;
  body_time_range : option (gmap string datetime);
  body_sensitivity : option F;
  body_include_recommendations : option bool
}.

Record AnomalyDetectionRequest := {
  data_type : string;
  time_range : gmap string datetime;
  sensitivity : F;
  include_recommendations : bool
}.

Definition validate_AnomalyDetectionRequest (body : AnomalyDetectionBody)
    : validated AnomalyDetectionRequest :=
  let errors :=
    required "data_type" (body_data_type body) ++
    required "time_range" (body_time_range body) ++
    match body_sensitivity body with
    | Some s => check_float_range "sensitivity" (lit 0.0%Q) (lit 1.0%Q) s
    | None => []
    end in
  match body_data_type body, body_time_range body, errors with
  | Some dt, Some tr, [] =>
      Valid {| data_type := dt;
               time_range := tr;
               sensitivity := default (lit 0.5%Q) (body_sensitivity body);
               include_recommendations :=
                 default true (body_include_recommendations body) |}
  | _, _, _ => Invalid errors
  end.

End WithFloat.
Arguments Valid {A} a.
Arguments Invalid {A} errors.
Arguments DemandForecastBody : clear implicits.
Arguments AnomalyDetectionBody : clear implicits.
Arguments AnomalyDetectionRequest : clear implicits.
End Requests.

(** ** main.py *)

Module Main.
Section WithFloat.
Context {F : Type} `{PyFloat F}.
Context {DemandResponse AnomalyResponse : Type}.

Inductive http_response (A : Type) :=
| Http200 (body : A)
| Http422 (errors : list Requests.validation_error)   (* the body fails validation *)
| Http500 (detail : string)
| Http503 (detail : string).
Arguments Http200 {A} body.
Arguments Http422 {A} errors.
Arguments Http500 {A} detail.
Arguments Http503 {A} detail.

(** What a call of an agent's method does: it returns its result, or it
    raises an exception [e], of which the endpoint uses the text [str(e)]. *)
Inductive outcome (A : Type) :=
| Returned (result : A)
| Raised (message : string).
Arguments Returned {A} result.
Arguments Raised {A} message.

(** The agents are process-wide objects that are [None] until start-up. *)
Definition demand_method : Type :=
  list string -> option (list string) -> Z -> bool -> M (outcome DemandResponse).

Definition anomaly_method : Type :=
  string -> gmap string datetime -> F -> bool -> M (outcome AnomalyResponse).

(** The answer to a body that fails validation lists the errors together
    with the inputs at fault, as JSON.  A float that is not finite cannot
    be written as JSON: with one among the inputs the answer cannot be
    rendered, and the client gets a bare 500. *)
Definition validation_response {A} (inputs_finite : bool)
    (errors : list Requests.validation_error) : http_response A :=
  if inputs_finite then Http422 errors else Http500 "Internal Server Error".

Definition forecast_demand (demand_agent : option demand_method)
    (body : Requests.DemandForecastBody) : M (http_response DemandResponse) :=
  match Requests.validate_DemandForecastRequest body with
  | Requests.Invalid errors => mret (validation_response true errors)
  | Requests.Valid request =>
      match demand_agent with
      | None => mret (Http503 "Demand forecasting agent not initialized")
      | Some agent =>
          result ← agent (Requests.product_ids request)
                         (Requests.warehouse_ids request)
                         (Requests.forecast_days request)
                         (Requests.include_seasonality request);
          mret match result with
               | Returned r => Http200 r
               | Raised message => Http500 ("Forecasting error: " +:+ message)
               end
      end
  end.

Definition detect_anomalies (anomaly_agent : option anomaly_method)
    (body : Requests.AnomalyDetectionBody F) : M (http_response AnomalyResponse) :=
  match Requests.validate_AnomalyDetectionRequest body with
  | Requests.Invalid errors =>
      let inputs_finite :=
        match Requests.body_sensitivity body with
        | Some s => is_finite s
        | None => true
        end in
      mret (validation_response inputs_finite errors)
  | Requests.Valid request =>
      match anomaly_agent with
      | None => mret (Http503 "Anomaly detection agent not initialized")
      | Some agent =>
          result ← agent (Requests.data_type request)
                         (Requests.time_range request)
                         (Requests.sensitivity request)
                         (Requests.include_recommendations request);
          mret match result with
               | Returned r => Http200 r
               | Raised message => Http500 ("Detection error: " +:+ message)
               end
      end
  end.

(** The method of an agent as the endpoint calls it, from the model of
    the method, which returns [None] when the method raises: [failure] is
    the text of the exception that the call raises, if it raises one. *)
Definition raising {A} (failure : string) (call : M (option A)) : M (outcome A) :=
  result ← call;
  mret match result with
       | Some r => Returned r
       | None => Raised failure
       end.

Definition raising_method {A B C D R} (failure : string)
    (method : A -> B -> C -> D -> M (option R)) : A -> B -> C -> D -> M (outcome R) :=
  fun a b c d => raising failure (method a b c d).

End WithFloat.
Arguments Http200 {A} body.
Arguments Http422 {A} errors.
Arguments Http500 {A} detail.
Arguments Http503 {A} detail.
Arguments Returned {A} result.
Arguments Raised {A} message.
End Main.

(** ** agents/delivery_prediction.py: the pipeline around the distance heuristic *)

(** [s.lower()], for a string of ASCII characters *)
Definition lower_char (c : ascii) : ascii :=
  let n := nat_of_ascii c in
  if (65 <=? n)%nat && (n <=? 90)%nat then ascii_of_nat (n + 32) else c.

Fixpoint py_lower (s : string) : string :=
  match s with
  | EmptyString => EmptyString
  | String c s' => String (lower_char c) (py_lower s')
  end.

(** A [datetime] object that the service receives: without time zone
    (naive), or aware of one.  Subtracting a naive [datetime] from an
    aware one raises [TypeError]. *)
Inductive datetime_value :=
| Naive (t : datetime)
| Aware (t : datetime).

Module DeliveryPipeline.
Section WithFloat.
Context {F : Type} `{PyFloat F}.
Context {Row Alternative : Type}.   (* a fetched order; an alternative option *)

(** models/responses.py *)
Record DeliveryPredictionResponse := {
  estimated_delivery_date : option datetime_value;
  confidence_score : option F;
  transit_days : option Z;
  carrier_recommendation : option string;
  factors_considered : option (list string);
  alternative_options : option (list Alternative)
}.

(** The mapping [_get_carrier_performance] returns; [service_levels] is
    read with [.get], so it may be absent. *)
Record carrier_performance_data := {
  on_time_rate : F;
  average_transit_days : F;
  service_levels : option (gmap string Z)
}.

Definition levels (standard express overnight : Z) : gmap string Z :=
  <[ "overnight" := overnight ]> (<[ "express" := express ]> (<[ "standard" := standard ]> ∅)).

Definition carriers_data : gmap string carrier_performance_data :=
  <[ "usps" := {| on_time_rate := lit 0.85%Q;
                  average_transit_days := lit 4.1%Q;
                  service_levels := Some (levels 5 3 2) |} ]>
    (<[ "ups" := {| on_time_rate := lit 0.89%Q;
                    average_transit_days := lit 3.5%Q;
                    service_levels := Some (levels 4 2 1) |} ]>
       (<[ "fedex" := {| on_time_rate := lit 0.92%Q;
                         average_transit_days := lit 3.2%Q;
                         service_levels := Some (levels 4 2 1) |} ]> ∅)).

Definition average_performance : carrier_performance_data :=
  {| on_time_rate := lit 0.89%Q;
     average_transit_days := lit 3.6%Q;
     service_levels := Some (levels 4 2 1) |}.

Definition _get_carrier_performance (carrier : option string) : carrier_performance_data :=
  match carrier with
  | Some (String c s) =>
      match carriers_data !! py_lower (String c s) with
      | Some data => data
      | None => average_performance
      end
  | _ => average_performance
  end.

Record weather_data := {
  origin_weather : string;
  destination_weather : string;
  route_conditions : string;
  seasonal_factor : F;
  weather_delays_expected : bool
}.

Definition _get_weather_conditions (origin_warehouse : string)
    (destination_address : gmap string string) : weather_data :=
  {| origin_weather := "clear";
     destination_weather := "clear";
     route_conditions := "normal";
     seasonal_factor := lit 1.0%Q;
     weather_delays_expected := false |}.

Record distance_data_record := {
  estimated_miles : Z;
  estimated_driving_hours : F;
  route_complexity : string;
  major_cities_on_route : list string;
  border_crossings : Z
}.

Record DeliveryContext := {
  historical_deliveries : list Row;
  carrier_performance : carrier_performance_data;
  weather_conditions : weather_data;
  distance_data : distance_data_record
}.

(** The brief handed to the oracle, before it is laid out as text. *)
Record PredictionPrompt := {
  prompt_origin : string;
  prompt_city : string;
  prompt_state : string;
  prompt_zip : string;
  prompt_products : string;
  prompt_carrier : string;
  prompt_service_level : option string;   (* None when the request sent null *)
  prompt_deliveries_analyzed : nat;
  prompt_carrier_performance : carrier_performance_data;
  prompt_distance : distance_data_record;
  prompt_weather : weather_data
}.

Definition _build_prediction_prompt (origin_warehouse : string)
    (destination_address : gmap string string) (product_ids : list string)
    (carrier : option string) (service_level : option string) (context : DeliveryContext)
    : PredictionPrompt :=
  {| prompt_origin := origin_warehouse;
     prompt_city := default EmptyString (destination_address !! "city");
     prompt_state := default EmptyString (destination_address !! "state");
     prompt_zip := default EmptyString (destination_address !! "zip");
     prompt_products := String.concat ", " product_ids;
     prompt_carrier :=
       match carrier with
       | Some (String c s) => String c s
       | _ => "Not specified"
       end;
     prompt_service_level := service_level;
     prompt_deliveries_analyzed := length (historical_deliveries context);
     prompt_carrier_performance := carrier_performance context;
     prompt_distance := distance_data context;
     prompt_weather := weather_conditions context |}.

(** The collaborators of the agent.  A query returns [None] when it
    raises; a cell of a warehouse row is [None] when it is null; the run
    of the oracle returns [None] when it fails.  [predict_delivery]
    itself returns [None] when it raises. *)
Record collaborators := {
  select_orders : string -> option string -> datetime -> option (list Row);
  select_warehouse : string -> option (list (gmap string (option string)));
  agent_run : PredictionPrompt -> option DeliveryPredictionResponse
}.

Definition _fetch_historical_deliveries (env : collaborators) (origin_warehouse : string)
    (destination_address : gmap string string) (carrier : option string)
    : M (list Row) :=
  let carrier_filter :=
    match carrier with
    | Some (String c s) => Some (String c s)
    | _ => None
    end in
  t ← now;
  let start_date := (t - timedelta_days 180)%Z in
  _ ← emit (DbQuery "orders");
  mret (match select_orders env origin_warehouse carrier_filter start_date with
        | Some data => data
        | None => []
        end).

(** [d.get('zip', '')] on a row whose cells may be null *)
Definition get_zip (row : gmap string (option string)) : option string :=
  match row !! "zip" with
  | Some cell => cell
  | None => Some EmptyString
  end.

Definition _calculate_distance_data (env : collaborators) (origin_warehouse : string)
    (destination_address : gmap string string) : M distance_data_record :=
  _ ← emit (DbQuery "warehouses");
  mret match select_warehouse env origin_warehouse with
       | Some rows =>
           let warehouse_data :=
             match rows with
             | row :: _ => row
             | [] => ∅
             end in
           let estimated_miles :=
             DeliveryPrediction._estimate_distance
               (get_zip warehouse_data)
               (Some (default EmptyString (destination_address !! "zip"))) in
           {| estimated_miles := estimated_miles;
              estimated_driving_hours := fdiv (of_int estimated_miles) (of_int 50);
              route_complexity := "medium";
              major_cities_on_route := [];
              border_crossings := 0 |}
       | None =>
           {| estimated_miles := 500;
              estimated_driving_hours := of_int 10;
              route_complexity := "medium";
              major_cities_on_route := [];
              border_crossings := 0 |}
       end.

(** [context.carrier_performance.get('service_levels', {}).get('standard', 4)] *)
Definition standard_days (context : DeliveryContext) : Z :=
  default 4%Z (default ∅ (service_levels (carrier_performance context)) !! "standard").

Definition default_factors : list string :=
  [ "Historical performance data";
    "Distance and route complexity";
    "Carrier performance metrics";
    "Weather conditions";
    "Service level requirements" ].

(** [td.days] of a [timedelta]: whole days, rounded down. *)
Definition timedelta_whole_days (td : timedelta) : Z := (td / 86400000000)%Z.

(** [(delivery_date - datetime.now()).days]; [None] when the subtraction
    raises [TypeError]. *)
Definition days_until (delivery_date : datetime_value) : M (option Z) :=
  t ← now;
  mret match delivery_date with
       | Naive d => Some (timedelta_whole_days (d - t)%Z)
       | Aware _ => None
       end.

(** [None] when the function raises. *)
Definition _enhance_prediction_result (result : DeliveryPredictionResponse)
    (context : DeliveryContext) : M (option DeliveryPredictionResponse) :=
  delivery_date ← match estimated_delivery_date result with
                  | Some d => mret d
                  | None =>
                      let base_days := standard_days context in
                      t ← now; mret (Naive (t + timedelta_days base_days)%Z)
                  end;
  let confidence :=
    match confidence_score result with
    | Some c => if feqb c (of_int 0) then lit 0.8%Q else c
    | None => lit 0.8%Q
    end in
  transit ← match transit_days result with
            | Some n => if (n =? 0)%Z then days_until delivery_date else mret (Some n)
            | None => days_until delivery_date
            end;
  let carrier :=
    match carrier_recommendation result with
    | Some (String c s) => String c s
    | _ => "FedEx"
    end in
  let factors :=
    match factors_considered result with
    | Some (f :: fs) => f :: fs
    | _ => default_factors
    end in
  mret match transit with
       | Some transit =>
           Some {| estimated_delivery_date := Some delivery_date;
                   confidence_score := Some confidence;
                   transit_days := Some transit;
                   carrier_recommendation := Some carrier;
                   factors_considered := Some factors;
                   alternative_options := alternative_options result |}
       | None => None
       end.

(** The first half of [predict_delivery]: the context it assembles. *)
Definition delivery_context (env : collaborators) (origin_warehouse : string)
    (destination_address : gmap string string) (carrier : option string)
    : M DeliveryContext :=
  historical_data ← _fetch_historical_deliveries env origin_warehouse
                      destination_address carrier;
  let carrier_performance := _get_carrier_performance carrier in
  let weather_conditions := _get_weather_conditions origin_warehouse destination_address in
  distance_data ← _calculate_distance_data env origin_warehouse destination_address;
  mret {| historical_deliveries := historical_data;
          carrier_performance := carrier_performance;
          weather_conditions := weather_conditions;
          distance_data := distance_data |}.

Definition predict_delivery (env : collaborators) (origin_warehouse : string)
    (destination_address : gmap string string) (product_ids : list string)
    (carrier : option string) (service_level : option string)
    : M (option DeliveryPredictionResponse) :=
  context ← delivery_context env origin_warehouse destination_address carrier;
  let prompt :=
    _build_prediction_prompt origin_warehouse destination_address product_ids
      carrier service_level context in
  _ ← emit OracleRun;
  match agent_run env prompt with
  | None => mret None
  | Some output => _enhance_prediction_result output context
  end.

End WithFloat.
Arguments DeliveryPredictionResponse : clear implicits.
Arguments carrier_performance_data : clear implicits.
Arguments weather_data : clear implicits.
Arguments distance_data_record : clear implicits.
Arguments collaborators : clear implicits.
Arguments DeliveryContext : clear implicits.
Arguments PredictionPrompt : clear implicits.
End DeliveryPipeline.

(** ** agents/anomaly_detection.py: fetching, baselines, recent patterns, pipeline *)

(** The statistics of a pandas [Series] that the agent uses besides the
    mean, over the cells that are not null: [std], [var] (both with one
    degree of freedom removed), [max] and [min].  The properties below
    hold for any implementation of them. *)
Class SeriesStats (F : Type) := {
  series_std : list F -> F;
  series_var : list F -> F;
  series_max : list F -> F;
  series_min : list F -> F
}.

(** On binary64: the two-pass formulas, with one degree of freedom removed;
    a series with fewer than two cells has no variance, an empty one no
    extremum. *)
Definition float_var (cells : list float) : float :=
  if (length cells <=? 1)%nat then PrimFloat.nan
  else
    let m := PrimFloat.div (fold_left PrimFloat.add cells (float_of_Z 0))
                           (float_of_Z (Z.of_nat (length cells))) in
    PrimFloat.div
      (fold_left (fun acc x =>
                    PrimFloat.add acc (PrimFloat.mul (PrimFloat.sub x m) (PrimFloat.sub x m)))
                 cells (float_of_Z 0))
      (float_of_Z (Z.of_nat (length cells) - 1)).

Definition float_extremum (better : float -> float -> bool) (cells : list float) : float :=
  match cells with
  | [] => PrimFloat.nan
  | x :: rest => fold_left (fun best y => if better y best then y else best) rest x
  end.

#[export] Instance float_SeriesStats : SeriesStats float := {|
  series_std cells := PrimFloat.sqrt (float_var cells);
  series_var := float_var;
  series_max := float_extremum (fun y best => PrimFloat.ltb best y);
  series_min := float_extremum PrimFloat.ltb
|}.

(** [groupby(key).size()]: the keys in increasing order, each with the
    number of rows that carry it. *)
Fixpoint count_key (k : Z) (sizes : list (Z * nat)) : list (Z * nat) :=
  match sizes with
  | [] => [(k, 1%nat)]
  | (k', n) :: rest =>
      if (k <? k')%Z then (k, 1%nat) :: (k', n) :: rest
      else if (k =? k')%Z then (k', S n) :: rest
      else (k', n) :: count_key k rest
  end.

Definition group_sizes (keys : list Z) : list (Z * nat) :=
  fold_right count_key [] keys.

(** [idxmax()] and [idxmin()]: the first key, in index order, whose size is
    the largest (smallest). *)
Fixpoint idxmax (sizes : list (Z * nat)) : option (Z * nat) :=
  match sizes with
  | [] => None
  | (k, n) :: rest =>
      match idxmax rest with
      | Some (k', n') => if (n <? n')%nat then Some (k', n') else Some (k, n)
      | None => Some (k, n)
      end
  end.

Fixpoint idxmin (sizes : list (Z * nat)) : option (Z * nat) :=
  match sizes with
  | [] => None
  | (k, n) :: rest =>
      match idxmin rest with
      | Some (k', n') => if (n' <? n)%nat then Some (k', n') else Some (k, n)
      | None => Some (k, n)
      end
  end.

Module AnomalyPipeline.
Section WithFloat.
Context {F : Type} `{PyFloat F} `{SeriesStats F} `{Pandas}.

(** A fetched row: its numeric cells by column name (a cell that is
    present holds a number), and its 'created_at' cell ([None] when the row
    has no such key).  The other columns of a
    row play no part in the computations. *)
Inductive timestamp_cell :=
| TsNull                         (* None: becomes NaT *)
| TsInvalid                      (* a value that is no timestamp: to_datetime raises *)
| TsAt (text : string) (t : datetime).
                                 (* a timestamp: its text, and the wall-clock
                                    time that the text denotes *)

Record row := {
  numbers : gmap string F;
  created_at : option timestamp_cell
}.

(** The record source: the rows of a table created within two bounds, in
    creation order; [None] when the query raises. *)
Definition record_source : Type := string -> datetime -> datetime -> option (list row).

Definition fetch_table (source : record_source) (table : string)
    (start_date end_date : datetime) : M (option (list row)) :=
  _ ← emit (DbQuery table);
  mret (source table start_date end_date).

Definition _fetch_inventory_data := fun source => fetch_table source "inventory_movements".
Definition _fetch_pricing_data := fun source => fetch_table source "pricing_history".
Definition _fetch_order_data := fun source => fetch_table source "orders".

Definition _fetch_data_for_analysis (source : record_source) (data_type : string)
    (time_range : gmap string datetime) : M (list row) :=
  match time_range !! "start", time_range !! "end" with
  | Some start_date, Some end_date =>
      if String.eqb data_type "inventory" then
        data ← _fetch_inventory_data source start_date end_date; mret (default [] data)
      else if String.eqb data_type "pricing" then
        data ← _fetch_pricing_data source start_date end_date; mret (default [] data)
      else if String.eqb data_type "orders" then
        data ← _fetch_order_data source start_date end_date; mret (default [] data)
      else mret []
  | _, _ => mret []
  end.

(** ['col' in df.columns], and the cells of the column that are not null *)
Definition has_column (col : string) (data : list row) : bool :=
  existsb (fun r => bool_decide (is_Some (numbers r !! col))) data.

Definition column (col : string) (data : list row) : list F :=
  omap (fun r => numbers r !! col) data.

Definition has_created_at (data : list row) : bool :=
  existsb (fun r => bool_decide (is_Some (created_at r))) data.

Definition cell_invalid (cell : timestamp_cell) : bool :=
  match cell with TsInvalid => true | _ => false end.

Definition cell_text (cell : timestamp_cell) : option string :=
  match cell with TsAt text _ => Some text | _ => None end.

Definition cell_time (cell : timestamp_cell) : option datetime :=
  match cell with TsAt _ t => Some t | _ => None end.

(** What [pd.to_datetime(df['created_at'])] returns. *)
Inductive datetime_column :=
| Raises                                        (* the call raises *)
| Datetimes (aware : bool) (values : list (option datetime))
                                                (* a datetime column, with or
                                                   without time zone; NaT is [None] *)
| Objects.                                      (* a column of objects *)

(** A row without the key has a null cell. *)
Definition to_datetime (data : list row) : datetime_column :=
  let cells := map (fun r => default TsNull (created_at r)) data in
  if existsb cell_invalid cells then Raises
  else
    match to_datetime_kind (map cell_text cells) with
    | ColumnRaises => Raises
    | ColumnNaive => Datetimes false (map cell_time cells)
    | ColumnAware => Datetimes true (map cell_time cells)
    | ColumnObject => Objects
    end.

Definition day_of (t : datetime) : Z := (t / 86400000000)%Z.
Definition hour_of (t : datetime) : Z := ((t / 3600000000) mod 24)%Z.

(** The sizes of [df.groupby(df['date'].dt.date)], as floats. *)
Definition daily_sizes (dates : list (option datetime)) : list F :=
  map (fun kn => of_int (Z.of_nat kn.2)) (group_sizes (map day_of (omap id dates))).

Definition value_metrics (name col : string) (with_range : bool) (data : list row)
    (metrics : gmap string F) : gmap string F :=
  if has_column col data then
    let metrics :=
      <[ "std_" +:+ name := series_std (column col data) ]>
        (<[ "avg_" +:+ name := DemandForecasting.mean (column col data) ]> metrics) in
    if with_range then
      <[ "min_" +:+ name := series_min (column col data) ]>
        (<[ "max_" +:+ name := series_max (column col data) ]> metrics)
    else metrics
  else metrics.

(** The daily-count metrics; [None] when reading the dates raises, or
    when they come as a column of objects, on which [.dt] raises. *)
Definition daily_metrics (name : string) (data : list row) (metrics : gmap string F)
    : option (gmap string F) :=
  if has_created_at data then
    match to_datetime data with
    | Datetimes _ dates =>
        Some (<[ "std_" +:+ name := series_std (daily_sizes dates) ]>
                (<[ "avg_" +:+ name := DemandForecasting.mean (daily_sizes dates) ]> metrics))
    | Raises | Objects => None
    end
  else Some metrics.

(** A frame built from the rows is empty when no row has any key. *)
Definition frame_empty (data : list row) : bool :=
  forallb (fun r => bool_decide (numbers r = ∅) && bool_decide (created_at r = None)) data.

Definition _calculate_inventory_baseline (data : list row) : option (gmap string F) :=
  if frame_empty data then Some ∅
  else daily_metrics "daily_movements" data
         (value_metrics "quantity_change" "quantity_change" true data ∅).

Definition _calculate_pricing_baseline (data : list row) : option (gmap string F) :=
  if frame_empty data then Some ∅
  else Some (value_metrics "discount" "discount_percentage" false data
               (value_metrics "price" "price" true data ∅)).

Definition _calculate_order_baseline (data : list row) : option (gmap string F) :=
  if frame_empty data then Some ∅
  else daily_metrics "daily_orders" data
         (value_metrics "order_value" "total_amount" true data ∅).

Definition _calculate_baseline_metrics (historical_data : list row) (data_type : string)
    : gmap string F :=
  match historical_data with
  | [] => ∅
  | _ :: _ =>
      default ∅
        (if String.eqb data_type "inventory" then
           _calculate_inventory_baseline historical_data
         else if String.eqb data_type "pricing" then
           _calculate_pricing_baseline historical_data
         else if String.eqb data_type "orders" then
           _calculate_order_baseline historical_data
         else Some ∅)
  end.

(** The summary of the last 24 hours; the keys of the hourly pattern are
    set only when there is a recent row. *)
Record recent_summary := {
  total_recent_records : nat;
  recent_data_available : bool;
  data_frequency : string;
  peak_hour : option Z;
  min_hour : option Z;
  hourly_variance : option F
}.

(** [None] is the empty mapping the function returns when there is no
    data or when the computation raises. *)
Definition _analyze_recent_patterns (historical_data : list row) (data_type : string)
    : M (option recent_summary) :=
  match historical_data with
  | [] => mret None
  | _ :: _ =>
      if frame_empty historical_data then mret None
      else if negb (has_created_at historical_data) then mret None
      else
        match to_datetime historical_data with
        | Raises => mret None
        | Datetimes true _ | Objects =>
            (* the comparison with the naive cutoff raises [TypeError] *)
            t ← now; mret None
        | Datetimes false timestamps =>
            t ← now;
            let recent_cutoff := (t - timedelta_hours 24)%Z in
            let recent :=
              filter (fun ts => (recent_cutoff <= ts)%Z) (omap id timestamps) in
            let hourly_counts := group_sizes (map hour_of recent) in
            mret (Some
              {| total_recent_records := length recent;
                 recent_data_available := (0 <? length recent)%nat;
                 data_frequency := "normal";
                 peak_hour :=
                   if (0 <? length recent)%nat then fst <$> idxmax hourly_counts else None;
                 min_hour :=
                   if (0 <? length recent)%nat then fst <$> idxmin hourly_counts else None;
                 hourly_variance :=
                   if (0 <? length recent)%nat then
                     Some (if (1 <? length hourly_counts)%nat
                           then series_var
                                  (map (fun kn => of_int (Z.of_nat kn.2)) hourly_counts)
                           else of_int 0)
                   else None |})
        end
  end.

(** The brief handed to the oracle, before it is laid out as text. *)
Record DetectionPrompt := {
  prompt_data_type : string;
  prompt_start : datetime;
  prompt_end : datetime;
  prompt_sensitivity : F;
  prompt_records_analyzed : nat;
  prompt_baseline : gmap string F;
  prompt_thresholds : gmap string F;
  prompt_recent : option recent_summary
}.

(** [None] when [time_range['start']] or [time_range['end']] raises
    [KeyError]. *)
Definition _build_detection_prompt (data_type : string)
    (time_range : gmap string datetime) (sensitivity : F)
    (context : AnomalyDetection.AnomalyContext F row (option recent_summary))
    : option DetectionPrompt :=
  match time_range !! "start", time_range !! "end" with
  | Some start_date, Some end_date =>
      Some {| prompt_data_type := data_type;
              prompt_start := start_date;
              prompt_end := end_date;
              prompt_sensitivity := sensitivity;
              prompt_records_analyzed :=
                length (AnomalyDetection.historical_data context);
              prompt_baseline := AnomalyDetection.baseline_metrics context;
              prompt_thresholds := AnomalyDetection.alert_thresholds context;
              prompt_recent := AnomalyDetection.recent_patterns context |}
  | _, _ => None
  end.

Record collaborators := {
  source : record_source;
  agent_run : DetectionPrompt -> option (AnomalyDetection.AnomalyDetectionResponse F)
}.

(** The first half of [detect_anomalies]: the context it assembles. *)
Definition anomaly_context (env : collaborators) (data_type : string)
    (time_range : gmap string datetime) (sensitivity : F)
    : M (AnomalyDetection.AnomalyContext F row (option recent_summary)) :=
  historical_data ← _fetch_data_for_analysis (source env) data_type time_range;
  let baseline_metrics := _calculate_baseline_metrics historical_data data_type in
  let alert_thresholds :=
    AnomalyDetection._calculate_alert_thresholds baseline_metrics sensitivity in
  recent_patterns ← _analyze_recent_patterns historical_data data_type;
  mret {| AnomalyDetection.historical_data := historical_data;
          AnomalyDetection.baseline_metrics := baseline_metrics;
          AnomalyDetection.alert_thresholds := alert_thresholds;
          AnomalyDetection.recent_patterns := recent_patterns |}.

Definition detect_anomalies (env : collaborators) (data_type : string)
    (time_range : gmap string datetime) (sensitivity : F)
    (include_recommendations : bool)
    : M (option (AnomalyDetection.AnomalyDetectionResponse F)) :=
  context ← anomaly_context env data_type time_range sensitivity;
  match _build_detection_prompt data_type time_range sensitivity context with
  | None => mret None
  | Some prompt =>
      _ ← emit OracleRun;
      match agent_run env prompt with
      | None => mret None
      | Some output =>
          result ← AnomalyDetection._enhance_detection_result output context time_range;
          mret (Some result)
      end
  end.

End WithFloat.
Arguments row : clear implicits.
Arguments record_source : clear implicits.
Arguments recent_summary : clear implicits.
Arguments DetectionPrompt : clear implicits.
Arguments collaborators : clear implicits.
End AnomalyPipeline.

(** ** models/requests.py and main.py: the delivery endpoint *)

Module DeliveryEndpoint.
Section WithFloat.
Context {F : Type} `{PyFloat F}.
Context {DeliveryResponse : Type}.

(** A body whose fields, where it has them, have the declared types (a
    body with a field of another type is refused as well, and is not
    described here).  A field the body omits is [None]; [service_level]
    may also be sent as an explicit null, which the model accepts. *)
Record DeliveryPredictionBody := {
  body_origin_warehouse : option string;
  body_destination_address : option (gmap string string);
  body_product_ids : option (list string);
  body_carrier : option string;
  body_service_level : option (option string)
}.

Record DeliveryPredictionRequest := {
  origin_warehouse : string;
  destination_address : gmap string string;
  product_ids : list string;
  carrier : option string;
  service_level : option string
}.

Definition validate_DeliveryPredictionRequest (body : DeliveryPredictionBody)
    : Requests.validated DeliveryPredictionRequest :=
  let errors :=
    Requests.required "origin_warehouse" (body_origin_warehouse body) ++
    Requests.required "destination_address" (body_destination_address body) ++
    Requests.required "product_ids" (body_product_ids body) in
  match body_origin_warehouse body, body_destination_address body,
        body_product_ids body with
  | Some origin, Some address, Some ids =>
      Requests.Valid {| origin_warehouse := origin;
                        destination_address := address;
                        product_ids := ids;
                        carrier := body_carrier body;
                        service_level :=
                          default (Some "standard") (body_service_level body) |}
  | _, _, _ => Requests.Invalid errors
  end.

Definition delivery_method : Type :=
  string -> gmap string string -> list string -> option string -> option string ->
  M (Main.outcome DeliveryResponse).

Definition raising_method (failure : string)
    (method : string -> gmap string string -> list string -> option string ->
              option string -> M (option DeliveryResponse)) : delivery_method :=
  fun origin_warehouse destination_address product_ids carrier service_level =>
    Main.raising failure
      (method origin_warehouse destination_address product_ids carrier service_level).

Definition predict_delivery (delivery_agent : option delivery_method)
    (body : DeliveryPredictionBody) : M (Main.http_response DeliveryResponse) :=
  match validate_DeliveryPredictionRequest body with
  | Requests.Invalid errors => mret (Main.validation_response true errors)
  | Requests.Valid request =>
      match delivery_agent with
      | None => mret (Main.Http503 "Delivery prediction agent not initialized")
      | Some agent =>
          result ← agent (origin_warehouse request) (destination_address request)
                         (product_ids request) (carrier request)
                         (service_level request);
          mret match result with
               | Main.Returned r => Main.Http200 r
               | Main.Raised message => Main.Http500 ("Prediction error: " +:+ message)
               end
      end
  end.

End WithFloat.
Arguments DeliveryPredictionBody : clear implicits.
Arguments DeliveryPredictionRequest : clear implicits.
End DeliveryEndpoint.

(** ** services/supabase_client.py *)

Module SupabaseClient.
Section WithClient.
Context {Client : Type}.



End WithClient.
End SupabaseClient.

(** ** Notions used to state the properties *)

(** What one baseline metric contributes to the thresholds: the entries
    [alert_step] inserts for it. *)
Definition emitted {F : Type} `{PyFloat F} (bm : gmap string F) (f : F)
    (metric : string) (value : F) : list (string * F) :=
  if PyStr.contains "std" metric then [(metric +:+ "_threshold", fmul value f)]
  else
    match bm !! PyStr.replace "avg" "std" metric with
    | Some sv =>
        [(metric +:+ "_upper", fadd value (fmul sv f));
         (metric +:+ "_lower", fsub value (fmul sv f))]
    | None => []
    end.

(** The loop of [_calculate_seasonal_patterns] over the months, for any
    way [e] of computing the entry of a month. *)
Definition seasonal_fold {F : Type} (e : Z -> F) : gmap string F :=
  fold_left
    (fun seasonal_patterns month =>
       <[ DemandForecasting.month_key month := e month ]> seasonal_patterns)
    (py_range 1 13) ∅.

Section Observations.
Context {F : Type} `{Pandas}.
Import DemandForecasting.

(** The row carries an order timestamp of the given month. *)
Definition dated_in (month : Z) (r : order_item F) : bool :=
  match orders r with
  | OrdersDict (CreatedAt _ t) => (month_of t =? month)%Z
  | _ => false
  end.

Definition is_dated (r : order_item F) : bool :=
  match orders r with
  | OrdersDict (CreatedAt _ _) => true
  | _ => false
  end.

(** The time of the order timestamp of a row, when it carries one. *)
Definition order_time (r : order_item F) : option datetime :=
  match orders r with
  | OrdersDict (CreatedAt _ t) => Some t
  | _ => None
  end.

(** pandas reads the order timestamps of the rows as one column of dates:
    no lookup of 'created_at' raises and [pd.to_datetime] returns a
    datetime column. *)
Definition dates_read (data : list (order_item F)) : bool :=
  match date_column data with
  | Some _ => true
  | None => false
  end.

End Observations.

(** The placeholder synthesised for day [i] when the clock reads [t]. *)
Definition placeholder_at {F : Type} `{PyFloat F} (t : datetime) (i : Z)
    : DemandForecasting.DemandForecastItem F :=
  {| DemandForecasting.product_id := "sample_product";
     DemandForecasting.warehouse_id := None;
     DemandForecasting.date := (t + timedelta_days i)%Z;
     DemandForecasting.predicted_demand := lit 10.0%Q;
     DemandForecasting.confidence_score := lit 0.7%Q;
     DemandForecasting.seasonal_factor := Some (lit 1.0%Q) |}.

(** A postal code whose first three characters are decimal digits, and the
    number these three digits denote. *)
Definition well_formed_zip (zip : option string) : bool :=
  match zip with
  | Some (String a (String b (String c _))) =>
      PyStr.is_digit a && PyStr.is_digit b && PyStr.is_digit c
  | _ => false
  end.

Definition three_digit_prefix (zip : option string) : Z :=
  match zip with
  | Some (String a (String b (String c _))) =>
      (100 * PyStr.digit_val a + 10 * PyStr.digit_val b + PyStr.digit_val c)%Z
  | _ => 0%Z
  end.

(** A postal code that is present but whose first three characters are not
    an integer literal. *)
Definition malformed_zip (zip : option string) : bool :=
  match zip with
  | Some (String c s) =>
      match PyStr.int (PyStr.slice_to 3 (String c s)) with
      | Some _ => false
      | None => true
      end
  | _ => false
  end.

(** A postal code that is absent or empty. *)
Definition missing_zip (zip : option string) : bool :=
  match zip with
  | Some (String _ _) => false
  | _ => true
  end.

(** A postal code made of ASCII characters (or absent). *)
Definition ascii_zip (zip : option string) : bool :=
  match zip with
  | Some s => PyStr.is_ascii s
  | None => true
  end.

(** A character that an integer literal can contain: a digit, a sign, an
    underscore or a blank; and a postal code with another character, a
    letter for one, among its first three. *)
Definition literal_char (c : ascii) : bool :=
  PyStr.is_digit c || PyStr.is_space c ||
  Ascii.eqb c "+" || Ascii.eqb c "-" || Ascii.eqb c "_".

Definition lettered_zip (zip : option string) : bool :=
  match zip with
  | Some s =>
      existsb (fun c => negb (literal_char c))
              (list_ascii_of_string (PyStr.slice_to 3 s))
  | None => false
  end.

(** The constraints of [forecast_demand] as the interface description words
    them: [product_ids] a non-empty list, [forecast_days] within 1..365. *)
Definition demand_constraints_violated (body : Requests.DemandForecastBody) : bool :=
  match Requests.body_product_ids body with
  | Some [] => true
  | _ => false
  end ||
  match Requests.body_forecast_days body with
  | Some d => (d <? 1)%Z || (365 <? d)%Z
  | None => false
  end.

(** ** Notions used to state the properties of the pipelines *)


(** The timestamps of the rows that carry one, in row order, and the hours
    of those not older than 24 hours at time [t]. *)
Definition valid_timestamps {F : Type} (data : list (AnomalyPipeline.row F))
    : list datetime :=
  omap (fun r => match AnomalyPipeline.created_at r with
                 | Some (AnomalyPipeline.TsAt _ t) => Some t
                 | _ => None
                 end) data.

Definition recent_hours {F : Type} (data : list (AnomalyPipeline.row F)) (t : datetime)
    : list Z :=
  map AnomalyPipeline.hour_of
    (filter (fun ts => (t - timedelta_hours 24 <= ts)%Z) (valid_timestamps data)).

(** The oracle's prediction has a timezone-aware delivery date and no
    transit time (or a zero one): the transit time is then to be computed
    by subtracting the naive clock reading from the aware date. *)
Definition transit_from_aware_date {F Alternative : Type}
    (result : DeliveryPipeline.DeliveryPredictionResponse F Alternative)
    : bool :=
  match DeliveryPipeline.estimated_delivery_date result,
        DeliveryPipeline.transit_days result with
  | Some (Aware _), None => true
  | Some (Aware _), Some n => (n =? 0)%Z
  | _, _ => false
  end.

(** The table [_fetch_data_for_analysis] reads for a data type. *)
Definition table_of (data_type : string) : option string :=
  if String.eqb data_type "inventory" then Some "inventory_movements"
  else if String.eqb data_type "pricing" then Some "pricing_history"
  else if String.eqb data_type "orders" then Some "orders"
  else None.

(** ** Concrete inputs *)

(** The sample columns are read by the pandas of ISO 8601 seconds. *)
#[export] Instance iso_pandas : Pandas := {| to_datetime_kind := iso_to_datetime_kind |}.

(** A clock that always reads [t], and no call made yet. *)
Definition frozen_world (t : datetime) : world := {| clock := fun _ => t; trace := [] |}.

(** The metrics [_calculate_pricing_baseline] produces, with sample values. *)
Definition pricing_baseline : gmap string float :=
  <[ "min_price" := 6%float ]>
    (<[ "max_price" := 14%float ]>
       (<[ "std_price" := 2%float ]> {[ "avg_price" := 10%float ]})).

Definition sample_baseline : gmap string Q :=
  <[ "std_price" := 2%Q ]> {[ "avg_price" := 10%Q ]}.

Definition two_month_orders : list (DemandForecasting.order_item float) :=
  [ {| DemandForecasting.orders :=
         DemandForecasting.OrdersDict
           (DemandForecasting.CreatedAt "1970-01-01T00:00:00" 0%Z);
       DemandForecasting.quantity := Some (Some 3%float) |};
    {| DemandForecasting.orders :=
         DemandForecasting.OrdersDict
           (DemandForecasting.CreatedAt "1970-02-10T00:00:00" (timedelta_days 40));
       DemandForecasting.quantity := Some (Some 5%float) |} ].

Definition no_forecasts : DemandForecasting.DemandForecastResponse float :=
  {| DemandForecasting.forecasts := [];
     DemandForecasting.model_accuracy := None;
     DemandForecasting.generated_at := 0%Z;
     DemandForecasting.forecast_horizon_days := 0%Z |}.

(** No order on record, and an oracle that answers without any forecast. *)
Definition silent_collaborators : DemandForecasting.collaborators float :=
  {| DemandForecasting.select_order_items := fun _ _ _ => Some [];
     DemandForecasting.agent_run := fun _ => Some no_forecasts |}.

(** Orders of two months on record, and an oracle that fails. *)
Definition two_month_collaborators : DemandForecasting.collaborators float :=
  {| DemandForecasting.select_order_items := fun _ _ _ => Some two_month_orders;
     DemandForecasting.agent_run := fun _ => None |}.

Definition empty_products_body : Requests.DemandForecastBody :=
  {| Requests.body_product_ids := Some [];
     Requests.body_warehouse_ids := None;
     Requests.body_forecast_days := Some 30%Z;
     Requests.body_include_seasonality := None |}.

Definition long_horizon_body : Requests.DemandForecastBody :=
  {| Requests.body_product_ids := Some ["p1"];
     Requests.body_warehouse_ids := None;
     Requests.body_forecast_days := Some 366%Z;
     Requests.body_include_seasonality := None |}.

Definition oversensitive_body : Requests.AnomalyDetectionBody float :=
  {| Requests.body_data_type := Some "orders";
     Requests.body_time_range := Some ∅;
     Requests.body_sensitivity := Some 1.5%float;
     Requests.body_include_recommendations := None |}.

(** A body whose sensitivity is the NaN that a JSON parser makes of the
    token [NaN]. *)
Definition nan_body : Requests.AnomalyDetectionBody float :=
  {| Requests.body_data_type := Some "orders";
     Requests.body_time_range := Some ∅;
     Requests.body_sensitivity := Some PrimFloat.nan;
     Requests.body_include_recommendations := None |}.

Definition low_anomaly : AnomalyDetection.AnomalyItem :=
  {| AnomalyDetection.anomaly_type := "order_spike";
     AnomalyDetection.severity := "low";
     AnomalyDetection.description := "more orders than usual";
     AnomalyDetection.affected_entities := [];
     AnomalyDetection.detected_at := 0%Z;
     AnomalyDetection.recommendation := None |}.

Definition critical_anomaly : AnomalyDetection.AnomalyItem :=
  {| AnomalyDetection.anomaly_type := "inventory_sync";
     AnomalyDetection.severity := "critical";
     AnomalyDetection.description := "stock levels out of sync";
     AnomalyDetection.affected_entities := [];
     AnomalyDetection.detected_at := 0%Z;
     AnomalyDetection.recommendation := None |}.

(** An oracle answer that leaves the next check unset and reports a count
    of its own. *)
Definition oracle_anomalies (found : list AnomalyDetection.AnomalyItem)
    : AnomalyDetection.AnomalyDetectionResponse float :=
  {| AnomalyDetection.anomalies := Some found;
     AnomalyDetection.total_anomalies := 7%Z;
     AnomalyDetection.analysis_period := ∅;
     AnomalyDetection.model_confidence := Some 0.5%float;
     AnomalyDetection.next_check_recommended := None |}.

Definition empty_context : AnomalyDetection.AnomalyContext float unit unit :=
  {| AnomalyDetection.historical_data := [];
     AnomalyDetection.baseline_metrics := ∅;
     AnomalyDetection.alert_thresholds := ∅;
     AnomalyDetection.recent_patterns := tt |}.

(** A clock that advances by one second at each reading, and no call
    made yet. *)
Definition ticking_world (t : datetime) : world :=
  {| clock := fun n => (t + Z.of_nat n * 1000000)%Z; trace := [] |}.

(** A shipment handed to USPS, 500 miles away. *)
Definition usps_context : DeliveryPipeline.DeliveryContext float unit :=
  {| DeliveryPipeline.historical_deliveries := [];
     DeliveryPipeline.carrier_performance :=
       DeliveryPipeline._get_carrier_performance (Some "USPS");
     DeliveryPipeline.weather_conditions :=
       DeliveryPipeline._get_weather_conditions "wh1" ∅;
     DeliveryPipeline.distance_data :=
       {| DeliveryPipeline.estimated_miles := 500%Z;
          DeliveryPipeline.estimated_driving_hours := 10%float;
          DeliveryPipeline.route_complexity := "medium";
          DeliveryPipeline.major_cities_on_route := [];
          DeliveryPipeline.border_crossings := 0%Z |} |}.

(** An oracle answer with no field set but, possibly, the date. *)
Definition bare_prediction (delivery_date : option datetime_value)
    : DeliveryPipeline.DeliveryPredictionResponse float unit :=
  {| DeliveryPipeline.estimated_delivery_date := delivery_date;
     DeliveryPipeline.confidence_score := None;
     DeliveryPipeline.transit_days := None;
     DeliveryPipeline.carrier_recommendation := None;
     DeliveryPipeline.factors_considered := None;
     DeliveryPipeline.alternative_options := None |}.

(** An oracle answer with every field set. *)
Definition full_prediction : DeliveryPipeline.DeliveryPredictionResponse float unit :=
  {| DeliveryPipeline.estimated_delivery_date := Some (Aware 1000%Z);
     DeliveryPipeline.confidence_score := Some 0.5%float;
     DeliveryPipeline.transit_days := Some 3%Z;
     DeliveryPipeline.carrier_recommendation := Some "UPS";
     DeliveryPipeline.factors_considered := Some ["Distance"];
     DeliveryPipeline.alternative_options := None |}.

Definition unreadable_order : DemandForecasting.order_item float :=
  {| DemandForecasting.orders :=
       DemandForecasting.OrdersDict DemandForecasting.CreatedInvalid;
     DemandForecasting.quantity := Some (Some 1%float) |}.

(** An oracle answer with one forecast. *)
Definition one_forecast : DemandForecasting.DemandForecastResponse float :=
  {| DemandForecasting.forecasts := [placeholder_at 0%Z 0%Z];
     DemandForecasting.model_accuracy := Some 0.5%float;
     DemandForecasting.generated_at := 0%Z;
     DemandForecasting.forecast_horizon_days := 0%Z |}.

(** An oracle answer with its confidence and its next check set. *)
Definition confident_anomalies : AnomalyDetection.AnomalyDetectionResponse float :=
  {| AnomalyDetection.anomalies := Some [low_anomaly];
     AnomalyDetection.total_anomalies := 0%Z;
     AnomalyDetection.analysis_period := ∅;
     AnomalyDetection.model_confidence := Some 0.5%float;
     AnomalyDetection.next_check_recommended := Some 5000%Z |}.

(** A fetched row with one numeric column. *)
Definition valued_row (col : string) (value : float)
    (cell : option AnomalyPipeline.timestamp_cell) : AnomalyPipeline.row float :=
  {| AnomalyPipeline.numbers := {[ col := value ]};
     AnomalyPipeline.created_at := cell |}.

(** Rows of [pricing_history]: three of the last day (two at 9 o'clock,
    one at 14 o'clock), one two days old and one without a timestamp, for
    a clock that reads the start of day 2. *)
Definition price_rows : list (AnomalyPipeline.row float) :=
  [ valued_row "price" 8%float
      (Some (AnomalyPipeline.TsAt "1970-01-01T03:00:00" (timedelta_hours 3)));
    valued_row "price" 9%float
      (Some (AnomalyPipeline.TsAt "1970-01-02T09:00:00" (timedelta_hours 33)));
    valued_row "price" 10%float (Some AnomalyPipeline.TsNull);
    valued_row "price" 11%float
      (Some (AnomalyPipeline.TsAt "1970-01-02T14:00:00" (timedelta_hours 38)));
    valued_row "price" 12%float
      (Some (AnomalyPipeline.TsAt "1970-01-02T09:30:00"
               (timedelta_hours 33 + timedelta_minutes 30)%Z)) ].


(** Rows of [orders], the second with a 'created_at' that is no timestamp. *)
Definition unreadable_rows : list (AnomalyPipeline.row float) :=
  [ valued_row "total_amount" 8%float
      (Some (AnomalyPipeline.TsAt "1970-01-01T00:00:00" 0%Z));
    valued_row "total_amount" 9%float (Some AnomalyPipeline.TsInvalid) ].



(** * Properties *)

(** ** The state monad *)

Lemma bind_run {A B} (m : M A) (k : A -> M B) (w : world) :
  (m ≫= k) w = k (m w).1 (m w).2.
Proof. unfold mbind, M_bind. by destruct (m w). Qed.

(** ** Keys built by appending a suffix *)

Lemma chars_append (a b : string) :
  list_ascii_of_string (a +:+ b) = list_ascii_of_string a ++ list_ascii_of_string b.
Proof. induction a as [|c a IH]; simpl; [done | by rewrite IH]. Qed.

Lemma chars_inj (a b : string) :
  list_ascii_of_string a = list_ascii_of_string b -> a = b.
Proof.
  intros E. rewrite <- (string_of_list_ascii_of_string a),
    <- (string_of_list_ascii_of_string b). by rewrite E.
Qed.

Lemma append_same_suffix (a b suf : string) : a +:+ suf = b +:+ suf -> a = b.
Proof.
  intros E. apply chars_inj. apply (f_equal list_ascii_of_string) in E.
  rewrite !chars_append in E. by apply app_inv_tail in E.
Qed.

Lemma append_suffix_length (a b s t : string) :
  String.length s = String.length t -> a +:+ s = b +:+ t -> s = t.
Proof.
  intros L E. apply chars_inj. apply (f_equal list_ascii_of_string) in E.
  rewrite !chars_append in E. apply app_inj_2 in E; [tauto|].
  revert L. clear. revert t. induction s as [|c s IH]; intros [|d t]; simpl; try done.
  intros [=]. f_equal. by apply IH.
Qed.

Lemma append_suffix_last (a b s t : string) x y :
  last (list_ascii_of_string s) = Some x ->
  last (list_ascii_of_string t) = Some y ->
  a +:+ s = b +:+ t -> x = y.
Proof.
  intros Hs Ht E. apply (f_equal list_ascii_of_string) in E.
  rewrite !chars_append in E. apply (f_equal last) in E.
  rewrite !last_app, Hs, Ht in E. congruence.
Qed.

Lemma threshold_not_upper a b : a +:+ "_threshold" <> b +:+ "_upper".
Proof. intros E. by apply (append_suffix_last _ _ _ _ "d"%char "r"%char) in E. Qed.

Lemma threshold_not_lower a b : a +:+ "_threshold" <> b +:+ "_lower".
Proof. intros E. by apply (append_suffix_last _ _ _ _ "d"%char "r"%char) in E. Qed.

Lemma upper_not_lower a b : a +:+ "_upper" <> b +:+ "_lower".
Proof. intros E. by apply append_suffix_length in E. Qed.

Lemma replace_without_occurrence (old new s : string) :
  PyStr.contains old s = false -> PyStr.replace_from old new 0 s = s.
Proof.
  induction s as [|c s IH]; [done|].
  cbn [PyStr.contains PyStr.replace_from]. intros Hc.
  apply orb_false_iff in Hc as [Hp Hc]. rewrite Hp. f_equal. by apply IH.
Qed.

(** ** The rounding of binary64 is monotone *)

Section Rounding.
Import Binary64.
Local Open Scope Z_scope.

Ltac dlia := Z.to_euclidean_division_equations; lia.

Lemma mag_bounds (m : positive) : 2 ^ (mag m - 1) <= Zpos m < 2 ^ mag m.
Proof.
  unfold mag. induction m as [m IH|m IH|]; cbn [digits2_pos].
  - rewrite Pos2Z.inj_succ.
    replace (Z.succ (Zpos (digits2_pos m)) - 1) with (Z.succ (Zpos (digits2_pos m) - 1)) by lia.
    rewrite !Z.pow_succ_r by lia. lia.
  - rewrite Pos2Z.inj_succ.
    replace (Z.succ (Zpos (digits2_pos m)) - 1) with (Z.succ (Zpos (digits2_pos m) - 1)) by lia.
    rewrite !Z.pow_succ_r by lia. lia.
  - cbn. lia.
Qed.

Lemma mag_pos (m : positive) : 1 <= mag m.
Proof. unfold mag. lia. Qed.

Lemma pow2_pos (k : Z) : 0 <= k -> 0 < 2 ^ k.
Proof. intros. apply Z.pow_pos_nonneg; lia. Qed.

Lemma pow2_le (a b : Z) : 0 <= a <= b -> 2 ^ a <= 2 ^ b.
Proof. intros. apply Z.pow_le_mono_r; lia. Qed.

Lemma pow2_lt (a b : Z) : 0 <= a < b -> 2 ^ a < 2 ^ b.
Proof. intros. apply Z.pow_lt_mono_r; lia. Qed.

Lemma pow2_lt_inv (a b : Z) : 0 <= a -> 0 <= b -> 2 ^ a < 2 ^ b -> a < b.
Proof.
  intros Ha Hb H. destruct (Z.lt_ge_cases a b) as [?|Hge]; [done|].
  pose proof (pow2_le b a ltac:(lia)). lia.
Qed.

Lemma pow2_split (a b : Z) : 0 <= a -> 0 <= b -> 2 ^ (a + b) = 2 ^ a * 2 ^ b.
Proof. intros. apply Z.pow_add_r; lia. Qed.

(** The magnitude of a mantissa is determined by its bounds. *)
Lemma mag_unique (m : positive) (d : Z) : 2 ^ (d - 1) <= Zpos m < 2 ^ d -> 1 <= d -> mag m = d.
Proof.
  intros [Hl Hu] Hd. pose proof (mag_bounds m) as [Ml Mu]. pose proof (mag_pos m).
  assert (mag m - 1 < d) by (apply pow2_lt_inv; lia).
  assert (d - 1 < mag m) by (apply pow2_lt_inv; lia).
  lia.
Qed.

(** *** Shifting a mantissa to the right *)

Lemma div_mod_step (m0 k : Z) :
  0 <= k ->
  m0 / 2 ^ (k + 1) = m0 / 2 ^ k / 2 /\
  m0 mod 2 ^ (k + 1) = m0 mod 2 ^ k + 2 ^ k * ((m0 / 2 ^ k) mod 2).
Proof.
  intros Hk. pose proof (pow2_pos k Hk).
  rewrite pow2_split by lia. change (2 ^ 1) with 2. split.
  - rewrite Z.div_div by lia. reflexivity.
  - apply Z.rem_mul_r; lia.
Qed.

Lemma shr_1_inv (m0 k : Z) (mrs : shr_record) :
  0 <= k -> 0 <= m0 -> shr_inv m0 k mrs -> shr_inv m0 (k + 1) (shr_1 mrs).
Proof.
  intros Hk Hm [Hq Hloc]. pose proof (pow2_pos k Hk) as Hw.
  destruct (div_mod_step m0 k Hk) as [Hd Hr].
  pose proof (Z.mod_pos_bound m0 (2 ^ k) Hw) as Hrest.
  assert (Hq0 : 0 <= m0 / 2 ^ k) by (apply Z.div_pos; lia).
  unfold shr_inv. rewrite Hd, Hr, <- Hq. clear Hd Hr.
  assert (H2 : 2 ^ (k + 1) = 2 * 2 ^ k).
  { rewrite pow2_split by lia. change (2 ^ 1) with 2. lia. }
  rewrite H2. rewrite <- Hq in Hq0. clear Hq.
  set (rest := m0 mod 2 ^ k) in *. set (w := 2 ^ k) in *.
  unfold location_of in *.
  destruct mrs as [m r s]. cbn [shr_m] in *.
  destruct m as [|[p|p|]|p]; [| | | |lia]; cbn [shr_1 shr_m].
  - (* 0 *)
    split; [reflexivity|]. change (0 mod 2) with 0. rewrite Z.mul_0_r, Z.add_0_r.
    destruct (Z.eqb_spec rest 0) as [E|E].
    + destruct r, s; cbn in Hloc |- *; congruence.
    + assert ((2 * rest ?= 2 * w) = Lt) as -> by (apply Z.compare_lt_iff; lia).
      destruct r, s; cbn in Hloc |- *; congruence.
  - (* odd *)
    split; [dlia|].
    replace (Z.pos p~1 mod 2) with 1 by dlia. rewrite Z.mul_1_r.
    destruct (Z.eqb_spec (rest + w) 0) as [E'|E']; [lia|].
    destruct (Z.eqb_spec rest 0) as [E|E].
    + assert ((2 * (rest + w) ?= 2 * w) = Eq) as -> by (apply Z.compare_eq_iff; lia).
      destruct r, s; cbn in Hloc |- *; congruence.
    + assert ((2 * (rest + w) ?= 2 * w) = Gt) as -> by (apply Z.compare_gt_iff; lia).
      destruct r, s; cbn in Hloc |- *; congruence.
  - (* even *)
    split; [dlia|].
    replace (Z.pos p~0 mod 2) with 0 by dlia. rewrite Z.mul_0_r, Z.add_0_r.
    destruct (Z.eqb_spec rest 0) as [E|E].
    + destruct r, s; cbn in Hloc |- *; congruence.
    + assert ((2 * rest ?= 2 * w) = Lt) as -> by (apply Z.compare_lt_iff; lia).
      destruct r, s; cbn in Hloc |- *; congruence.
  - (* 1 *)
    split; [reflexivity|].
    change (1 mod 2) with 1. rewrite Z.mul_1_r.
    destruct (Z.eqb_spec (rest + w) 0) as [E'|E']; [lia|].
    destruct (Z.eqb_spec rest 0) as [E|E].
    + assert ((2 * (rest + w) ?= 2 * w) = Eq) as -> by (apply Z.compare_eq_iff; lia).
      destruct r, s; cbn in Hloc |- *; congruence.
    + assert ((2 * (rest + w) ?= 2 * w) = Gt) as -> by (apply Z.compare_gt_iff; lia).
      destruct r, s; cbn in Hloc |- *; congruence.
Qed.

Lemma iter_pos_invariant {A} (f : A -> A) (P : Z -> A -> Prop) :
  (forall k x, 0 <= k -> P k x -> P (k + 1) (f x)) ->
  forall p k x, 0 <= k -> P k x -> P (k + Zpos p) (SpecFloat.iter_pos f p x).
Proof.
  intros Hstep. induction p as [p IH|p IH|]; intros k x Hk HP; cbn [SpecFloat.iter_pos].
  - replace (k + Z.pos p~1) with (k + 1 + Zpos p + Zpos p) by lia.
    apply IH; [lia|]. apply IH; [lia|]. by apply Hstep.
  - replace (k + Z.pos p~0) with (k + Zpos p + Zpos p) by lia.
    apply IH; [lia|]. by apply IH.
  - by apply Hstep.
Qed.

Lemma shr_exact (m0 e n : Z) :
  0 <= m0 ->
  let '(mrs, e') := shr (shr_record_of_loc m0 loc_Exact) e n in
  e' = e + Z.max n 0 /\ shr_inv m0 (Z.max n 0) mrs.
Proof.
  intros Hm. unfold shr.
  assert (H0 : shr_inv m0 0 (shr_record_of_loc m0 loc_Exact)).
  { split; cbn; [by rewrite Z.div_1_r|]. by rewrite Z.mod_1_r. }
  destruct n as [|p|p]; cbn [Z.max].
  - rewrite Z.add_0_r. done.
  - replace (Z.max (Z.pos p) 0) with (0 + Z.pos p) by lia. split; [lia|].
    apply (iter_pos_invariant shr_1 (shr_inv m0)); [|lia|done].
    intros k x Hk. by apply shr_1_inv.
  - replace (Z.max (Z.neg p) 0) with 0 by lia. rewrite Z.add_0_r. done.
Qed.

(** *** Rounding a positive mantissa *)

Lemma fexp_binary64 (g : Z) : fexp prec emax g = fexp64 g.
Proof. reflexivity. Qed.

Lemma fexp64_mono (g g' : Z) : g <= g' -> fexp64 g <= fexp64 g'.
Proof. unfold fexp64. lia. Qed.

Lemma round_nearest_even_location (q rest w : Z) :
  0 < w -> 0 <= rest ->
  round_nearest_even q (location_of rest w)
  = q + match 2 * rest ?= w with
        | Gt => 1
        | Eq => if Z.odd q then 1 else 0
        | Lt => 0
        end.
Proof.
  intros Hw Hrest. unfold location_of.
  destruct (Z.eqb_spec rest 0) as [->|Hne]; cbn [round_nearest_even].
  - assert ((2 * 0 ?= w) = Lt) as -> by (apply Z.compare_lt_iff; lia). lia.
  - destruct (2 * rest ?= w); [|lia|lia].
    rewrite <- Z.negb_odd. destruct (Z.odd q); cbn; lia.
Qed.

Lemma first_shift (m : positive) (e : Z) :
  let e' := fexp64 (mag m + e) in
  e <= e' ->
  let '(mrs, e1) := shr_fexp prec emax (Zpos m) e loc_Exact in
  e1 = e' /\
  round_nearest_even (shr_m mrs) (loc_of_shr_record mrs) = nearest (Zpos m) (2 ^ (e' - e)).
Proof.
  intros e' He. unfold shr_fexp. cbn [Zdigits2]. rewrite fexp_binary64.
  fold (mag m). fold e'.
  pose proof (shr_exact (Zpos m) e (e' - e) ltac:(lia)) as Hs.
  destruct (shr _ e (e' - e)) as [mrs e1].
  replace (Z.max (e' - e) 0) with (e' - e) in Hs by lia.
  destruct Hs as [-> [Hq Hloc]]. split; [lia|].
  rewrite Hloc, Hq. unfold nearest.
  apply round_nearest_even_location.
  - apply pow2_pos. lia.
  - apply Z.mod_pos_bound, pow2_pos. lia.
Qed.

Lemma nearest_bounds (v w : Z) : v / w <= nearest v w <= v / w + 1.
Proof.
  unfold nearest. destruct (2 * (v mod w) ?= w); [|lia|lia].
  destruct (Z.odd _); lia.
Qed.

Lemma nearest_exact (c w : Z) : 0 < w -> nearest (c * w) w = c.
Proof.
  intros Hw. unfold nearest. rewrite Z.div_mul, Z.mod_mul by lia.
  assert ((2 * 0 ?= w) = Lt) as -> by (apply Z.compare_lt_iff; lia). lia.
Qed.

Lemma nearest_mono (v v' w : Z) : 0 < w -> v <= v' -> nearest v w <= nearest v' w.
Proof.
  intros Hw Hv. unfold nearest.
  pose proof (Z.div_le_mono v v' w Hw Hv) as Hq.
  pose proof (Z.mod_pos_bound v w Hw). pose proof (Z.mod_pos_bound v' w Hw).
  pose proof (Z.div_mod v w ltac:(lia)). pose proof (Z.div_mod v' w ltac:(lia)).
  destruct (Z.eq_dec (v / w) (v' / w)) as [E|E].
  - rewrite E in *. assert (v mod w <= v' mod w) by lia.
    destruct (Z.compare_spec (2 * (v mod w)) w), (Z.compare_spec (2 * (v' mod w)) w);
      try lia; destruct (Z.odd _); lia.
  - assert (v / w + 1 <= v' / w) by lia.
    destruct (2 * (v mod w) ?= w), (2 * (v' mod w) ?= w);
      repeat match goal with |- context [Z.odd ?x] => destruct (Z.odd x) end; lia.
Qed.

Lemma nearest_scale (v w s : Z) : 0 < w -> 0 < s -> nearest (v * s) (w * s) = nearest v w.
Proof.
  intros Hw Hs. unfold nearest.
  rewrite Z.div_mul_cancel_r by lia. rewrite Z.mul_mod_distr_r by lia.
  replace (2 * (v mod w * s)) with (2 * (v mod w) * s) by lia.
  destruct (Z.compare_spec (2 * (v mod w)) w),
    (Z.compare_spec (2 * (v mod w) * s) (w * s)); try reflexivity; nia.
Qed.

(** The magnitude of the quotient of a shift. *)
Lemma mag_shift (m p : positive) (n : Z) :
  0 <= n -> Zpos m / 2 ^ n = Zpos p -> mag p = mag m - n.
Proof.
  intros Hn Hq. pose proof (mag_bounds m) as [Ml Mu]. pose proof (pow2_pos n Hn) as Hw.
  pose proof (mag_pos m).
  assert (Hmn : n < mag m).
  { destruct (Z.lt_ge_cases n (mag m)) as [?|Hge]; [done|].
    pose proof (pow2_le (mag m) n ltac:(lia)).
    rewrite Z.div_small in Hq by lia. lia. }
  apply mag_unique; [|lia]. rewrite <- Hq. split.
  - apply Z.div_le_lower_bound; [lia|].
    rewrite <- pow2_split by lia. replace (n + (mag m - n - 1)) with (mag m - 1) by lia. lia.
  - apply Z.div_lt_upper_bound; [lia|].
    rewrite <- pow2_split by lia. replace (n + (mag m - n)) with (mag m) by lia. lia.
Qed.

(** Rounding a positive mantissa gives zero, the rounded mantissa at the
    exponent of the format, or, when the rounded mantissa has one digit too
    many, half of it at the next exponent; what it gives is canonical. *)
Theorem round_aux_positive (s : bool) (m : positive) (e : Z) :
  let e' := fexp64 (mag m + e) in
  let k := nearest (Zpos m) (2 ^ (e' - e)) in
  e <= e' ->
  exists k2 e2,
    binary_round_aux prec emax s (Zpos m) e loc_Exact = pack s k2 e2 /\
    canonical k2 e2 /\ e' <= e2 /\ k2 * 2 ^ (e2 - e') = k.
Proof.
  intros e' k He. unfold binary_round_aux.
  pose proof (first_shift m e He) as H1. fold e' in H1.
  destruct (shr_fexp prec emax (Zpos m) e loc_Exact) as [mrs e1].
  destruct H1 as [-> Hk]. rewrite Hk. fold k.
  assert (He' : -1074 <= e') by (unfold e', fexp64; lia).
  pose proof (nearest_bounds (Zpos m) (2 ^ (e' - e))) as Hb. fold k in Hb.
  pose proof (pow2_pos (e' - e) ltac:(lia)) as Hw.
  assert (Hq0 : 0 <= Zpos m / 2 ^ (e' - e)) by (apply Z.div_pos; lia).
  unfold shr_fexp. rewrite fexp_binary64.
  destruct k as [|p|p] eqn:Ek; [| |lia].
  - (* the mantissa rounds to zero *)
    cbn [Zdigits2]. rewrite Z.add_0_l.
    pose proof (shr_exact 0 e' (fexp64 e' - e') ltac:(lia)) as Hs.
    destruct (shr _ e' _) as [mrs2 e2].
    replace (Z.max (fexp64 e' - e') 0) with 0 in Hs by (unfold fexp64; lia).
    destruct Hs as [-> [Hq _]]. rewrite Hq. cbn.
    exists 0, e'. cbn. repeat split; lia.
  - cbn [Zdigits2]. fold (mag p).
    pose proof (shr_exact (Zpos p) e' (fexp64 (mag p + e') - e') ltac:(lia)) as Hs.
    destruct (shr _ e' _) as [mrs2 e2]. destruct Hs as [-> [Hq _]]. rewrite Hq.
    (* the magnitude of the rounded mantissa *)
    pose proof (mag_bounds m) as [Ml Mu]. pose proof (mag_bounds p) as [Pl Pu].
    pose proof (mag_pos m). pose proof (mag_pos p).
    destruct (Z.eq_dec (Zpos m / 2 ^ (e' - e)) 0) as [Hz|Hnz].
    + (* the quotient is zero: a subnormal that rounds up to the least one *)
      assert (p = 1%positive) as -> by lia.
      assert (Hsmall : Zpos m < 2 ^ (e' - e)).
      { apply Z.div_small_iff in Hz; lia. }
      assert (mag m - 1 < e' - e) by (apply pow2_lt_inv; lia).
      assert (e' = -1074) by (unfold e', fexp64 in *; lia).
      change (mag 1) with 1.
      replace (Z.max (fexp64 (1 + e') - e') 0) with 0 by (unfold fexp64; lia).
      rewrite Z.div_1_r, Z.add_0_r. exists 1, e'. cbn [pack canonical].
      change (mag 1) with 1. repeat split; [unfold fexp64; lia|lia|].
      rewrite Z.sub_diag. lia.
    + destruct (Zpos m / 2 ^ (e' - e)) as [|q|q] eqn:Eq; [done| |lia].
      pose proof (mag_shift m q (e' - e) ltac:(lia) Eq) as Hmq.
      pose proof (mag_bounds q) as [Ql Qu]. pose proof (mag_pos q).
      assert (Hfit : fexp64 (mag q + e') = e').
      { rewrite Hmq. replace (mag m - (e' - e) + e') with (mag m + e) by lia. done. }
      destruct (Z.eq_dec (Zpos p) (2 ^ mag q)) as [Hcarry|Hno].
      * (* the rounded mantissa has one digit more *)
        assert (Hmp : mag p = mag q + 1).
        { apply mag_unique; [|lia]. rewrite Hcarry.
          replace (mag q + 1 - 1) with (mag q) by lia. split; [lia|].
          apply pow2_lt. lia. }
        rewrite Hmp.
        destruct (Z.eq_dec (fexp64 (mag q + 1 + e')) e') as [Hsub|Hnorm].
        -- rewrite Hsub, Z.sub_diag. cbn [Z.max]. rewrite Z.div_1_r, Z.add_0_r.
           exists (Zpos p), e'. cbn [pack canonical]. rewrite Hmp.
           repeat split; [done|lia|]. rewrite Z.sub_diag. lia.
        -- assert (Hn : fexp64 (mag q + 1 + e') = e' + 1) by (unfold fexp64 in *; lia).
           rewrite Hn. replace (Z.max (e' + 1 - e') 0) with 1 by lia.
           change (2 ^ 1) with 2.
           assert (Hhalf : Zpos p / 2 = 2 ^ (mag q - 1)).
           { rewrite Hcarry. replace (mag q) with (1 + (mag q - 1)) at 1 by lia.
             rewrite pow2_split by lia. change (2 ^ 1) with 2.
             rewrite Z.mul_comm, Z.div_mul by lia. reflexivity. }
           rewrite Hhalf.
           pose proof (pow2_pos (mag q - 1) ltac:(lia)) as Hpos.
           destruct (2 ^ (mag q - 1)) as [|h|h] eqn:Eh; [lia| |lia].
           exists (Zpos h), (e' + 1). cbn [pack canonical].
           assert (Hmh : mag h = mag q).
           { apply mag_unique; [|lia]. rewrite <- Eh. split; [lia|].
             apply pow2_lt. lia. }
           rewrite Hmh. repeat split.
           ++ replace (mag q + (e' + 1)) with (mag q + 1 + e') by lia. done.
           ++ lia.
           ++ replace (e' + 1 - e') with 1 by lia. change (2 ^ 1) with 2.
              rewrite Hcarry. replace (mag q) with (1 + (mag q - 1)) by lia.
              rewrite pow2_split by lia. change (2 ^ 1) with 2. rewrite Eh. lia.
      * (* the rounded mantissa has the digits of the quotient *)
        assert (Hmp : mag p = mag q) by (apply mag_unique; lia).
        rewrite Hmp, Hfit, Z.sub_diag. cbn [Z.max]. rewrite Z.div_1_r, Z.add_0_r.
        exists (Zpos p), e'. cbn [pack canonical]. rewrite Hmp.
        repeat split; [done|lia|]. rewrite Z.sub_diag. lia.
Qed.

(** *** The order of canonical floats is the order of their values *)

Lemma scale_lt (p1 p2 c d a : Z) :
  0 < c -> p1 < 2 * c -> c <= p2 -> 2 <= d -> 0 < a -> p1 * a < p2 * (d * a).
Proof.
  intros Hc H1 H2 Hd Ha. assert (2 * c <= p2 * d) by nia.
  assert (p1 * a < 2 * c * a) by nia. assert (2 * c * a <= p2 * d * a) by nia. lia.
Qed.

Lemma canonical_order (b : Z) (p1 p2 : positive) (e1 e2 : Z) :
  canonical (Zpos p1) e1 -> canonical (Zpos p2) e2 -> b <= e1 -> b <= e2 ->
  match e1 ?= e2 with
  | Lt => Lt
  | Gt => Gt
  | Eq => Pos.compare_cont Eq p1 p2
  end = (Zpos p1 * 2 ^ (e1 - b) ?= Zpos p2 * 2 ^ (e2 - b)).
Proof.
  cbn [canonical]. intros C1 C2 B1 B2.
  pose proof (mag_bounds p1) as [L1 U1]. pose proof (mag_bounds p2) as [L2 U2].
  pose proof (mag_pos p1). pose proof (mag_pos p2).
  assert (S1 : mag p1 <= 53) by (unfold fexp64 in C1; lia).
  assert (S2 : mag p2 <= 53) by (unfold fexp64 in C2; lia).
  assert (T1 : Zpos p1 < 2 ^ 53).
  { pose proof (pow2_le (mag p1) 53 ltac:(lia)). lia. }
  assert (T2 : Zpos p2 < 2 ^ 53).
  { pose proof (pow2_le (mag p2) 53 ltac:(lia)). lia. }
  assert (H53 : 2 ^ 53 = 2 * 2 ^ 52) by reflexivity.
  destruct (Z.compare_spec e1 e2) as [->|Hlt|Hgt].
  - fold (Pos.compare p1 p2). change (Pos.compare p1 p2) with (Zpos p1 ?= Zpos p2).
    pose proof (pow2_pos (e2 - b) ltac:(lia)) as Hw.
    destruct (Z.compare_spec (Zpos p1) (Zpos p2)),
      (Z.compare_spec (Zpos p1 * 2 ^ (e2 - b)) (Zpos p2 * 2 ^ (e2 - b)));
      try reflexivity; nia.
  - symmetry. apply Z.compare_lt_iff.
    assert (N2 : mag p2 = 53) by (unfold fexp64 in *; lia).
    rewrite N2 in L2. change (53 - 1) with 52 in L2.
    replace (e2 - b) with ((e2 - e1) + (e1 - b)) by lia.
    rewrite pow2_split by lia.
    pose proof (pow2_pos (e1 - b) ltac:(lia)).
    pose proof (pow2_le 1 (e2 - e1) ltac:(lia)) as Hd. change (2 ^ 1) with 2 in Hd.
    apply (scale_lt _ _ (2 ^ 52)); lia.
  - symmetry. apply Z.compare_gt_iff.
    assert (N1 : mag p1 = 53) by (unfold fexp64 in *; lia).
    rewrite N1 in L1. change (53 - 1) with 52 in L1.
    replace (e1 - b) with ((e1 - e2) + (e2 - b)) by lia.
    rewrite pow2_split by lia.
    pose proof (pow2_pos (e2 - b) ltac:(lia)).
    pose proof (pow2_le 1 (e1 - e2) ltac:(lia)) as Hd. change (2 ^ 1) with 2 in Hd.
    apply (scale_lt _ _ (2 ^ 52)); lia.
Qed.

Lemma represents_le (b : Z) (x y : spec_float) (v w : Z) :
  represents b x v -> represents b y w -> v <= w -> SFleb x y = true.
Proof.
  intros (s1 & k1 & e1 & -> & C1 & K1 & B1 & ->) (s2 & k2 & e2 & -> & C2 & K2 & B2 & ->) Hle.
  pose proof (pow2_pos (e1 - b) ltac:(lia)) as W1.
  pose proof (pow2_pos (e2 - b) ltac:(lia)) as W2.
  destruct k1 as [|p1|p1]; [| |lia]; destruct k2 as [|p2|p2]; try lia.
  - reflexivity.
  - cbn [pack]. assert (s2 = false) as ->.
    { destruct s2; [|done]. cbn [cond_Zopp] in Hle. destruct s1; cbn in Hle; nia. }
    destruct (e2 <=? 971); reflexivity.
  - cbn [pack]. assert (s1 = true) as ->.
    { destruct s1; [done|]. cbn [cond_Zopp] in Hle. destruct s2; cbn in Hle; nia. }
    destruct (e1 <=? 971); reflexivity.
  - pose proof (canonical_order b p1 p2 e1 e2 C1 C2 B1 B2) as Ho.
    pose proof (canonical_order b p2 p1 e2 e1 C2 C1 B2 B1) as Ho'.
    cbn [pack]. destruct s1, s2; cbn [cond_Zopp] in Hle.
    + (* both negative *)
      assert (Hge : Zpos p2 * 2 ^ (e2 - b) <= Zpos p1 * 2 ^ (e1 - b)) by lia.
      destruct (Z.leb_spec e1 971), (Z.leb_spec e2 971); unfold SFleb; cbn [SFcompare].
      * assert (Hc : (Zpos p1 * 2 ^ (e1 - b) ?= Zpos p2 * 2 ^ (e2 - b)) <> Lt)
          by (rewrite Z.compare_lt_iff; lia).
        rewrite <- Ho in Hc.
        destruct (e1 ?= e2); [destruct (Pos.compare_cont Eq p1 p2)|..]; cbn; congruence.
      * assert ((e1 ?= e2) = Lt) as E by (apply Z.compare_lt_iff; lia).
        rewrite E in Ho. symmetry in Ho. rewrite Z.compare_lt_iff in Ho. lia.
      * done.
      * done.
    + destruct (e1 <=? 971), (e2 <=? 971); reflexivity.
    + nia.
    + destruct (Z.leb_spec e1 971), (Z.leb_spec e2 971); unfold SFleb; cbn [SFcompare].
      * rewrite Ho. destruct (Z.compare_spec (Zpos p1 * 2 ^ (e1 - b)) (Zpos p2 * 2 ^ (e2 - b)));
          [done|done|lia].
      * done.
      * assert ((e1 ?= e2) = Gt) as E by (apply Z.compare_gt_iff; lia).
        rewrite E in Ho. symmetry in Ho. rewrite Z.compare_gt_iff in Ho. lia.
      * done.
Qed.

(** *** Rounding as a function of the value *)

Lemma nearest_nonneg (v w : Z) : 0 < w -> 0 <= v -> 0 <= nearest v w.
Proof.
  intros Hw Hv. pose proof (nearest_bounds v w).
  assert (0 <= v / w) by (apply Z.div_pos; lia). lia.
Qed.

Lemma nearest_small (v w : Z) : 0 <= v -> 2 * v < w -> nearest v w = 0.
Proof.
  intros Hv Hw. unfold nearest. rewrite Z.div_small, Z.mod_small by lia.
  assert ((2 * v ?= w) = Lt) as -> by (apply Z.compare_lt_iff; lia). reflexivity.
Qed.

Lemma mag_log2 (p : positive) : mag p = Z.log2 (Zpos p) + 1.
Proof.
  pose proof (Z.log2_spec (Zpos p) ltac:(lia)) as [Hl Hu].
  pose proof (Z.log2_nonneg (Zpos p)).
  apply mag_unique; [|lia].
  replace (Z.log2 (Zpos p) + 1 - 1) with (Z.log2 (Zpos p)) by lia.
  replace (Z.log2 (Zpos p) + 1) with (Z.succ (Z.log2 (Zpos p))) by lia. lia.
Qed.

Lemma round_value_mono (b v1 v2 : Z) :
  b <= -1074 -> 0 < v1 <= v2 ->
  let w1 := 2 ^ (fexp64 (Z.log2 v1 + 1 + b) - b) in
  let w2 := 2 ^ (fexp64 (Z.log2 v2 + 1 + b) - b) in
  nearest v1 w1 * w1 <= nearest v2 w2 * w2.
Proof.
  intros Hb [H1 H12] w1 w2.
  pose proof (Z.log2_spec v1 ltac:(lia)) as [L1 U1].
  pose proof (Z.log2_spec v2 ltac:(lia)) as [L2 U2].
  pose proof (Z.log2_nonneg v1) as N1. pose proof (Z.log2_nonneg v2) as N2.
  pose proof (Z.log2_le_mono v1 v2 H12) as Hl.
  set (l1 := Z.log2 v1) in *. set (l2 := Z.log2 v2) in *.
  set (e1 := fexp64 (l1 + 1 + b)) in *. set (e2 := fexp64 (l2 + 1 + b)) in *.
  assert (He1 : -1074 <= e1) by (unfold e1, fexp64; lia).
  assert (He2 : -1074 <= e2) by (unfold e2, fexp64; lia).
  assert (He : e1 <= e2) by (apply fexp64_mono; lia).
  pose proof (pow2_pos (e1 - b) ltac:(lia)) as W1. fold w1 in W1.
  pose proof (pow2_pos (e2 - b) ltac:(lia)) as W2. fold w2 in W2.
  pose proof (nearest_nonneg v2 w2 W2 ltac:(lia)) as P2.
  destruct (Z.eq_dec e1 e2) as [E|E].
  - assert (w1 = w2) as -> by (unfold w1, w2; by rewrite E).
    apply Z.mul_le_mono_nonneg_r; [lia|]. apply nearest_mono; lia.
  - assert (E2 : e2 = l2 + 1 + b - 53) by (unfold e2, fexp64 in *; lia).
    assert (Hl12 : l1 + 1 <= l2) by (unfold e1, e2, fexp64 in *; lia).
    (* the greater value rounds to at least the start of its binade *)
    assert (R2 : 2 ^ l2 <= nearest v2 w2 * w2).
    { assert (Hs : 2 ^ l2 = 2 ^ 52 * w2).
      { unfold w2. rewrite <- pow2_split by lia. f_equal. lia. }
      rewrite Hs. apply Z.mul_le_mono_nonneg_r; [lia|].
      rewrite <- (nearest_exact (2 ^ 52) w2 W2). apply nearest_mono; lia. }
    pose proof (pow2_le (l1 + 1) l2 ltac:(lia)) as Hp.
    replace (Z.succ l1) with (l1 + 1) in U1 by lia.
    destruct (Z.le_gt_cases (e1 - b) (l1 + 1)) as [Hin|Hout].
    + (* the smaller value rounds to at most the end of its binade *)
      assert (Hs : 2 ^ (l1 + 1) = 2 ^ (l1 + 1 - (e1 - b)) * w1).
      { unfold w1. rewrite <- pow2_split by lia. f_equal. lia. }
      assert (R1 : nearest v1 w1 * w1 <= 2 ^ (l1 + 1)).
      { rewrite Hs. apply Z.mul_le_mono_nonneg_r; [lia|].
        rewrite <- (nearest_exact (2 ^ (l1 + 1 - (e1 - b))) w1 W1).
        apply nearest_mono; lia. }
      lia.
    + (* the smaller value is less than half the least float *)
      assert (Hs : w1 = 2 * 2 ^ (e1 - b - 1)).
      { unfold w1. replace (e1 - b) with (1 + (e1 - b - 1)) at 1 by lia.
        rewrite pow2_split by lia. reflexivity. }
      pose proof (pow2_le (l1 + 1) (e1 - b - 1) ltac:(lia)).
      rewrite nearest_small by lia. lia.
Qed.

Lemma rndv_nonneg (b v : Z) : b <= -1074 -> 0 <= v -> 0 <= rndv b v.
Proof.
  intros Hb Hv. unfold rndv.
  assert (Hw : 0 < 2 ^ (fexp64 (Z.log2 (Z.abs v) + 1 + b) - b))
    by (apply pow2_pos; unfold fexp64; lia).
  pose proof (nearest_nonneg (Z.abs v) _ Hw ltac:(lia)).
  destruct (Z.eq_dec v 0) as [->|Hne]; [cbn; lia|].
  rewrite Z.sgn_pos by lia. nia.
Qed.

Lemma rndv_opp (b v : Z) : rndv b (- v) = - rndv b v.
Proof. unfold rndv. rewrite Z.abs_opp, Z.sgn_opp. lia. Qed.

Theorem rndv_mono (b v1 v2 : Z) : b <= -1074 -> v1 <= v2 -> rndv b v1 <= rndv b v2.
Proof.
  intros Hb Hv.
  assert (Hpos : forall u1 u2, 0 < u1 <= u2 -> rndv b u1 <= rndv b u2).
  { intros u1 u2 Hu. unfold rndv. rewrite !Z.abs_eq, !Z.sgn_pos by lia.
    rewrite !Z.mul_1_l. by apply round_value_mono. }
  destruct (Z.lt_trichotomy v1 0) as [N1|[->|P1]].
  - destruct (Z.lt_trichotomy v2 0) as [N2|[->|P2]].
    + pose proof (Hpos (- v2) (- v1) ltac:(lia)) as H. rewrite !rndv_opp in H. lia.
    + pose proof (rndv_nonneg b (- v1) Hb ltac:(lia)) as H. rewrite rndv_opp in H.
      change (rndv b 0) with 0. lia.
    + pose proof (rndv_nonneg b (- v1) Hb ltac:(lia)) as H. rewrite rndv_opp in H.
      pose proof (rndv_nonneg b v2 Hb ltac:(lia)). lia.
  - by apply rndv_nonneg.
  - apply Hpos. lia.
Qed.

(** A canonical float is the float nearest to its value. *)
Lemma rndv_canonical (b : Z) (s : bool) (k e : Z) :
  b <= -1074 -> canonical k e -> 0 <= k -> b <= e ->
  rndv b (cond_Zopp s (k * 2 ^ (e - b))) = cond_Zopp s (k * 2 ^ (e - b)).
Proof.
  intros Hb C K B.
  assert (Hpos : rndv b (k * 2 ^ (e - b)) = k * 2 ^ (e - b)).
  { destruct k as [|p|p]; [reflexivity| |lia]. cbn [canonical] in C.
    pose proof (pow2_pos (e - b) ltac:(lia)) as W.
    unfold rndv. rewrite Z.abs_eq, Z.sgn_pos by lia.
    rewrite Z.log2_mul_pow2 by lia.
    replace (e - b + Z.log2 (Zpos p) + 1 + b) with (mag p + e) by (rewrite mag_log2; lia).
    rewrite C, nearest_exact by lia. lia. }
  destruct s; cbn [cond_Zopp]; [|done]. by rewrite rndv_opp, Hpos.
Qed.

(** *** Rounding a signed mantissa *)

Lemma iter_xO (m d : positive) : Zpos (Pos.iter xO m d) = Zpos m * 2 ^ Zpos d.
Proof.
  induction d as [|d IH] using Pos.peano_ind.
  - cbn. lia.
  - rewrite Pos.iter_succ, Pos2Z.inj_succ, Z.pow_succ_r by lia.
    rewrite Pos2Z.inj_xO, IH. lia.
Qed.

Lemma shl_align_spec (m : positive) (e e' : Z) :
  (shl_align m e e').2 = Z.min e e' /\
  Zpos (shl_align m e e').1 = Zpos m * 2 ^ (e - Z.min e e').
Proof.
  unfold shl_align. destruct (e' - e) as [|d|d] eqn:E; cbn [fst snd].
  - replace (Z.min e e') with e by lia. rewrite Z.sub_diag. lia.
  - replace (Z.min e e') with e by lia. rewrite Z.sub_diag. lia.
  - replace (Z.min e e') with e' by lia. split; [done|].
    rewrite iter_xO. f_equal. f_equal. lia.
Qed.

Lemma mag_mul_pow2 (m q : positive) (n : Z) :
  0 <= n -> Zpos q = Zpos m * 2 ^ n -> mag q = mag m + n.
Proof.
  intros Hn Hq. rewrite !mag_log2, Hq, Z.log2_mul_pow2 by lia. lia.
Qed.

Theorem round_represents (b : Z) (s : bool) (m : positive) (e : Z) :
  b <= -1074 -> b <= e ->
  represents b (binary_round prec emax s m e)
    (rndv b (cond_Zopp s (Zpos m * 2 ^ (e - b)))).
Proof.
  intros Hb He. unfold binary_round. rewrite fexp_binary64. fold (mag m).
  set (e' := fexp64 (mag m + e)).
  destruct (shl_align_spec m e e') as [Hez Hmz].
  destruct (shl_align m e e') as [mz ez]. cbn [fst snd] in Hez, Hmz. subst ez.
  assert (He' : -1074 <= e') by (unfold e', fexp64; lia).
  set (ez := Z.min e e') in *.
  assert (Hmag : mag mz + ez = mag m + e).
  { rewrite (mag_mul_pow2 m mz (e - ez) ltac:(unfold ez; lia) Hmz). lia. }
  assert (Hz : ez <= fexp64 (mag mz + ez)) by (rewrite Hmag; fold e'; unfold ez; lia).
  destruct (round_aux_positive s mz ez Hz) as (k2 & e2 & -> & C & Hle & Hk).
  rewrite Hmag in Hle, Hk. fold e' in Hle, Hk.
  assert (K : 0 <= k2) by (destruct k2; cbn in C; lia).
  exists s, k2, e2. split; [done|]. split; [done|]. split; [done|]. split; [lia|].
  assert (Hv : rndv b (Zpos m * 2 ^ (e - b)) = k2 * 2 ^ (e2 - b)).
  { pose proof (pow2_pos (e - b) ltac:(lia)).
    pose proof (pow2_pos (ez - b) ltac:(unfold ez; lia)) as Hs.
    pose proof (pow2_pos (e' - ez) ltac:(unfold ez; lia)) as Hw.
    assert (Ha : Zpos m * 2 ^ (e - b) = Zpos mz * 2 ^ (ez - b)).
    { rewrite Hmz, <- Z.mul_assoc, <- pow2_split by (unfold ez; lia).
      f_equal. f_equal. lia. }
    unfold rndv. rewrite Z.abs_eq, Z.sgn_pos by lia. rewrite Z.mul_1_l.
    rewrite Ha. rewrite Z.log2_mul_pow2 by (unfold ez; lia).
    replace (ez - b + Z.log2 (Zpos mz) + 1 + b) with (mag mz + ez)
      by (rewrite mag_log2; lia).
    rewrite Hmag. fold e'.
    replace (2 ^ (e' - b)) with (2 ^ (e' - ez) * 2 ^ (ez - b)).
    2: { rewrite <- pow2_split by (unfold ez; lia). f_equal. lia. }
    rewrite nearest_scale by lia. rewrite <- Hk.
    rewrite <- !Z.mul_assoc, <- !pow2_split by (unfold ez; lia).
    f_equal. f_equal. lia. }
  destruct s; cbn [cond_Zopp]; [|done]. by rewrite rndv_opp, Hv.
Qed.

Theorem normalize_represents (b z e : Z) :
  b <= -1074 -> b <= e ->
  represents b (binary_normalize prec emax z e false) (rndv b (z * 2 ^ (e - b))).
Proof.
  intros Hb He. destruct z as [|m|m]; cbn [binary_normalize].
  - exists false, 0, e. cbn. repeat split; (reflexivity || lia).
  - apply (round_represents b false m e Hb He).
  - pose proof (round_represents b true m e Hb He) as H. cbn [cond_Zopp] in H.
    replace (Z.neg m * 2 ^ (e - b)) with (- (Zpos m * 2 ^ (e - b))) by lia. done.
Qed.

(** *** The operations on floats that are numbers *)

Lemma valid_canonical (s : bool) (m : positive) (e : Z) :
  valid_binary (S754_finite s m e) = true ->
  canonical (Zpos m) e /\ -1074 <= e <= 971.
Proof.
  cbn [SpecFloat.valid_binary]. unfold bounded, canonical_mantissa.
  rewrite fexp_binary64. fold (mag m). intros [Hc He]%andb_prop.
  apply Z.eqb_eq in Hc. apply Z.leb_le in He. cbn [canonical].
  split; [done|]. change (emax - prec) with 971 in He. unfold fexp64 in Hc. lia.
Qed.

Lemma valid_represents (b : Z) (x : spec_float) :
  b <= -1074 -> valid_binary x = true -> SFfinite x = true ->
  represents b x (SFval b x).
Proof.
  intros Hb Hv Hf. destruct x as [s|s| |s m e]; try done.
  - exists s, 0, 0. destruct s; cbn; repeat split; (reflexivity || lia).
  - destruct (valid_canonical s m e Hv) as [C He].
    exists s, (Zpos m), e. cbn [pack SFval].
    assert ((e <=? 971) = true) as -> by (apply Z.leb_le; lia).
    repeat split; [done|lia|lia].
Qed.

(** The comparison of two floats that are numbers is that of their values. *)
Lemma SFcompare_value (b : Z) (x y : spec_float) :
  b <= -1074 ->
  valid_binary x = true -> valid_binary y = true ->
  SFfinite x = true -> SFfinite y = true ->
  SFcompare x y = Some (SFval b x ?= SFval b y).
Proof.
  intros Hb Vx Vy Fx Fy.
  destruct x as [sx|sx| |sx mx ex]; try done; destruct y as [sy|sy| |sy my ey]; try done;
    cbn [SFcompare SFval].
  - destruct (valid_canonical sy my ey Vy) as [C He].
    pose proof (pow2_pos (ey - b) ltac:(lia)). f_equal. symmetry.
    destruct sy; cbn [cond_Zopp]; [apply Z.compare_gt_iff|apply Z.compare_lt_iff]; nia.
  - destruct (valid_canonical sx mx ex Vx) as [C He].
    pose proof (pow2_pos (ex - b) ltac:(lia)). f_equal. symmetry.
    destruct sx; cbn [cond_Zopp]; [apply Z.compare_lt_iff|apply Z.compare_gt_iff]; nia.
  - destruct (valid_canonical sx mx ex Vx) as [Cx Hx].
    destruct (valid_canonical sy my ey Vy) as [Cy Hy].
    pose proof (pow2_pos (ex - b) ltac:(lia)). pose proof (pow2_pos (ey - b) ltac:(lia)).
    pose proof (canonical_order b mx my ex ey Cx Cy ltac:(lia) ltac:(lia)) as Ho.
    f_equal. destruct sx, sy; cbn [cond_Zopp].
    + rewrite Z.compare_opp.
      rewrite (Z.compare_antisym (Zpos mx * 2 ^ (ex - b)) (Zpos my * 2 ^ (ey - b))), <- Ho.
      by destruct (ex ?= ey); [destruct (Pos.compare_cont Eq mx my)|..].
    + symmetry. apply Z.compare_lt_iff. nia.
    + symmetry. apply Z.compare_gt_iff. nia.
    + done.
Qed.

Lemma SFleb_value (b : Z) (x y : spec_float) :
  b <= -1074 ->
  valid_binary x = true -> valid_binary y = true ->
  SFfinite x = true -> SFfinite y = true ->
  SFleb x y = true -> SFval b x <= SFval b y.
Proof.
  intros Hb Vx Vy Fx Fy. unfold SFleb. rewrite (SFcompare_value b) by done.
  destruct (Z.compare_spec (SFval b x) (SFval b y)); [lia|lia|done].
Qed.

Lemma shl_align_value (b : Z) (m : positive) (e ez : Z) :
  b <= ez <= e ->
  Zpos (shl_align m e ez).1 * 2 ^ (ez - b) = Zpos m * 2 ^ (e - b).
Proof.
  intros He. destruct (shl_align_spec m e ez) as [_ ->].
  replace (Z.min e ez) with ez by lia.
  rewrite <- Z.mul_assoc, <- pow2_split by lia. f_equal. f_equal. lia.
Qed.

Theorem SFadd_represents (b : Z) (x y : spec_float) :
  b <= -1074 ->
  valid_binary x = true -> valid_binary y = true ->
  SFfinite x = true -> SFfinite y = true ->
  represents b (SFadd prec emax x y) (rndv b (SFval b x + SFval b y)).
Proof.
  intros Hb Vx Vy Fx Fy.
  pose proof (valid_represents b x Hb Vx Fx) as Rx.
  pose proof (valid_represents b y Hb Vy Fy) as Ry.
  destruct x as [sx|sx| |sx mx ex]; try done; destruct y as [sy|sy| |sy my ey]; try done.
  - cbn [SFadd SFval]. change (rndv b (0 + 0)) with 0.
    destruct sx, sy; first [exact Rx | exists false, 0, 0; cbn; repeat split; (reflexivity || lia)].
  - cbn [SFadd]. change (SFval b (S754_zero sx)) with 0. rewrite Z.add_0_l.
    destruct (valid_canonical sy my ey Vy) as [C He]. cbn [SFval].
    rewrite rndv_canonical by (done || lia). exact Ry.
  - cbn [SFadd]. change (SFval b (S754_zero sy)) with 0. rewrite Z.add_0_r.
    destruct (valid_canonical sx mx ex Vx) as [C He]. cbn [SFval].
    rewrite rndv_canonical by (done || lia). exact Rx.
  - destruct (valid_canonical sx mx ex Vx) as [Cx Hx].
    destruct (valid_canonical sy my ey Vy) as [Cy Hy].
    cbn [SFadd]. set (ez := Z.min ex ey).
    pose proof (normalize_represents b
      (cond_Zopp sx (Zpos (shl_align mx ex ez).1) + cond_Zopp sy (Zpos (shl_align my ey ez).1))
      ez Hb ltac:(unfold ez; lia)) as H.
    replace (SFval b _ + SFval b _) with
      ((cond_Zopp sx (Zpos (shl_align mx ex ez).1) + cond_Zopp sy (Zpos (shl_align my ey ez).1))
       * 2 ^ (ez - b)); [exact H|].
    cbn [SFval]. rewrite Z.mul_add_distr_r.
    pose proof (shl_align_value b mx ex ez ltac:(unfold ez; lia)) as Ex.
    pose proof (shl_align_value b my ey ez ltac:(unfold ez; lia)) as Ey.
    destruct sx, sy; cbn [cond_Zopp]; lia.
Qed.

Theorem SFsub_represents (b : Z) (x y : spec_float) :
  b <= -1074 ->
  valid_binary x = true -> valid_binary y = true ->
  SFfinite x = true -> SFfinite y = true ->
  represents b (SFsub prec emax x y) (rndv b (SFval b x - SFval b y)).
Proof.
  intros Hb Vx Vy Fx Fy.
  pose proof (valid_represents b x Hb Vx Fx) as Rx.
  destruct x as [sx|sx| |sx mx ex]; try done; destruct y as [sy|sy| |sy my ey]; try done.
  - cbn [SFsub SFval]. change (rndv b (0 - 0)) with 0.
    destruct sx, sy; first [exact Rx | exists false, 0, 0; cbn; repeat split; (reflexivity || lia)].
  - cbn [SFsub]. change (SFval b (S754_zero sx)) with 0. rewrite Z.sub_0_l.
    destruct (valid_canonical sy my ey Vy) as [C He].
    pose proof (valid_represents b (S754_finite (negb sy) my ey) Hb Vy eq_refl) as Ry.
    assert (E : - SFval b (S754_finite sy my ey) = SFval b (S754_finite (negb sy) my ey)).
    { cbn [SFval]. destruct sy; cbn; lia. }
    rewrite E. cbn [SFval]. rewrite rndv_canonical by (done || lia). exact Ry.
  - cbn [SFsub]. change (SFval b (S754_zero sy)) with 0. rewrite Z.sub_0_r.
    destruct (valid_canonical sx mx ex Vx) as [C He]. cbn [SFval].
    rewrite rndv_canonical by (done || lia). exact Rx.
  - destruct (valid_canonical sx mx ex Vx) as [Cx Hx].
    destruct (valid_canonical sy my ey Vy) as [Cy Hy].
    cbn [SFsub]. set (ez := Z.min ex ey).
    pose proof (normalize_represents b
      (cond_Zopp sx (Zpos (shl_align mx ex ez).1) - cond_Zopp sy (Zpos (shl_align my ey ez).1))
      ez Hb ltac:(unfold ez; lia)) as H.
    replace (SFval b _ - SFval b _) with
      ((cond_Zopp sx (Zpos (shl_align mx ex ez).1) - cond_Zopp sy (Zpos (shl_align my ey ez).1))
       * 2 ^ (ez - b)); [exact H|].
    cbn [SFval]. rewrite Z.mul_sub_distr_r.
    pose proof (shl_align_value b mx ex ez ltac:(unfold ez; lia)) as Ex.
    pose proof (shl_align_value b my ey ez ltac:(unfold ez; lia)) as Ey.
    destruct sx, sy; cbn [cond_Zopp]; lia.
Qed.

Lemma mag_mul (m1 m2 : positive) : mag m1 + mag m2 - 1 <= mag (m1 * m2).
Proof.
  pose proof (mag_bounds m1) as [L1 _]. pose proof (mag_bounds m2) as [L2 _].
  pose proof (mag_bounds (m1 * m2)) as [_ U]. rewrite Pos2Z.inj_mul in U.
  pose proof (mag_pos m1). pose proof (mag_pos m2). pose proof (mag_pos (m1 * m2)).
  assert (H12 : 2 ^ (mag m1 - 1 + (mag m2 - 1)) <= Zpos m1 * Zpos m2).
  { rewrite pow2_split by lia.
    pose proof (pow2_pos (mag m1 - 1) ltac:(lia)). pose proof (pow2_pos (mag m2 - 1) ltac:(lia)).
    nia. }
  assert (mag m1 - 1 + (mag m2 - 1) < mag (m1 * m2)) by (apply pow2_lt_inv; lia).
  lia.
Qed.

Lemma shl_align_fine (m : positive) (e e' : Z) : e <= e' -> shl_align m e e' = (m, e).
Proof. intros He. unfold shl_align. destruct (e' - e) eqn:E; [done|done|lia]. Qed.

Theorem SFmul_represents (b : Z) (x y : spec_float) :
  b <= -1074 ->
  valid_binary x = true -> valid_binary y = true ->
  SFfinite x = true -> SFfinite y = true ->
  represents (b + b) (SFmul prec emax x y) (rndv (b + b) (SFval b x * SFval b y)).
Proof.
  intros Hb Vx Vy Fx Fy.
  destruct x as [sx|sx| |sx mx ex]; try done; destruct y as [sy|sy| |sy my ey]; try done.
  - cbn [SFmul SFval]. exists (xorb sx sy), 0, 0.
    destruct (xorb sx sy); cbn; repeat split; (reflexivity || lia).
  - cbn [SFmul SFval]. exists (xorb sx sy), 0, 0.
    destruct (xorb sx sy); cbn; repeat split; (reflexivity || lia).
  - cbn [SFmul SFval]. rewrite Z.mul_0_r. exists (xorb sx sy), 0, 0.
    destruct (xorb sx sy); cbn; repeat split; (reflexivity || lia).
  - destruct (valid_canonical sx mx ex Vx) as [Cx Hx].
    destruct (valid_canonical sy my ey Vy) as [Cy Hy].
    cbn [SFmul]. cbn [canonical] in Cx, Cy.
    pose proof (mag_mul mx my) as Hm. pose proof (mag_pos mx). pose proof (mag_pos my).
    assert (Hfine : ex + ey <= fexp64 (mag (mx * my) + (ex + ey)))
      by (unfold fexp64 in *; lia).
    pose proof (round_represents (b + b) (xorb sx sy) (mx * my) (ex + ey)
                  ltac:(lia) ltac:(lia)) as Hr.
    unfold binary_round in Hr. rewrite fexp_binary64 in Hr. fold (mag (mx * my)) in Hr.
    rewrite shl_align_fine in Hr by done.
    replace (SFval b _ * SFval b _) with
      (cond_Zopp (xorb sx sy) (Zpos (mx * my) * 2 ^ (ex + ey - (b + b)))); [exact Hr|].
    cbn [SFval]. rewrite Pos2Z.inj_mul.
    replace (ex + ey - (b + b)) with ((ex - b) + (ey - b)) by lia.
    rewrite pow2_split by lia. destruct sx, sy; cbn [xorb cond_Zopp]; lia.
Qed.

(** *** The operations are monotone *)

Lemma represents_not_nan (b : Z) (x : spec_float) (v : Z) :
  represents b x v ->
  SFleb (S754_infinity true) x = true /\ SFleb x (S754_infinity false) = true.
Proof.
  intros (s & k & e & -> & _). unfold pack.
  destruct k as [|p|p]; [done| |done]. by destruct (e <=? 971), s.
Qed.

Theorem SFadd_mono (x y1 y2 : spec_float) :
  valid_binary x = true -> valid_binary y1 = true -> valid_binary y2 = true ->
  SFfinite x = true -> SFleb y1 y2 = true ->
  SFleb (SFadd prec emax x y1) (SFadd prec emax x y2) = true.
Proof.
  intros Vx V1 V2 Fx Hle.
  assert (Hnum : forall y, valid_binary y = true -> SFfinite y = true ->
            represents (-1074) (SFadd prec emax x y)
              (rndv (-1074) (SFval (-1074) x + SFval (-1074) y))).
  { intros y Vy Fy. by apply SFadd_represents. }
  assert (Hinf : forall s, SFadd prec emax x (S754_infinity s) = S754_infinity s).
  { intros s. by destruct x as [sx|sx| |sx mx ex]. }
  destruct (SFfinite y1) eqn:F1, (SFfinite y2) eqn:F2.
  - apply (represents_le (-1074) _ _ _ _ (Hnum y1 V1 F1) (Hnum y2 V2 F2)).
    apply rndv_mono; [lia|].
    pose proof (SFleb_value (-1074) y1 y2 ltac:(lia) V1 V2 F1 F2 Hle). lia.
  - destruct y2 as [s2|[|]| |s2 m2 e2]; try done.
    + by destruct y1.
    + rewrite Hinf. by apply (represents_not_nan _ _ _ (Hnum y1 V1 F1)).
    + by destruct y1 as [?|[|]| |[|] ? ?].
  - destruct y1 as [s1|[|]| |s1 m1 e1]; try done.
    + rewrite Hinf. by apply (represents_not_nan _ _ _ (Hnum y2 V2 F2)).
    + by destruct y2.
  - destruct y1 as [s1|[|]| |s1 m1 e1]; try done;
      destruct y2 as [s2|[|]| |s2 m2 e2]; try done; by rewrite !Hinf.
Qed.

Theorem SFsub_mono (x y1 y2 : spec_float) :
  valid_binary x = true -> valid_binary y1 = true -> valid_binary y2 = true ->
  SFfinite x = true -> SFleb y1 y2 = true ->
  SFleb (SFsub prec emax x y2) (SFsub prec emax x y1) = true.
Proof.
  intros Vx V1 V2 Fx Hle.
  assert (Hnum : forall y, valid_binary y = true -> SFfinite y = true ->
            represents (-1074) (SFsub prec emax x y)
              (rndv (-1074) (SFval (-1074) x - SFval (-1074) y))).
  { intros y Vy Fy. by apply SFsub_represents. }
  assert (Hinf : forall s, SFsub prec emax x (S754_infinity s) = S754_infinity (negb s)).
  { intros s. by destruct x as [sx|sx| |sx mx ex]. }
  destruct (SFfinite y1) eqn:F1, (SFfinite y2) eqn:F2.
  - apply (represents_le (-1074) _ _ _ _ (Hnum y2 V2 F2) (Hnum y1 V1 F1)).
    apply rndv_mono; [lia|].
    pose proof (SFleb_value (-1074) y1 y2 ltac:(lia) V1 V2 F1 F2 Hle). lia.
  - destruct y2 as [s2|[|]| |s2 m2 e2]; try done.
    + by destruct y1.
    + rewrite Hinf. by apply (represents_not_nan _ _ _ (Hnum y1 V1 F1)).
    + by destruct y1 as [?|[|]| |[|] ? ?].
  - destruct y1 as [s1|[|]| |s1 m1 e1]; try done.
    + rewrite Hinf. by apply (represents_not_nan _ _ _ (Hnum y2 V2 F2)).
    + by destruct y2.
  - destruct y1 as [s1|[|]| |s1 m1 e1]; try done;
      destruct y2 as [s2|[|]| |s2 m2 e2]; try done; by rewrite !Hinf.
Qed.

Theorem SFmul_mono (x y1 y2 : spec_float) :
  valid_binary x = true -> valid_binary y1 = true -> valid_binary y2 = true ->
  SFleb (S754_zero false) x = true ->
  SFfinite y1 = true -> SFfinite y2 = true ->
  SFleb (S754_zero false) y1 = true -> SFleb y1 y2 = true ->
  SFltb (S754_zero false) y1 = true ->
  SFleb (SFmul prec emax x y1) (SFmul prec emax x y2) = true.
Proof.
  intros Vx V1 V2 Px F1 F2 P1 Hle Hpos.
  pose proof (SFleb_value (-1074) y1 y2 ltac:(lia) V1 V2 F1 F2 Hle) as H12.
  pose proof (SFleb_value (-1074) (S754_zero false) y1 ltac:(lia) eq_refl V1 eq_refl F1 P1)
    as H1. change (SFval (-1074) (S754_zero false)) with 0 in H1.
  destruct (SFfinite x) eqn:Fx.
  - pose proof (SFleb_value (-1074) (S754_zero false) x ltac:(lia) eq_refl Vx eq_refl Fx Px)
      as Hx. change (SFval (-1074) (S754_zero false)) with 0 in Hx.
    apply (represents_le (-1074 + -1074) _ _ _ _
             (SFmul_represents (-1074) x y1 ltac:(lia) Vx V1 Fx F1)
             (SFmul_represents (-1074) x y2 ltac:(lia) Vx V2 Fx F2)).
    apply rndv_mono; [lia|]. nia.
  - destruct x as [sx|[|]| |sx mx ex]; try done.
    destruct y1 as [s1|s1| |[|] m1 e1]; try done;
      destruct y2 as [s2|s2| |[|] m2 e2]; try done.
Qed.

(** *** The primitive operations on binary64 *)

Lemma add_mono64 (x y1 y2 : float) :
  SFfinite (Prim2SF x) = true -> (y1 <=? y2)%float = true ->
  (x + y1 <=? x + y2)%float = true.
Proof.
  rewrite !FloatAxioms.leb_spec, !FloatAxioms.add_spec. intros Fx Hle.
  apply SFadd_mono; auto using Prim2SF_valid.
Qed.

Lemma sub_mono64 (x y1 y2 : float) :
  SFfinite (Prim2SF x) = true -> (y1 <=? y2)%float = true ->
  (x - y2 <=? x - y1)%float = true.
Proof.
  rewrite !FloatAxioms.leb_spec, !FloatAxioms.sub_spec. intros Fx Hle.
  apply SFsub_mono; auto using Prim2SF_valid.
Qed.

Lemma mul_mono64 (x y1 y2 : float) :
  (0 <=? x)%float = true -> (0 <? y1)%float = true -> (y1 <=? y2)%float = true ->
  (y2 <? infinity)%float = true ->
  (x * y1 <=? x * y2)%float = true.
Proof.
  rewrite !FloatAxioms.leb_spec, !FloatAxioms.ltb_spec, !FloatAxioms.mul_spec.
  change (Prim2SF 0) with (S754_zero false).
  change (Prim2SF infinity) with (S754_infinity false).
  intros Px P1 Hle F2.
  pose proof (Prim2SF_valid y1) as V1. pose proof (Prim2SF_valid y2) as V2.
  apply SFmul_mono; auto using Prim2SF_valid.
  - destruct (Prim2SF y1) as [?|[|]| |[|] ? ?], (Prim2SF y2) as [?|[|]| |[|] ? ?]; done.
  - destruct (Prim2SF y1) as [?|[|]| |[|] ? ?], (Prim2SF y2) as [?|[|]| |[|] ? ?]; done.
  - destruct (Prim2SF y1) as [?|[|]| |[|] ? ?]; done.
Qed.

(** A float on which [is_finite] holds is a number. *)
Lemma is_finite_number (x : float) : is_finite x = true -> SFfinite (Prim2SF x) = true.
Proof.
  unfold is_finite. cbn [feqb fsub of_int float_PyFloat].
  rewrite FloatAxioms.eqb_spec, FloatAxioms.sub_spec.
  destruct (Prim2SF x) as [?|[|]| |? ? ?]; done.
Qed.

(** The factor [2.0 - sensitivity] for a sensitivity within 0..1: it is
    within 1..2, and is the smaller the greater the sensitivity. *)
Lemma sensitivity_factor_mono (s1 s2 : float) :
  (s1 <=? s2)%float = true -> (2 - s2 <=? 2 - s1)%float = true.
Proof. by apply sub_mono64. Qed.

Lemma sensitivity_factor_bounds (s : float) :
  (0 <=? s)%float = true -> (s <=? 1)%float = true ->
  (0 <? 2 - s)%float = true /\ (2 - s <? infinity)%float = true.
Proof.
  intros H0 H1.
  pose proof (sub_mono64 2 s 1 eq_refl H1) as Hl.
  pose proof (sub_mono64 2 0 s eq_refl H0) as Hu.
  change (2 - 1)%float with 1%float in Hl. change (2 - 0)%float with 2%float in Hu.
  rewrite FloatAxioms.leb_spec in Hl, Hu. rewrite !FloatAxioms.ltb_spec.
  change (Prim2SF 1) with (S754_finite false 4503599627370496 (-52)) in Hl.
  change (Prim2SF 2) with (S754_finite false 4503599627370496 (-51)) in Hu.
  change (Prim2SF 0) with (S754_zero false).
  change (Prim2SF infinity) with (S754_infinity false).
  destruct (Prim2SF (2 - s)) as [?|[|]| |[|] ? ?]; done.
Qed.

End Rounding.

(** ** Alert thresholds *)

Section AlertThresholds.
Context {F : Type} {PF : PyFloat F}.
Import AnomalyDetection.
Implicit Types (bm m r : gmap string F) (f v w : F) (k metric : string).

Lemma emitted_key bm f metric v k w :
  (k, w) ∈ emitted bm f metric v ->
  k = metric +:+ "_threshold" \/ k = metric +:+ "_upper" \/ k = metric +:+ "_lower".
Proof.
  unfold emitted. destruct (PyStr.contains _ _); [|destruct (bm !! _)];
    rewrite ?elem_of_cons, ?elem_of_nil; intuition congruence.
Qed.

(** The key of an entry tells which metric emitted it. *)
Lemma emitted_key_inj bm f metric metric' v v' k w w' :
  (k, w) ∈ emitted bm f metric v -> (k, w') ∈ emitted bm f metric' v' ->
  metric = metric'.
Proof.
  intros H1 H2. apply emitted_key in H1, H2.
  destruct H1 as [->|[->| ->]], H2 as [E|[E|E]];
    first [ by apply append_same_suffix in E
          | by apply threshold_not_upper in E
          | by apply threshold_not_lower in E
          | by apply upper_not_lower in E
          | by symmetry in E; apply threshold_not_upper in E
          | by symmetry in E; apply threshold_not_lower in E
          | by symmetry in E; apply upper_not_lower in E ].
Qed.

Lemma alert_step_lookup bm f metric v r k w :
  alert_step bm f metric v r !! k = Some w <->
  (k, w) ∈ emitted bm f metric v \/
  ((forall w', (k, w') ∉ emitted bm f metric v) /\ r !! k = Some w).
Proof.
  unfold alert_step, emitted.
  destruct (PyStr.contains _ _); [|destruct (bm !! _) as [sv|]].
  - rewrite lookup_insert. case_decide as E.
    + subst k. rewrite list_elem_of_singleton. split; [intros [= <-]; by left|].
      intros [[= <-]|[N _]]; [done|]. exfalso. apply (N (fmul v f)). by left.
    + split; [intros Hr; right; split; [|done]|].
      * intros w'. rewrite list_elem_of_singleton. congruence.
      * rewrite list_elem_of_singleton. intros [[= ? ?]|[_ ?]]; congruence.
  - rewrite !lookup_insert. case_decide as E1; [|case_decide as E2].
    + subst k. split; [intros [= <-]; left; right; left|].
      intros [Hin|[N _]].
      * apply elem_of_cons in Hin as [[= E _]|Hin];
          [by symmetry in E; apply upper_not_lower in E|].
        apply list_elem_of_singleton in Hin. congruence.
      * exfalso. apply (N (fsub v (fmul sv f))). right. left.
    + subst k. split; [intros [= <-]; left; left|].
      intros [Hin|[N _]].
      * apply elem_of_cons in Hin as [[= <-]|Hin]; [done|].
        apply list_elem_of_singleton in Hin as [= E _].
        by apply upper_not_lower in E.
      * exfalso. apply (N (fadd v (fmul sv f))). left.
    + split; [intros Hr; right; split; [|done]|].
      * intros w'. rewrite !elem_of_cons, elem_of_nil. intuition congruence.
      * rewrite !elem_of_cons, elem_of_nil. intuition congruence.
  - split; [intros Hr; right; split; [|done]|].
    + intros w'. apply not_elem_of_nil.
    + rewrite elem_of_nil. tauto.
Qed.

Lemma thresholds_fold_lookup bm f m k w :
  map_fold (alert_step bm f) ∅ m !! k = Some w <->
  exists metric v, m !! metric = Some v /\ (k, w) ∈ emitted bm f metric v.
Proof.
  revert k w.
  apply (map_fold_weak_ind (fun r m => forall k w,
    r !! k = Some w <->
    exists metric v, m !! metric = Some v /\ (k, w) ∈ emitted bm f metric v)).
  - intros k w. rewrite lookup_empty. split; [done|].
    intros (metric & v & Hm & _). by rewrite lookup_empty in Hm.
  - intros i x m' r Hi IH k w. rewrite alert_step_lookup. split.
    + intros [Hin|[_ Hr]].
      * exists i, x. by rewrite lookup_insert_eq.
      * apply IH in Hr as (metric & v & Hm & Hin). exists metric, v.
        split; [|done]. rewrite lookup_insert_ne; [done|]. congruence.
    + intros (metric & v & Hm & Hin).
      destruct (decide (i = metric)) as [->|Hne].
      * rewrite lookup_insert_eq in Hm. injection Hm as <-. by left.
      * rewrite lookup_insert_ne in Hm by done. right. split.
        -- intros w' Hin'. apply Hne. eapply emitted_key_inj; eauto.
        -- apply IH. eauto.
Qed.

(** What [_calculate_alert_thresholds] returns, entry by entry: exactly
    the entries emitted for the metrics of the baseline. *)
Lemma alert_thresholds_lookup bm (s : F) k w :
  _calculate_alert_thresholds bm s !! k = Some w <->
  exists metric v, bm !! metric = Some v /\
    (k, w) ∈ emitted bm (fsub (lit 2.0%Q) s) metric v.
Proof. apply thresholds_fold_lookup. Qed.

Lemma alert_thresholds_std bm (s : F) metric v :
  bm !! metric = Some v -> PyStr.contains "std" metric = true ->
  _calculate_alert_thresholds bm s !! (metric +:+ "_threshold")
  = Some (fmul v (fsub (lit 2.0%Q) s)).
Proof.
  intros Hm Hstd. apply alert_thresholds_lookup. exists metric, v.
  split; [done|]. unfold emitted. rewrite Hstd. left.
Qed.

Lemma alert_thresholds_bounds bm (s : F) metric v sv :
  bm !! metric = Some v -> PyStr.contains "std" metric = false ->
  bm !! PyStr.replace "avg" "std" metric = Some sv ->
  _calculate_alert_thresholds bm s !! (metric +:+ "_upper")
  = Some (fadd v (fmul sv (fsub (lit 2.0%Q) s))) /\
  _calculate_alert_thresholds bm s !! (metric +:+ "_lower")
  = Some (fsub v (fmul sv (fsub (lit 2.0%Q) s))).
Proof.
  intros Hm Hstd Hsv. split; apply alert_thresholds_lookup; exists metric, v;
    (split; [done|]); unfold emitted; rewrite Hstd, Hsv; [left|right; left].
Qed.

(** A metric named neither 'std' nor 'avg' is its own "std" counterpart:
    [replace] leaves its name unchanged, the name is in the mapping, and
    bounds are emitted for it. *)
Lemma alert_thresholds_other_metric bm (s : F) metric v :
  bm !! metric = Some v ->
  PyStr.contains "std" metric = false -> PyStr.contains "avg" metric = false ->
  _calculate_alert_thresholds bm s !! (metric +:+ "_upper")
  = Some (fadd v (fmul v (fsub (lit 2.0%Q) s))) /\
  _calculate_alert_thresholds bm s !! (metric +:+ "_lower")
  = Some (fsub v (fmul v (fsub (lit 2.0%Q) s))).
Proof.
  intros Hm Hstd Havg. apply alert_thresholds_bounds; [done..|].
  unfold PyStr.replace. by rewrite replace_without_occurrence.
Qed.

End AlertThresholds.

(** C1 (the code departs from the claim).  On the baseline that
    [_calculate_pricing_baseline] produces, with sensitivity 0.5, the
    metrics [max_price] and [min_price], which are named neither 'std' nor
    'avg' and have no std counterpart in the mapping, still get an upper
    and a lower bound: the thresholds hold seven entries instead of the
    three of [std_price] and [avg_price]. *)
Theorem alert_thresholds_emits_bounds_for_min_max :
  let thresholds := AnomalyDetection._calculate_alert_thresholds pricing_baseline 0.5%float in
  PyStr.contains "std" "max_price" = false /\
  PyStr.contains "avg" "max_price" = false /\
  pricing_baseline !! "std_max_price" = None /\
  thresholds !! "std_price_threshold" = Some 3%float /\
  thresholds !! "avg_price_upper" = Some 13%float /\
  thresholds !! "avg_price_lower" = Some 7%float /\
  thresholds !! "max_price_upper" = Some 35%float /\
  thresholds !! "max_price_lower" = Some (-7)%float /\
  thresholds !! "min_price_upper" = Some 15%float /\
  thresholds !! "min_price_lower" = Some (-3)%float /\
  size thresholds = 7%nat.
Proof. vm_compute. repeat split; reflexivity. Qed.

(** C5, counterexample.  On binary64 a greater sensitivity need not make
    a bound smaller: with a standard deviation of 1.0 the threshold is 1.5
    for sensitivity 0.5 and for the next float after 0.5; with an average
    of 1e16 and a standard deviation of 0.25 the upper and the lower bound
    are both 1e16 for sensitivity 0 and for sensitivity 1; and with a
    standard deviation of 0 the threshold is 0 for every sensitivity. *)
Lemma alert_thresholds_not_strictly_tighter :
  let thresholds := AnomalyDetection._calculate_alert_thresholds in
  let unit_std : gmap string float := {[ "std_price" := 1%float ]} in
  let large_avg : gmap string float :=
    <[ "avg_price" := 1e16%float ]> {[ "std_price" := 0.25%float ]} in
  let zero_std : gmap string float := {[ "std_price" := 0%float ]} in
  (0.5 <? 0x1.0000000000001p-1)%float = true /\
  thresholds unit_std 0.5%float !! "std_price_threshold" = Some 1.5%float /\
  thresholds unit_std 0x1.0000000000001p-1%float !! "std_price_threshold"
  = Some 1.5%float /\
  thresholds large_avg 0%float !! "avg_price_upper" = Some 1e16%float /\
  thresholds large_avg 1%float !! "avg_price_upper" = Some 1e16%float /\
  thresholds large_avg 0%float !! "avg_price_lower" = Some 1e16%float /\
  thresholds large_avg 1%float !! "avg_price_lower" = Some 1e16%float /\
  thresholds zero_std 0%float !! "std_price_threshold" = Some 0%float /\
  thresholds zero_std 1%float !! "std_price_threshold" = Some 0%float.
Proof. vm_compute. repeat split; reflexivity. Qed.

(** In exact arithmetic the bounds are strictly tighter for the greater
    sensitivity as soon as the standard deviation is positive, and the
    same for both when it is 0. *)
Lemma alert_thresholds_tighten_exact (bm : gmap string Q) (s1 s2 : Q) :
  (s1 < s2)%Q ->
  (forall metric v,
      bm !! metric = Some v -> PyStr.contains "std" metric = true -> (0 < v)%Q ->
      exists t1 t2,
        AnomalyDetection._calculate_alert_thresholds bm s1 !! (metric +:+ "_threshold")
        = Some t1 /\
        AnomalyDetection._calculate_alert_thresholds bm s2 !! (metric +:+ "_threshold")
        = Some t2 /\
        (t2 < t1)%Q) /\
  (forall metric v sv,
      bm !! metric = Some v ->
      PyStr.contains "std" metric = false -> PyStr.contains "avg" metric = true ->
      bm !! PyStr.replace "avg" "std" metric = Some sv -> (0 < sv)%Q ->
      exists u1 u2 l1 l2,
        AnomalyDetection._calculate_alert_thresholds bm s1 !! (metric +:+ "_upper")
        = Some u1 /\
        AnomalyDetection._calculate_alert_thresholds bm s2 !! (metric +:+ "_upper")
        = Some u2 /\
        AnomalyDetection._calculate_alert_thresholds bm s1 !! (metric +:+ "_lower")
        = Some l1 /\
        AnomalyDetection._calculate_alert_thresholds bm s2 !! (metric +:+ "_lower")
        = Some l2 /\
        (u2 < u1)%Q /\ (l1 < l2)%Q) /\
  (forall metric v,
      bm !! metric = Some v -> PyStr.contains "std" metric = true -> (v == 0)%Q ->
      exists t1 t2,
        AnomalyDetection._calculate_alert_thresholds bm s1 !! (metric +:+ "_threshold")
        = Some t1 /\
        AnomalyDetection._calculate_alert_thresholds bm s2 !! (metric +:+ "_threshold")
        = Some t2 /\
        (t2 == t1)%Q).
Proof.
  intros Hs. split; [|split].
  - intros metric v Hm Hstd Hv. eexists _, _.
    split; [by apply alert_thresholds_std|]. split; [by apply alert_thresholds_std|].
    cbn [fmul fsub lit Q_PyFloat]. nra.
  - intros metric v sv Hm Hstd _ Hsv Hpos.
    destruct (alert_thresholds_bounds bm s1 metric v sv Hm Hstd Hsv) as [Hu1 Hl1].
    destruct (alert_thresholds_bounds bm s2 metric v sv Hm Hstd Hsv) as [Hu2 Hl2].
    eexists _, _, _, _. repeat (split; [eassumption|]).
    cbn [fadd fmul fsub lit Q_PyFloat]. split; nra.
  - intros metric v Hm Hstd Hv. eexists _, _.
    split; [by apply alert_thresholds_std|]. split; [by apply alert_thresholds_std|].
    cbn [fmul fsub lit Q_PyFloat]. rewrite Hv. ring.
Qed.

(** C5, amended.  On binary64, for every baseline and all sensitivities
    [0 <= s1 <= s2 <= 1], no bound computed with [s2] is looser than the
    one computed with [s1]: the threshold of every 'std' metric whose value
    is not negative is at most the one computed with [s1]; and for every
    other metric whose value is finite and whose std counterpart is in the
    baseline with a value that is not negative, the upper bound is at most,
    and the lower bound at least, the one computed with [s1].  (A value
    that is "not negative" is not a NaN.) *)
Theorem alert_thresholds_tighten (bm : gmap string float) (s1 s2 : float) :
  (0 <=? s1)%float = true -> (s1 <=? s2)%float = true -> (s2 <=? 1)%float = true ->
  (forall metric v,
      bm !! metric = Some v -> PyStr.contains "std" metric = true ->
      (0 <=? v)%float = true ->
      exists t1 t2,
        AnomalyDetection._calculate_alert_thresholds bm s1 !! (metric +:+ "_threshold")
        = Some t1 /\
        AnomalyDetection._calculate_alert_thresholds bm s2 !! (metric +:+ "_threshold")
        = Some t2 /\
        (t2 <=? t1)%float = true) /\
  (forall metric v sv,
      bm !! metric = Some v -> PyStr.contains "std" metric = false ->
      bm !! PyStr.replace "avg" "std" metric = Some sv ->
      is_finite v = true -> (0 <=? sv)%float = true ->
      exists u1 u2 l1 l2,
        AnomalyDetection._calculate_alert_thresholds bm s1 !! (metric +:+ "_upper")
        = Some u1 /\
        AnomalyDetection._calculate_alert_thresholds bm s2 !! (metric +:+ "_upper")
        = Some u2 /\
        AnomalyDetection._calculate_alert_thresholds bm s1 !! (metric +:+ "_lower")
        = Some l1 /\
        AnomalyDetection._calculate_alert_thresholds bm s2 !! (metric +:+ "_lower")
        = Some l2 /\
        (u2 <=? u1)%float = true /\ (l1 <=? l2)%float = true).
Proof.
  intros H0 H12 H1.
  assert (H2 : (0 <=? s2)%float = true /\ (s1 <=? 1)%float = true).
  { rewrite !FloatAxioms.leb_spec in *. change (Prim2SF 0) with (S754_zero false) in *.
    change (Prim2SF 1) with (S754_finite false 4503599627370496 (-52)) in *.
    pose proof (Prim2SF_valid s1) as V1. pose proof (Prim2SF_valid s2) as V2.
    assert (F1 : Binary64.SFfinite (Prim2SF s1) = true)
      by (destruct (Prim2SF s1) as [?|[|]| |[|] ? ?], (Prim2SF s2) as [?|[|]| |[|] ? ?];
          done).
    assert (F2 : Binary64.SFfinite (Prim2SF s2) = true)
      by (destruct (Prim2SF s1) as [?|[|]| |[|] ? ?], (Prim2SF s2) as [?|[|]| |[|] ? ?];
          done).
    pose proof (SFleb_value (-1074) (S754_zero false) (Prim2SF s1)
                  ltac:(lia) eq_refl V1 eq_refl F1 H0).
    pose proof (SFleb_value (-1074) (Prim2SF s1) (Prim2SF s2)
                  ltac:(lia) V1 V2 F1 F2 H12).
    pose proof (SFleb_value (-1074) (Prim2SF s2)
                  (S754_finite false 4503599627370496 (-52))
                  ltac:(lia) V2 eq_refl F2 eq_refl H1).
    unfold SFleb. rewrite !(SFcompare_value (-1074)) by done.
    split.
    - destruct (Z.compare_spec (Binary64.SFval (-1074) (S754_zero false))
                  (Binary64.SFval (-1074) (Prim2SF s2))); [done|done|lia].
    - destruct (Z.compare_spec (Binary64.SFval (-1074) (Prim2SF s1))
                  (Binary64.SFval (-1074) (S754_finite false 4503599627370496 (-52))));
        [done|done|lia]. }
  destruct H2 as [H02 H11].
  pose proof (sensitivity_factor_mono s1 s2 H12) as Hf.
  destruct (sensitivity_factor_bounds s1 H0 H11) as [_ Hf1].
  destruct (sensitivity_factor_bounds s2 H02 H1) as [Hf2 _].
  split.
  - intros metric v Hm Hstd Hv. eexists _, _.
    split; [by apply alert_thresholds_std|]. split; [by apply alert_thresholds_std|].
    change (fmul v (fsub (lit 2.0%Q) s2)) with (v * (2 - s2))%float.
    change (fmul v (fsub (lit 2.0%Q) s1)) with (v * (2 - s1))%float.
    by apply mul_mono64.
  - intros metric v sv Hm Hstd Hsv Hv Hpos.
    destruct (alert_thresholds_bounds bm s1 metric v sv Hm Hstd Hsv) as [Hu1 Hl1].
    destruct (alert_thresholds_bounds bm s2 metric v sv Hm Hstd Hsv) as [Hu2 Hl2].
    eexists _, _, _, _. repeat (split; [eassumption|]).
    change (fadd v (fmul sv (fsub (lit 2.0%Q) s2))) with (v + sv * (2 - s2))%float.
    change (fadd v (fmul sv (fsub (lit 2.0%Q) s1))) with (v + sv * (2 - s1))%float.
    change (fsub v (fmul sv (fsub (lit 2.0%Q) s1))) with (v - sv * (2 - s1))%float.
    change (fsub v (fmul sv (fsub (lit 2.0%Q) s2))) with (v - sv * (2 - s2))%float.
    pose proof (mul_mono64 sv (2 - s2) (2 - s1) Hpos Hf2 Hf Hf1) as Hp.
    pose proof (is_finite_number v Hv) as Fv.
    split; [by apply add_mono64|by apply sub_mono64].
Qed.

Lemma alert_thresholds_tighten_witness :
  (exists t1 t2,
     AnomalyDetection._calculate_alert_thresholds pricing_baseline 0.25%float
       !! ("std_price" +:+ "_threshold") = Some t1 /\
     AnomalyDetection._calculate_alert_thresholds pricing_baseline 0.75%float
       !! ("std_price" +:+ "_threshold") = Some t2 /\
     (t2 <=? t1)%float = true) /\
  (exists u1 u2 l1 l2,
     AnomalyDetection._calculate_alert_thresholds pricing_baseline 0.25%float
       !! ("avg_price" +:+ "_upper") = Some u1 /\
     AnomalyDetection._calculate_alert_thresholds pricing_baseline 0.75%float
       !! ("avg_price" +:+ "_upper") = Some u2 /\
     AnomalyDetection._calculate_alert_thresholds pricing_baseline 0.25%float
       !! ("avg_price" +:+ "_lower") = Some l1 /\
     AnomalyDetection._calculate_alert_thresholds pricing_baseline 0.75%float
       !! ("avg_price" +:+ "_lower") = Some l2 /\
     (u2 <=? u1)%float = true /\ (l1 <=? l2)%float = true).
Proof.
  destruct (alert_thresholds_tighten pricing_baseline 0.25%float 0.75%float
              eq_refl eq_refl eq_refl) as [Hstd Havg].
  split.
  - apply (Hstd "std_price" 2%float); reflexivity.
  - apply (Havg "avg_price" 10%float 2%float); reflexivity.
Defined.

(** ** Seasonal profile *)

Section Seasonal.
Context {F : Type} {PF : PyFloat F} {PD : Pandas}.
Import DemandForecasting.
Implicit Types (data : list (order_item F)) (r : order_item F).

Lemma month_cases (month : Z) :
  (1 <= month <= 12)%Z ->
  month ∈ [1; 2; 3; 4; 5; 6; 7; 8; 9; 10; 11; 12]%Z.
Proof. intros Hm. rewrite !elem_of_cons. lia. Qed.

Lemma seasonal_fold_lookup (e : Z -> F) (month : Z) :
  (1 <= month <= 12)%Z -> seasonal_fold e !! month_key month = Some (e month).
Proof.
  intros Hm%month_cases.
  repeat (apply elem_of_cons in Hm as [->|Hm]; [vm_compute; reflexivity|]).
  by apply elem_of_nil in Hm.
Qed.

Lemma seasonal_fold_size (e : Z -> F) : size (seasonal_fold e) = 12%nat.
Proof. vm_compute. reflexivity. Qed.

Lemma zip_map_pair {A B C} (f : A -> B) (g : A -> C) (l : list A) :
  zip (map f l) (map g l) = map (fun x => (f x, g x)) l.
Proof. induction l as [|x l IH]; [done|]. cbn. by rewrite IH. Qed.

Lemma created_at_column_times data cells :
  created_at_column data = Some cells -> map cell_time cells = map order_time data.
Proof.
  revert cells. induction data as [|r data IH]; intros cells Hc.
  - by injection Hc as <-.
  - cbn [created_at_column] in Hc.
    destruct (date_cell r) as [cell|] eqn:Hr; [|done].
    destruct (created_at_column data) as [cells'|]; [|done].
    injection Hc as <-. cbn [map]. rewrite (IH cells' eq_refl). f_equal.
    unfold date_cell in Hr. unfold order_time.
    destruct (orders r) as [| |[| | |text t]]; try done; by injection Hr as <-.
Qed.

(** When the 'date' column can be read, it holds the times of the order
    timestamps, next to the quantities. *)
Lemma date_column_read data col :
  date_column data = Some col ->
  col = map (fun r => (order_time r, quantity_cell r)) data.
Proof.
  unfold date_column, to_datetime. intros Hc.
  destruct (created_at_column data) as [cells|] eqn:Hcells; [|done].
  destruct (existsb cell_invalid cells); [done|].
  destruct (to_datetime_kind _); try done; injection Hc as <-;
    by rewrite (created_at_column_times data cells Hcells), zip_map_pair.
Qed.

(** The rows that survive [dropna] are the dated rows of the data. *)
Lemma date_column_rows data col :
  date_column data = Some col ->
  (forall r text t, r ∈ data -> orders r = OrdersDict (CreatedAt text t) ->
                    (month_of t, quantity_cell r) ∈ dropna col) /\
  (forall month q, (month, q) ∈ dropna col ->
     exists r text t,
       r ∈ data /\ orders r = OrdersDict (CreatedAt text t) /\ month_of t = month).
Proof.
  intros ->%date_column_read. unfold dropna. split.
  - intros r text t Hr Ho. apply list_elem_of_omap.
    exists (order_time r, quantity_cell r). split.
    + apply list_elem_of_fmap. by exists r.
    + unfold order_time. by rewrite Ho.
  - intros month q Hin. apply list_elem_of_omap in Hin as ([d q'] & Hin & Hd).
    apply list_elem_of_fmap in Hin as (r & [= -> ->] & Hr).
    unfold order_time in Hd.
    destruct (orders r) as [| |[| | |text t]] eqn:Ho; try done.
    injection Hd as <- <-. eauto 10.
Qed.

Lemma existsb_elem {A} (p : A -> bool) (l : list A) x :
  x ∈ l -> p x = true -> existsb p l = true.
Proof.
  intros Hx Hp. apply existsb_exists. exists x. split; [|done].
  by apply list_elem_of_In.
Qed.

Lemma seasonal_patterns_computed data col :
  date_column data = Some col ->
  (exists r text t, r ∈ data /\ orders r = OrdersDict (CreatedAt text t)) ->
  has_quantity_column data = true ->
  _calculate_seasonal_patterns data = seasonal_fold (seasonal_entry (dropna col)).
Proof.
  intros Hcol (r & text & t & Hr & Ho) Hqty.
  destruct (date_column_rows data col Hcol) as (Hin & _).
  unfold _calculate_seasonal_patterns.
  destruct data as [|r0 data]; [by apply elem_of_nil in Hr|].
  assert (has_orders_column (r0 :: data) = true) as ->.
  { apply (existsb_elem _ _ r); [done|]. by rewrite Ho. }
  rewrite Hqty, Hcol. cbn [negb].
  specialize (Hin r text t Hr Ho).
  destruct (dropna col) as [|row rows]; [by apply elem_of_nil in Hin|done].
Qed.

Lemma seasonal_entry_unobserved (rows : list (Z * option F)) (month : Z) :
  (forall q, (month, q) ∉ rows) -> seasonal_entry rows month = lit 1.0%Q.
Proof.
  intros Hno. unfold seasonal_entry, month_rows.
  destruct (filter _ rows) as [|[m q] l] eqn:E; [done|].
  assert ((m, q) ∈ filter (fun r : Z * option F => r.1 = month) rows) as Hin
    by (rewrite E; left).
  apply list_elem_of_filter in Hin as [Hm Hin]. cbn in Hm. subst m.
  by apply Hno in Hin.
Qed.

(** The profile of an empty history is empty. *)
Lemma seasonal_patterns_empty :
  _calculate_seasonal_patterns (F:=F) [] = ∅.
Proof. reflexivity. Qed.

(** On a history whose dates are read, with a dated row and a quantity
    column, the profile has its twelve entries and the months without a
    dated row have 1.0. *)
Lemma seasonal_patterns_of_history data :
  dates_read data = true ->
  existsb is_dated data = true ->
  has_quantity_column data = true ->
  let profile := _calculate_seasonal_patterns data in
  size profile = 12%nat /\
  (forall month, (1 <= month <= 12)%Z -> is_Some (profile !! month_key month)) /\
  (forall month, (1 <= month <= 12)%Z ->
     existsb (dated_in month) data = false ->
     profile !! month_key month = Some (lit 1.0%Q)).
Proof.
  intros Hok Hdated Hqty profile. subst profile.
  unfold dates_read in Hok. destruct (date_column data) as [col|] eqn:Hcol; [|done].
  assert (Hdated' : exists r text t, r ∈ data /\ orders r = OrdersDict (CreatedAt text t)).
  { apply existsb_exists in Hdated as (r & Hr%list_elem_of_In & Hd). unfold is_dated in Hd.
    destruct (orders r) as [| |[| | |text t]] eqn:E; try done. eauto 10. }
  rewrite (seasonal_patterns_computed data col Hcol Hdated' Hqty).
  destruct (date_column_rows data col Hcol) as (_ & Hrows).
  split; [apply seasonal_fold_size|]. split.
  - intros month Hm. rewrite seasonal_fold_lookup by done. eauto.
  - intros month Hm Hnone. rewrite seasonal_fold_lookup by done. f_equal.
    apply seasonal_entry_unobserved. intros q Hin.
    destruct (Hrows _ _ Hin) as (r & text & t & Hr & Ho & Ht).
    rewrite (existsb_elem (dated_in month) data r Hr) in Hnone; [done|].
    unfold dated_in. rewrite Ho. by apply Z.eqb_eq.
Qed.

(** With seasonality enabled the context of a call holds the profile of
    the history it fetched. *)
Lemma forecast_context_seasonal (env : collaborators F) (product_ids : list string)
    (warehouse_ids : option (list string)) (w : world) :
  let context := (forecast_context env product_ids warehouse_ids true w).1 in
  seasonal_patterns context = _calculate_seasonal_patterns (historical_data context).
Proof. unfold forecast_context. by rewrite bind_run. Qed.

(** C2, amended.  For a [forecast_demand] call with seasonality enabled:
    when pandas reads the order timestamps of the fetched history as one
    column of dates, and the history has a row with an order timestamp and
    a row with a quantity (be it null), the seasonal profile has exactly
    12 entries, one per month 1..12, and every month in which no row is
    dated has ratio exactly 1.0; when the fetched history is empty, the
    profile is empty. *)
Theorem seasonal_patterns_twelve_entries (env : collaborators F)
    (product_ids : list string) (warehouse_ids : option (list string)) (w : world) :
  let context := (forecast_context env product_ids warehouse_ids true w).1 in
  (dates_read (historical_data context) = true ->
   existsb is_dated (historical_data context) = true ->
   has_quantity_column (historical_data context) = true ->
   size (seasonal_patterns context) = 12%nat /\
   (forall month, (1 <= month <= 12)%Z ->
      is_Some (seasonal_patterns context !! month_key month)) /\
   (forall month, (1 <= month <= 12)%Z ->
      existsb (dated_in month) (historical_data context) = false ->
      seasonal_patterns context !! month_key month = Some (lit 1.0%Q))) /\
  (historical_data context = [] -> seasonal_patterns context = ∅).
Proof.
  intros context. subst context. rewrite forecast_context_seasonal. split.
  - intros Hok Hdated Hqty. by apply seasonal_patterns_of_history.
  - by intros ->.
Qed.

End Seasonal.

(** C2, counterexample.  A [forecast_demand] call with seasonality enabled
    whose history is empty computes an empty seasonal profile: no entry
    for any month, not 12 entries of 1.0. *)
Lemma seasonal_profile_empty_history :
  let context :=
    (DemandForecasting.forecast_context silent_collaborators ["p1"] None true
       (frozen_world 0%Z)).1 in
  DemandForecasting.historical_data context = [] /\
  DemandForecasting.seasonal_patterns context = ∅ /\
  size (DemandForecasting.seasonal_patterns context) <> 12%nat /\
  DemandForecasting.seasonal_patterns context !! DemandForecasting.month_key 1 = None.
Proof. vm_compute. repeat split; congruence. Qed.

Lemma seasonal_patterns_twelve_entries_witness :
  (let context :=
     (DemandForecasting.forecast_context two_month_collaborators ["p1"] None true
        (frozen_world 0%Z)).1 in
   size (DemandForecasting.seasonal_patterns context) = 12%nat /\
   DemandForecasting.seasonal_patterns context !! DemandForecasting.month_key 3
   = Some (lit 1.0%Q)) /\
  (DemandForecasting.seasonal_patterns
     (DemandForecasting.forecast_context silent_collaborators ["p1"] None true
        (frozen_world 0%Z)).1 = ∅).
Proof.
  split.
  - destruct (seasonal_patterns_twelve_entries two_month_collaborators ["p1"] None
                (frozen_world 0%Z)) as [Hfull _].
    destruct (Hfull eq_refl eq_refl eq_refl) as (Hs & _ & Hd).
    split; [exact Hs|]. apply (Hd 3%Z); [lia|reflexivity].
  - destruct (seasonal_patterns_twelve_entries silent_collaborators ["p1"] None
                (frozen_world 0%Z)) as [_ Hempty].
    apply Hempty. reflexivity.
Defined.

(** ** Distance heuristic *)

Section Distance.
Import DeliveryPrediction.

Lemma digit_facts (c : ascii) :
  PyStr.is_digit c = true ->
  PyStr.is_space c = false /\ Ascii.eqb c "-" = false /\ Ascii.eqb c "+" = false /\
  (0 <= PyStr.digit_val c <= 9)%Z.
Proof.
  destruct c as [[] [] [] [] [] [] [] []]; vm_compute; intros [=];
    repeat split; congruence.
Qed.

Lemma int_three_digits (a b c : ascii) :
  PyStr.is_digit a = true -> PyStr.is_digit b = true -> PyStr.is_digit c = true ->
  PyStr.int (String a (String b (String c EmptyString)))
  = Some (100 * PyStr.digit_val a + 10 * PyStr.digit_val b + PyStr.digit_val c)%Z.
Proof.
  intros Ha Hb Hc.
  destruct (digit_facts a Ha) as (Sa & Ma & Pa & _).
  destruct (digit_facts c Hc) as (Sc & _).
  unfold PyStr.int, PyStr.strip. cbn [list_ascii_of_string PyStr.lstrip].
  rewrite Sa. cbn [rev app PyStr.lstrip]. rewrite Sc. cbn [rev app].
  rewrite Ma, Pa. cbn [PyStr.parse_digits]. rewrite Ha, Hb, Hc. f_equal. lia.
Qed.

Lemma zip_prefix_well_formed (zip : option string) :
  well_formed_zip zip = true -> zip_prefix zip = Some (three_digit_prefix zip).
Proof.
  destruct zip as [[|a [|b [|c rest]]]|]; try discriminate. cbn [well_formed_zip].
  intros [[Ha Hb]%andb_prop Hc]%andb_prop.
  cbn [zip_prefix PyStr.slice_to three_digit_prefix]. by apply int_three_digits.
Qed.

Lemma three_digit_prefix_range (zip : option string) :
  well_formed_zip zip = true -> (0 <= three_digit_prefix zip <= 999)%Z.
Proof.
  destruct zip as [[|a [|b [|c rest]]]|]; try discriminate. cbn [well_formed_zip].
  intros [[Ha Hb]%andb_prop Hc]%andb_prop. cbn [three_digit_prefix].
  destruct (digit_facts a Ha) as (_ & _ & _ & ?).
  destruct (digit_facts b Hb) as (_ & _ & _ & ?).
  destruct (digit_facts c Hc) as (_ & _ & _ & ?). lia.
Qed.

(** C3, counterexample.  A missing postal code (absent or empty) does not
    give 500 miles, and neither does a code too short to be well formed. *)
Lemma estimate_distance_missing_or_short :
  _estimate_distance None (Some "90210") = 3000%Z /\
  _estimate_distance (Some EmptyString) (Some "90210") = 3000%Z /\
  _estimate_distance (Some "10001") None = 3000%Z /\
  _estimate_distance None None = 0%Z /\
  _estimate_distance (Some "9") (Some "90210") = 3000%Z /\
  _estimate_distance None (Some "90210") <> 500%Z.
Proof. vm_compute. repeat split; congruence. Qed.

(** An integer literal is made of digits and underscores, after its sign
    and between its blanks. *)
Lemma parse_digits_chars (s : list ascii) (acc : Z) (prev : bool) (z : Z) :
  PyStr.parse_digits acc prev s = Some z ->
  forall c, In c s -> PyStr.is_digit c = true \/ Ascii.eqb c "_" = true.
Proof.
  revert acc prev. induction s as [|c0 s IH]; intros acc prev Hp c Hin; [done|].
  cbn [PyStr.parse_digits] in Hp. destruct Hin as [<-|Hin].
  - destruct (PyStr.is_digit c0); [by left|].
    destruct (Ascii.eqb c0 "_"); [by right|done].
  - destruct (PyStr.is_digit c0); [by eapply IH|].
    destruct (Ascii.eqb c0 "_" && prev); [by eapply IH|done].
Qed.

Lemma lstrip_keeps (s : list ascii) (c : ascii) :
  In c s -> PyStr.is_space c = false -> In c (PyStr.lstrip s).
Proof.
  induction s as [|c0 s IH]; intros Hin Hc; [done|]. cbn [PyStr.lstrip].
  destruct (PyStr.is_space c0) eqn:E; [|done].
  destruct Hin as [<-|Hin]; [congruence|auto].
Qed.

Lemma strip_keeps (s : list ascii) (c : ascii) :
  In c s -> PyStr.is_space c = false -> In c (PyStr.strip s).
Proof.
  intros Hin Hc. unfold PyStr.strip.
  apply (proj1 (in_rev _ _)), lstrip_keeps; [|done].
  apply (proj1 (in_rev _ _)). by apply lstrip_keeps.
Qed.

Lemma int_of_lettered (s : string) (c : ascii) :
  In c (list_ascii_of_string s) -> literal_char c = false -> PyStr.int s = None.
Proof.
  unfold literal_char. intros Hin Hc.
  apply orb_false_elim in Hc as [Hc Hunder].
  apply orb_false_elim in Hc as [Hc Hminus].
  apply orb_false_elim in Hc as [Hc Hplus].
  apply orb_false_elim in Hc as [Hdigit Hspace].
  pose proof (strip_keeps _ c Hin Hspace) as Hs. unfold PyStr.int.
  destruct (PyStr.strip (list_ascii_of_string s)) as [|c0 rest]; [done|].
  assert (Hno : forall l acc, In c l -> PyStr.parse_digits acc false l = None).
  { intros l acc Hl. destruct (PyStr.parse_digits acc false l) as [z|] eqn:E; [|done].
    destruct (parse_digits_chars l acc false z E c Hl); congruence. }
  destruct (Ascii.eqb c0 "-") eqn:E1.
  - destruct Hs as [->|Hs]; [congruence|]. by rewrite (Hno rest 0%Z Hs).
  - destruct (Ascii.eqb c0 "+") eqn:E2.
    + destruct Hs as [->|Hs]; [congruence|]. by apply Hno.
    + by apply Hno.
Qed.

Lemma lettered_zip_malformed (zip : option string) :
  lettered_zip zip = true -> malformed_zip zip = true.
Proof.
  destruct zip as [s|]; [|done]. unfold lettered_zip, malformed_zip.
  intros (c & Hin & Hc)%existsb_exists. apply negb_true_iff in Hc.
  destruct s as [|c0 s0]; [done|].
  by rewrite (int_of_lettered _ c Hin Hc).
Qed.

(** C3, amended.  If either postal code is present, is made of ASCII
    characters, and its first three characters are not an integer literal
    (as when one of them is a letter), the heuristic returns exactly 500
    miles; a missing code is read as prefix 0, so that with a missing
    origin the result is |prefix of the destination| x 50 capped at 3000
    (and likewise with a missing destination). *)
Theorem estimate_distance_malformed (origin_zip dest_zip : option string) :
  (ascii_zip origin_zip = true /\ malformed_zip origin_zip = true \/
   ascii_zip dest_zip = true /\ malformed_zip dest_zip = true ->
   _estimate_distance origin_zip dest_zip = 500%Z) /\
  (lettered_zip origin_zip = true -> malformed_zip origin_zip = true) /\
  (lettered_zip dest_zip = true -> malformed_zip dest_zip = true) /\
  (missing_zip origin_zip = true ->
   forall dest_num, zip_prefix dest_zip = Some dest_num ->
   _estimate_distance origin_zip dest_zip = Z.min (Z.abs dest_num * 50) 3000) /\
  (missing_zip dest_zip = true ->
   forall origin_num, zip_prefix origin_zip = Some origin_num ->
   _estimate_distance origin_zip dest_zip = Z.min (Z.abs origin_num * 50) 3000).
Proof.
  assert (Hp : forall zip, malformed_zip zip = true -> zip_prefix zip = None).
  { intros [[|c s]|]; cbn [malformed_zip zip_prefix]; try discriminate.
    by destruct (PyStr.int _). }
  assert (Hz : forall zip, missing_zip zip = true -> zip_prefix zip = Some 0%Z).
  { by intros [[|c s]|]. }
  unfold _estimate_distance.
  split; [|split; [apply lettered_zip_malformed|split; [apply lettered_zip_malformed|split]]].
  - intros [[_ Ho%Hp]|[_ Hd%Hp]].
    + by rewrite Ho.
    + rewrite Hd. by destruct (zip_prefix origin_zip).
  - intros Ho%Hz dest_num Hd. rewrite Ho, Hd.
    by replace (0 - dest_num)%Z with (- dest_num)%Z by lia; rewrite Z.abs_opp.
  - intros Hd%Hz origin_num Ho. rewrite Ho, Hd. by rewrite Z.sub_0_r.
Qed.

Lemma estimate_distance_malformed_witness :
  ascii_zip (Some "1a345") = true /\ lettered_zip (Some "1a345") = true /\
  malformed_zip (Some "1a345") = true /\
  _estimate_distance (Some "1a345") (Some "90210") = 500%Z /\
  _estimate_distance (Some "10001") (Some "SW1A 1AA") = 500%Z /\
  _estimate_distance None (Some "10001") = Z.min (Z.abs 100 * 50) 3000.
Proof.
  split; [reflexivity|]. split; [reflexivity|]. split; [|split; [|split]].
  - apply (estimate_distance_malformed (Some "1a345") (Some "90210")). reflexivity.
  - apply (estimate_distance_malformed (Some "1a345") (Some "90210")).
    left. split; reflexivity.
  - apply (estimate_distance_malformed (Some "10001") (Some "SW1A 1AA")).
    right. split; reflexivity.
  - apply (proj1 (proj2 (proj2 (proj2
             (estimate_distance_malformed None (Some "10001"))))));
      reflexivity.
Defined.

(** C9.  For two postal codes that start with three digits the estimate is
    |difference of the 3-digit prefixes| x 50 capped at 3000; it never
    exceeds 3000 and is non-decreasing in the prefix difference. *)
Theorem estimate_distance_well_formed (origin_zip dest_zip : option string) :
  well_formed_zip origin_zip = true -> well_formed_zip dest_zip = true ->
  _estimate_distance origin_zip dest_zip
  = Z.min (Z.abs (three_digit_prefix origin_zip - three_digit_prefix dest_zip) * 50) 3000 /\
  (0 <= _estimate_distance origin_zip dest_zip <= 3000)%Z /\
  (forall origin_zip' dest_zip',
      well_formed_zip origin_zip' = true -> well_formed_zip dest_zip' = true ->
      (Z.abs (three_digit_prefix origin_zip - three_digit_prefix dest_zip)
       <= Z.abs (three_digit_prefix origin_zip' - three_digit_prefix dest_zip'))%Z ->
      (_estimate_distance origin_zip dest_zip
       <= _estimate_distance origin_zip' dest_zip')%Z).
Proof.
  intros Ho Hd.
  assert (E : forall o d, well_formed_zip o = true -> well_formed_zip d = true ->
    _estimate_distance o d
    = Z.min (Z.abs (three_digit_prefix o - three_digit_prefix d) * 50) 3000).
  { intros o d Wo Wd. unfold _estimate_distance.
    by rewrite (zip_prefix_well_formed o Wo), (zip_prefix_well_formed d Wd). }
  split; [by apply E|]. split.
  - rewrite E by done. lia.
  - intros o' d' Wo' Wd' Hle. rewrite !E by done. lia.
Qed.

Lemma estimate_distance_well_formed_witness :
  well_formed_zip (Some "10001") = true /\ well_formed_zip (Some "10101") = true /\
  _estimate_distance (Some "10001") (Some "10101") = 50%Z /\
  (_estimate_distance (Some "10001") (Some "10101")
   <= _estimate_distance (Some "10001") (Some "90210"))%Z.
Proof.
  assert (W1 : well_formed_zip (Some "10001") = true) by reflexivity.
  assert (W2 : well_formed_zip (Some "10101") = true) by reflexivity.
  assert (W3 : well_formed_zip (Some "90210") = true) by reflexivity.
  destruct (estimate_distance_well_formed (Some "10001") (Some "10101") W1 W2)
    as (E & _ & Hmono).
  split; [exact W1|]. split; [exact W2|]. split; [exact E|].
  apply (Hmono (Some "10001") (Some "90210") W1 W3). vm_compute. discriminate.
Defined.

End Distance.

(** ** Request validation *)

(** C4, counterexample.  A [forecast_demand] body with an empty
    [product_ids] list violates the constraint the interface words, yet it
    validates, and the pipeline runs: the table is queried, the oracle is
    invoked and the answer is a 200. *)
Lemma empty_product_ids_accepted :
  demand_constraints_violated empty_products_body = true /\
  Requests.validate_DemandForecastRequest empty_products_body
  = Requests.Valid {| Requests.product_ids := [];
                      Requests.warehouse_ids := None;
                      Requests.forecast_days := 30%Z;
                      Requests.include_seasonality := true |} /\
  exists response w',
    Main.forecast_demand
      (Some (Main.raising_method "oracle failure"
               (DemandForecasting.forecast_demand silent_collaborators)))
      empty_products_body (frozen_world 0%Z) = (Main.Http200 response, w') /\
    trace w' = [OracleRun; DbQuery "order_items"].
Proof.
  split; [reflexivity|]. split; [reflexivity|].
  eexists _, _. split; [vm_compute; reflexivity|]. reflexivity.
Qed.

Section Validation.
Context {F : Type} {PF : PyFloat F}.
Context {DemandResponse AnomalyResponse : Type}.

Lemma check_int_range_outside (field : string) (lo hi v : Z) :
  (v < lo \/ hi < v)%Z -> Requests.check_int_range field lo hi v <> [].
Proof.
  unfold Requests.check_int_range. intros Hv.
  destruct (Z.leb_spec lo v), (Z.leb_spec v hi); cbn; try discriminate. lia.
Qed.

Lemma check_float_range_outside (field : string) (lo hi v : F) :
  fleb lo v = false \/ fleb v hi = false ->
  Requests.check_float_range field lo hi v <> [].
Proof.
  unfold Requests.check_float_range.
  intros [-> | ->]; [discriminate|]. by destruct (fleb lo v).
Qed.

(** C4, amended.  A [forecast_demand] body whose [forecast_days] is
    outside 1..365 and a [detect_anomalies] body whose [sensitivity] is a
    finite number outside 0..1 are answered with a validation error,
    whatever the agent, and the state is left as it was: no clock reading,
    no query, no oracle run.  A [sensitivity] that is infinite or not a
    number is refused as well, with the state left as it was, but the
    answer is a bare 500 in place of the validation error.  A
    [forecast_demand] body whose [product_ids] list is empty validates when
    its [forecast_days] is within 1..365 or omitted. *)
Theorem out_of_range_parameters_rejected :
  (forall (demand_agent : option (Main.demand_method (DemandResponse:=DemandResponse)))
          (body : Requests.DemandForecastBody) (d : Z) (w : world),
      Requests.body_forecast_days body = Some d -> (d < 1 \/ 365 < d)%Z ->
      exists errors,
        errors <> [] /\
        Main.forecast_demand demand_agent body w = (Main.Http422 errors, w)) /\
  (forall (anomaly_agent : option (Main.anomaly_method (AnomalyResponse:=AnomalyResponse)))
          (body : Requests.AnomalyDetectionBody F) (s : F) (w : world),
      Requests.body_sensitivity body = Some s ->
      fleb (lit 0.0%Q) s = false \/ fleb s (lit 1.0%Q) = false ->
      exists errors,
        errors <> [] /\
        Main.detect_anomalies anomaly_agent body w
        = (if is_finite s then Main.Http422 errors
           else Main.Http500 "Internal Server Error", w)) /\
  (forall (body : Requests.DemandForecastBody),
      Requests.body_product_ids body = Some [] ->
      (forall d, Requests.body_forecast_days body = Some d -> (1 <= d <= 365)%Z) ->
      exists request,
        Requests.validate_DemandForecastRequest body = Requests.Valid request /\
        Requests.product_ids request = []).
Proof.
  split; [|split].
  - intros agent body d w Hd Hout.
    unfold Main.forecast_demand, Requests.validate_DemandForecastRequest.
    rewrite Hd. pose proof (check_int_range_outside "forecast_days" 1 365 d Hout) as Hne.
    destruct (Requests.body_product_ids body) as [ids|]; cbn [Requests.required app].
    + destruct (Requests.check_int_range _ _ _ _) as [|e es] eqn:E; [done|].
      by exists (e :: es).
    + eexists. split; [|reflexivity]. discriminate.
  - intros agent body s w Hs Hout.
    unfold Main.detect_anomalies, Requests.validate_AnomalyDetectionRequest.
    rewrite Hs.
    pose proof (check_float_range_outside "sensitivity" (lit 0.0%Q) (lit 1.0%Q) s Hout)
      as Hne.
    destruct (Requests.check_float_range _ _ _ _) as [|e es] eqn:E; [done|].
    unfold Main.validation_response.
    destruct (Requests.body_data_type body), (Requests.body_time_range body);
      cbn [Requests.required app]; eexists; (split; [|reflexivity]);
      discriminate.
  - intros body Hids Hdays. unfold Requests.validate_DemandForecastRequest.
    rewrite Hids. cbn [Requests.required app].
    destruct (Requests.body_forecast_days body) as [d|]; [|by eexists].
    specialize (Hdays d eq_refl). unfold Requests.check_int_range.
    destruct (Z.leb_spec 1 d); [|lia]. destruct (Z.leb_spec d 365); [|lia].
    by eexists.
Qed.

End Validation.

Lemma out_of_range_parameters_rejected_witness :
  (exists errors,
     errors <> [] /\
     Main.forecast_demand
       (Some (Main.raising_method "oracle failure"
                (DemandForecasting.forecast_demand silent_collaborators)))
       long_horizon_body (frozen_world 0%Z)
     = (Main.Http422 errors, frozen_world 0%Z)) /\
  (exists errors,
     errors <> [] /\
     Main.detect_anomalies (AnomalyResponse:=unit) None oversensitive_body (frozen_world 0%Z)
     = (Main.Http422 errors, frozen_world 0%Z)) /\
  (exists errors : list Requests.validation_error,
     errors <> [] /\
     Main.detect_anomalies (AnomalyResponse:=unit) None nan_body (frozen_world 0%Z)
     = (Main.Http500 "Internal Server Error", frozen_world 0%Z)).
Proof.
  destruct (out_of_range_parameters_rejected (F:=float)
              (DemandResponse:=DemandForecasting.DemandForecastResponse float)
              (AnomalyResponse:=unit)) as (Hd & Ha & _).
  split; [|split].
  - apply (Hd _ long_horizon_body 366%Z); [reflexivity|]. right. reflexivity.
  - apply (Ha None oversensitive_body 1.5%float (frozen_world 0%Z));
      [reflexivity|]. right. reflexivity.
  - apply (Ha None nan_body PrimFloat.nan (frozen_world 0%Z));
      [reflexivity|]. right. reflexivity.
Defined.

(** ** Normalisation of an anomaly-detection result *)

Section Anomaly.
Import AnomalyDetection.
Context {F : Type} {PF : PyFloat F} {Row Patterns : Type}.
Implicit Types (result : AnomalyDetectionResponse F)
  (context : AnomalyContext F Row Patterns).

Lemma count_critical_positive (l : list AnomalyItem) :
  (0 <? count_critical l)%nat
  = existsb (fun a => String.eqb (severity a) "critical") l.
Proof.
  unfold count_critical. induction l as [|a l IH]; [done|].
  rewrite filter_cons. cbn [existsb]. destruct (decide _) as [E|E].
  - by rewrite E.
  - apply not_true_is_false in E. by rewrite E.
Qed.

(** C6.  After normalisation [total_anomalies] is the length of the
    [anomalies] sequence (the oracle's list, or the empty list when the
    oracle gave none), whatever count the oracle supplied. *)
Theorem total_anomalies_is_length result context time_range (w : world) :
  let out := (_enhance_detection_result result context time_range w).1 in
  exists found,
    anomalies out = Some found /\
    total_anomalies out = Z.of_nat (length found) /\
    found = default [] (anomalies result).
Proof.
  unfold _enhance_detection_result. rewrite bind_run. cbn.
  eexists. split; [reflexivity|]. split; [reflexivity|].
  by destruct (anomalies result) as [[|a l]|].
Qed.

(** C7.  When the oracle left [next_check_recommended] unset, it becomes
    the clock reading plus 15 minutes if some anomaly is 'critical', else
    plus 1 hour if there is an anomaly, else plus 4 hours. *)
Theorem next_check_tiers result context time_range (w : world) :
  next_check_recommended result = None ->
  let found := default [] (anomalies result) in
  next_check_recommended (_enhance_detection_result result context time_range w).1
  = Some (clock w 0 +
          if existsb (fun a => String.eqb (severity a) "critical") found
          then timedelta_minutes 15
          else match found with
               | _ :: _ => timedelta_hours 1
               | [] => timedelta_hours 4
               end)%Z.
Proof.
  intros Hunset. unfold _enhance_detection_result. rewrite bind_run, Hunset.
  destruct (anomalies result) as [[|a l]|]; cbn [default length Z.of_nat];
    try reflexivity.
  change (0 <? Z.of_nat (S (length l)))%Z with true. cbn iota.
  rewrite count_critical_positive. unfold id.
  destruct (existsb _ (a :: l)); reflexivity.
Qed.

End Anomaly.

Lemma next_check_tiers_witness :
  AnomalyDetection.next_check_recommended
    (AnomalyDetection._enhance_detection_result
       (oracle_anomalies [low_anomaly]) empty_context ∅ (frozen_world 1000%Z)).1
  = Some (1000 + timedelta_hours 1)%Z /\
  AnomalyDetection.next_check_recommended
    (AnomalyDetection._enhance_detection_result
       (oracle_anomalies [low_anomaly; critical_anomaly]) empty_context ∅
       (frozen_world 1000%Z)).1
  = Some (1000 + timedelta_minutes 15)%Z /\
  AnomalyDetection.next_check_recommended
    (AnomalyDetection._enhance_detection_result
       (oracle_anomalies []) empty_context ∅ (frozen_world 1000%Z)).1
  = Some (1000 + timedelta_hours 4)%Z.
Proof.
  split; [|split].
  - apply (next_check_tiers (oracle_anomalies [low_anomaly]) empty_context ∅
             (frozen_world 1000%Z)). reflexivity.
  - apply (next_check_tiers (oracle_anomalies [low_anomaly; critical_anomaly])
             empty_context ∅ (frozen_world 1000%Z)). reflexivity.
  - apply (next_check_tiers (oracle_anomalies []) empty_context ∅
             (frozen_world 1000%Z)). reflexivity.
Defined.

(** The oracle's own count (7) is replaced by the length of the list. *)
Example total_anomalies_overwritten :
  AnomalyDetection.total_anomalies
    (AnomalyDetection._enhance_detection_result
       (oracle_anomalies [low_anomaly; critical_anomaly]) empty_context ∅
       (frozen_world 1000%Z)).1 = 2%Z.
Proof. reflexivity. Qed.

(** ** Normalisation of a demand forecast *)

Section Demand.
Import DemandForecasting.
Context {F : Type} {PF : PyFloat F} {PD : Pandas}.
Implicit Types (result : DemandForecastResponse F) (env : collaborators F).

Lemma comprehension_placeholder (days : list Z) (w : world) :
  (comprehension placeholder days w).1
  = imap (fun j i => placeholder_at (clock w j) i) days.
Proof.
  revert w. induction days as [|i days IH]; intros w; [done|].
  cbn [comprehension imap]. rewrite bind_run.
  change (placeholder i w) with
    (placeholder_at (clock w 0) i,
     {| clock := fun n => clock w (S n); trace := trace w |}).
  cbn [fst snd]. rewrite bind_run. cbn [fst mret M_ret]. by rewrite IH.
Qed.

Lemma py_range_lookup (n : Z) (i : nat) :
  (i < Z.to_nat n)%nat -> py_range 0 n !! i = Some (Z.of_nat i).
Proof.
  intros Hi. unfold py_range. rewrite list_lookup_fmap, Z.sub_0_r.
  rewrite lookup_seq_lt by done. done.
Qed.

Lemma enhance_forecasts_empty result (forecast_days : Z) (w : world) :
  forecasts result = [] ->
  forecasts (_enhance_forecast_result result forecast_days w).1
  = imap (fun j i => placeholder_at (clock w j) i) (py_range 0 (Z.min forecast_days 7)).
Proof.
  intros Hempty. unfold _enhance_forecast_result. rewrite Hempty.
  rewrite !bind_run. cbn [fst snd mret M_ret forecasts].
  apply comprehension_placeholder.
Qed.

(** C8.  For [forecast_days] in 1..365 and an oracle answer without
    forecasts, normalisation synthesises exactly [min(forecast_days, 7)]
    items; item [i] is dated [i] days after the clock reading taken for it
    and has demand 10.0, confidence 0.7 and seasonal factor 1.0. *)
Theorem placeholders_when_no_forecast result (forecast_days : Z) (w : world) :
  (1 <= forecast_days <= 365)%Z -> forecasts result = [] ->
  let out := (_enhance_forecast_result result forecast_days w).1 in
  length (forecasts out) = Z.to_nat (Z.min forecast_days 7) /\
  forall i : nat, (i < Z.to_nat (Z.min forecast_days 7))%nat ->
    forecasts out !! i
    = Some {| product_id := "sample_product";
              warehouse_id := None;
              date := (clock w i + timedelta_days (Z.of_nat i))%Z;
              predicted_demand := lit 10.0%Q;
              confidence_score := lit 0.7%Q;
              seasonal_factor := Some (lit 1.0%Q) |}.
Proof.
  intros _ Hempty out. subst out. rewrite enhance_forecasts_empty by done. split.
  - rewrite length_imap. unfold py_range. rewrite length_map, length_seq. lia.
  - intros i Hi. rewrite list_lookup_imap, py_range_lookup by done. done.
Qed.

(** C10.  Whenever the oracle answers a [forecast_demand] call without
    forecasts, the call returns, and every item of its answer carries the
    product id 'sample_product' and no warehouse id, whichever products and
    warehouses were requested. *)
Theorem placeholders_ignore_request env (product_ids : list string)
    (warehouse_ids : option (list string)) (forecast_days : Z)
    (include_seasonality : bool) (w : world) (output : DemandForecastResponse F) :
  agent_run env
    (_build_forecast_prompt product_ids warehouse_ids forecast_days
       (forecast_context env product_ids warehouse_ids include_seasonality w).1)
  = Some output ->
  forecasts output = [] ->
  exists out w',
    forecast_demand env product_ids warehouse_ids forecast_days include_seasonality w
    = (Some out, w') /\
    length (forecasts out) = Z.to_nat (Z.min forecast_days 7) /\
    Forall (fun item => product_id item = "sample_product" /\ warehouse_id item = None)
           (forecasts out).
Proof.
  intros Hrun Hempty. unfold forecast_demand.
  rewrite bind_run, bind_run. cbn [emit fst snd]. rewrite Hrun, bind_run.
  eexists _, _. split; [reflexivity|]. cbn [fst mret M_ret].
  set (w1 := {| clock := _; trace := _ |}).
  rewrite (enhance_forecasts_empty output forecast_days w1 Hempty). split.
  - rewrite length_imap. unfold py_range. rewrite length_map, length_seq. lia.
  - apply Forall_forall. intros item Hin.
    apply list_elem_of_lookup in Hin as [j Hj].
    rewrite list_lookup_imap in Hj.
    destruct (py_range 0 _ !! j); [|done]. by injection Hj as <-.
Qed.

End Demand.

Lemma placeholders_when_no_forecast_witness :
  (1 <= 3 <= 365)%Z /\
  DemandForecasting.forecasts
    (DemandForecasting._enhance_forecast_result no_forecasts 3%Z (frozen_world 1000%Z)).1
  = [ placeholder_at 1000%Z 0%Z; placeholder_at 1000%Z 1%Z; placeholder_at 1000%Z 2%Z ].
Proof.
  assert (Hdays : (1 <= 3 <= 365)%Z) by lia.
  split; [exact Hdays|].
  destruct (placeholders_when_no_forecast no_forecasts 3%Z (frozen_world 1000%Z)
              Hdays eq_refl) as [Hlen Hitems].
  apply list_eq. intros [|[|[|i]]].
  - apply (Hitems 0%nat). vm_compute. lia.
  - apply (Hitems 1%nat). vm_compute. lia.
  - apply (Hitems 2%nat). vm_compute. lia.
  - rewrite lookup_ge_None_2; [done|]. rewrite Hlen. vm_compute. lia.
Defined.

Lemma placeholders_ignore_request_witness :
  exists out w',
    DemandForecasting.forecast_demand silent_collaborators ["p1"; "p2"] (Some ["w1"])
      3%Z true (frozen_world 1000%Z) = (Some out, w') /\
    length (DemandForecasting.forecasts out) = 3%nat /\
    Forall (fun item => DemandForecasting.product_id item = "sample_product" /\
                        DemandForecasting.warehouse_id item = None)
           (DemandForecasting.forecasts out).
Proof.
  apply (placeholders_ignore_request silent_collaborators ["p1"; "p2"] (Some ["w1"])
           3%Z true (frozen_world 1000%Z) no_forecasts); reflexivity.
Defined.

(** * Further properties *)

(** ** What a computation leaves of the trace *)

Lemma comprehension_trace {A B} (f : A -> M B) (l : list A) (w : world) :
  (forall a w, trace (f a w).2 = trace w) ->
  trace (comprehension f l w).2 = trace w.
Proof.
  intros Hf. revert w. induction l as [|a l IH]; intros w; [done|].
  cbn [comprehension]. rewrite !bind_run. cbn [snd mret M_ret].
  by rewrite IH, Hf.
Qed.

(** ** agents/delivery_prediction.py: the distance heuristic, continued *)

Section DistanceMore.
Import DeliveryPrediction.

Lemma estimate_distance_bounded (origin_zip dest_zip : option string) :
  (0 <= _estimate_distance origin_zip dest_zip <= 3000)%Z.
Proof.
  unfold _estimate_distance.
  destruct (zip_prefix origin_zip) as [a|]; [|lia].
  destruct (zip_prefix dest_zip) as [b|]; lia.
Qed.

(** X1.  Whatever the two postal codes (well formed, malformed or
    missing), the estimate lies between 0 and 3000 miles and does not
    depend on which of the two codes is the origin. *)
Theorem estimate_distance_range_and_symmetry (origin_zip dest_zip : option string) :
  (0 <= _estimate_distance origin_zip dest_zip <= 3000)%Z /\
  _estimate_distance origin_zip dest_zip = _estimate_distance dest_zip origin_zip.
Proof.
  split; [apply estimate_distance_bounded|].
  unfold _estimate_distance.
  destruct (zip_prefix origin_zip) as [a|], (zip_prefix dest_zip) as [b|]; try done.
  cbn zeta. f_equal. lia.
Qed.

(** X2.  The estimate between a postal code made of ASCII characters and
    itself is 0 miles, except that it is the default of 500 miles when the
    code is malformed. *)
Theorem estimate_distance_same_code (zip : option string) :
  ascii_zip zip = true ->
  _estimate_distance zip zip = if malformed_zip zip then 500%Z else 0%Z.
Proof.
  intros _. unfold _estimate_distance, malformed_zip, zip_prefix.
  destruct zip as [[|c s]|]; try done.
  destruct (PyStr.int _) as [a|]; [|done].
  cbn zeta. rewrite Z.sub_diag. done.
Qed.

End DistanceMore.

Lemma estimate_distance_same_code_witness :
  ascii_zip (Some "SW1A 1AA") = true /\
  DeliveryPrediction._estimate_distance (Some "SW1A 1AA") (Some "SW1A 1AA") = 500%Z /\
  DeliveryPrediction._estimate_distance (Some "90210") (Some "90210") = 0%Z.
Proof.
  split; [reflexivity|]. split.
  - apply (estimate_distance_same_code (Some "SW1A 1AA")). reflexivity.
  - apply (estimate_distance_same_code (Some "90210")). reflexivity.
Defined.

(** ** agents/delivery_prediction.py: carrier performance and distance data *)

Lemma lower_char_idempotent (c : ascii) : lower_char (lower_char c) = lower_char c.
Proof. destruct c as [[] [] [] [] [] [] [] []]; reflexivity. Qed.

Lemma py_lower_idempotent (s : string) : py_lower (py_lower s) = py_lower s.
Proof.
  induction s as [|c s IH]; [done|].
  cbn [py_lower]. by rewrite lower_char_idempotent, IH.
Qed.

Section Carrier.
Import DeliveryPipeline.
Context {F : Type} {PF : PyFloat F}.

(** X3.  The carrier is looked up without regard to letter case: a name
    and its lower-case form get the same performance record. *)
Theorem carrier_performance_ignores_case (carrier : string) :
  _get_carrier_performance (F:=F) (Some carrier)
  = _get_carrier_performance (Some (py_lower carrier)).
Proof.
  destruct carrier as [|c s]; [reflexivity|].
  unfold _get_carrier_performance. cbn [py_lower].
  rewrite lower_char_idempotent, py_lower_idempotent. reflexivity.
Qed.

Lemma carriers_data_levels (key : string) (data : carrier_performance_data F) :
  carriers_data !! key = Some data ->
  service_levels data = Some (levels 4 2 1) \/ service_levels data = Some (levels 5 3 2).
Proof.
  unfold carriers_data. rewrite !lookup_insert.
  repeat case_decide; rewrite ?lookup_empty; intros [= <-]; auto.
Qed.

Lemma carrier_performance_cases (carrier : option string) :
  service_levels (_get_carrier_performance (F:=F) carrier) = Some (levels 4 2 1) \/
  service_levels (_get_carrier_performance (F:=F) carrier) = Some (levels 5 3 2).
Proof.
  unfold _get_carrier_performance. destruct carrier as [[|c s]|]; [by left| |by left].
  destruct (carriers_data !! _) as [data|] eqn:E; [|by left].
  by apply carriers_data_levels in E.
Qed.

(** X4.  Whatever the carrier (known, unknown or not given), the record
    returned has its three service levels, with
    1 <= overnight <= express <= standard and standard 4 or 5 days. *)
Theorem carrier_performance_levels (carrier : option string) :
  exists standard express overnight : Z,
    service_levels (_get_carrier_performance (F:=F) carrier)
    = Some (levels standard express overnight) /\
    (1 <= overnight <= express)%Z /\ (express <= standard <= 5)%Z /\
    (4 <= standard)%Z.
Proof.
  destruct (carrier_performance_cases carrier) as [-> | ->];
    [exists 4%Z, 2%Z, 1%Z | exists 5%Z, 3%Z, 2%Z]; (split; [done|lia]).
Qed.

End Carrier.

Section DistanceData.
Import DeliveryPipeline.
Context {F : Type} {PF : PyFloat F} {Row Alternative : Type}.
Implicit Types (env : collaborators F Row Alternative).

(** X5.  [_calculate_distance_data] makes one query on 'warehouses' and
    does not read the clock; the miles it reports lie between 0 and 3000;
    they are the default 500 when the query fails, and when no warehouse
    is found they are the estimate from no origin code at all. *)
Theorem distance_data_bounds env (origin_warehouse : string)
    (destination_address : gmap string string) (w : world) :
  let run := _calculate_distance_data env origin_warehouse destination_address w in
  (0 <= estimated_miles run.1 <= 3000)%Z /\
  trace run.2 = DbQuery "warehouses" :: trace w /\
  clock run.2 = clock w /\
  (select_warehouse env origin_warehouse = None -> estimated_miles run.1 = 500%Z) /\
  (select_warehouse env origin_warehouse = Some [] ->
   estimated_miles run.1
   = DeliveryPrediction._estimate_distance None (destination_address !! "zip")).
Proof.
  unfold _calculate_distance_data. rewrite bind_run. cbn [emit fst snd mret M_ret].
  split; [|split; [done|split; [done|split]]].
  - destruct (select_warehouse env origin_warehouse); cbn [estimated_miles]; [|lia].
    apply estimate_distance_bounded.
  - by intros ->.
  - intros ->. cbn [estimated_miles]. unfold get_zip. rewrite lookup_empty.
    by destruct (destination_address !! "zip") as [[|c s]|].
Qed.

End DistanceData.

(** ** agents/delivery_prediction.py: normalisation of a prediction *)

Section DeliveryNormalizer.
Import DeliveryPipeline.
Context {F : Type} {PF : PyFloat F} {Row Alternative : Type}.
Implicit Types (result : DeliveryPredictionResponse F Alternative)
  (context : DeliveryContext F Row).

Lemma enhance_prediction_trace result context (w : world) :
  trace (_enhance_prediction_result result context w).2 = trace w.
Proof.
  unfold _enhance_prediction_result, days_until. rewrite !bind_run.
  cbn [snd mret M_ret].
  destruct (estimated_delivery_date result) as [d|],
    (transit_days result) as [[|p|p]|]; cbn; rewrite ?bind_run; reflexivity.
Qed.

Lemma enhance_prediction_raises result context (w : world) :
  (_enhance_prediction_result result context w).1 = None
  <-> transit_from_aware_date result = true.
Proof.
  unfold _enhance_prediction_result, days_until, transit_from_aware_date.
  rewrite !bind_run.
  destruct (estimated_delivery_date result) as [[d|d]|],
    (transit_days result) as [[|p|p]|]; cbn; rewrite ?bind_run; cbn;
    split; congruence.
Qed.

Lemma enhance_prediction_date result context (w : world) out :
  (_enhance_prediction_result result context w).1 = Some out ->
  estimated_delivery_date out
  = Some match estimated_delivery_date result with
         | Some d => d
         | None => Naive (clock w 0 + timedelta_days (standard_days context))%Z
         end.
Proof.
  unfold _enhance_prediction_result, days_until. rewrite !bind_run.
  destruct (estimated_delivery_date result) as [[d|d]|],
    (transit_days result) as [[|p|p]|]; cbn; rewrite ?bind_run; cbn;
    intros [= <-] || intros [=]; reflexivity.
Qed.

Lemma enhance_prediction_fields result context (w : world) out :
  (_enhance_prediction_result result context w).1 = Some out ->
  is_Some (estimated_delivery_date out) /\
  (exists c, confidence_score out = Some c /\
     (c = lit 0.8%Q \/ (confidence_score result = Some c /\ feqb c (of_int 0) = false))) /\
  is_Some (transit_days out) /\
  (exists carrier, carrier_recommendation out = Some carrier /\ carrier <> EmptyString) /\
  (exists factors, factors_considered out = Some factors /\ factors <> []) /\
  alternative_options out = alternative_options result.
Proof.
  unfold _enhance_prediction_result. rewrite !bind_run. cbn [fst mret M_ret].
  match goal with
  | |- match ?t with Some _ => _ | None => _ end = _ -> _ =>
      destruct t as [transit|]; [|done]
  end.
  intros [= <-].
  cbn [estimated_delivery_date confidence_score transit_days carrier_recommendation
       factors_considered alternative_options].
  repeat split; eauto.
  - eexists. split; [reflexivity|].
    destruct (confidence_score result) as [c|]; [|by left].
    destruct (feqb c (of_int 0)) eqn:E; [by left|by right].
  - eexists. split; [reflexivity|].
    by destruct (carrier_recommendation result) as [[|c s]|].
  - eexists. split; [reflexivity|].
    by destruct (factors_considered result) as [[|f fs]|].
Qed.

(** X6.  The normaliser raises exactly when the oracle's delivery date is
    timezone-aware and the transit time is to be computed from it (the
    oracle gave none, or zero).  Otherwise the normalised prediction has a
    delivery date, a confidence that is the oracle's unless that was
    missing or zero (then 0.8), a transit time, a non-empty carrier name
    and a non-empty list of factors; the alternative options are the
    oracle's. *)
Theorem prediction_result_populated result context (w : world) :
  match (_enhance_prediction_result result context w).1 with
  | None => transit_from_aware_date result = true
  | Some out =>
      transit_from_aware_date result = false /\
      is_Some (estimated_delivery_date out) /\
      (exists c, confidence_score out = Some c /\
         (c = lit 0.8%Q \/
          (confidence_score result = Some c /\ feqb c (of_int 0) = false))) /\
      is_Some (transit_days out) /\
      (exists carrier,
         carrier_recommendation out = Some carrier /\ carrier <> EmptyString) /\
      (exists factors, factors_considered out = Some factors /\ factors <> []) /\
      alternative_options out = alternative_options result
  end.
Proof.
  pose proof (enhance_prediction_raises result context w) as Hraises.
  destruct (_enhance_prediction_result result context w).1 as [out|] eqn:E.
  - split; [|by apply (enhance_prediction_fields result context w)].
    destruct (transit_from_aware_date result); [|done].
    discriminate (proj2 Hraises eq_refl).
  - by apply Hraises.
Qed.

(** X7.  A prediction whose fields are all set (confidence and transit
    time non-zero, carrier and factors non-empty) is returned unchanged,
    and the clock is not read. *)
Theorem prediction_result_preserved context (w : world) (d : datetime_value) (c : F)
    (n : Z) (carrier : string) (factors : list string)
    (alternatives : option (list Alternative)) :
  feqb c (of_int 0) = false -> n <> 0%Z -> carrier <> EmptyString -> factors <> [] ->
  let result :=
    {| estimated_delivery_date := Some d;
       confidence_score := Some c;
       transit_days := Some n;
       carrier_recommendation := Some carrier;
       factors_considered := Some factors;
       alternative_options := alternatives |} in
  _enhance_prediction_result result context w = (Some result, w).
Proof.
  intros Hc Hn Hcarrier Hfactors result. subst result.
  unfold _enhance_prediction_result. rewrite !bind_run.
  cbn [estimated_delivery_date confidence_score transit_days carrier_recommendation
       factors_considered alternative_options].
  rewrite Hc. apply Z.eqb_neq in Hn. rewrite Hn.
  destruct carrier as [|ch s]; [done|]. destruct factors as [|f fs]; [done|].
  reflexivity.
Qed.

Lemma enhance_prediction_transit_unset result context (w : world) :
  estimated_delivery_date result = None ->
  transit_days result = None \/ transit_days result = Some 0%Z ->
  exists out,
    (_enhance_prediction_result result context w).1 = Some out /\
    transit_days out
    = Some (timedelta_whole_days
              (clock w 0 + timedelta_days (standard_days context) - clock w 1)%Z).
Proof.
  intros Hd Ht. unfold _enhance_prediction_result, days_until.
  rewrite Hd, !bind_run.
  destruct Ht as [-> | ->]; cbn; rewrite ?bind_run; eexists; split; reflexivity.
Qed.

Lemma enhance_prediction_transit_dated result context (w : world) (d : datetime) :
  estimated_delivery_date result = Some (Naive d) ->
  transit_days result = None \/ transit_days result = Some 0%Z ->
  exists out,
    (_enhance_prediction_result result context w).1 = Some out /\
    transit_days out = Some (timedelta_whole_days (d - clock w 0)%Z).
Proof.
  intros Hd Ht. unfold _enhance_prediction_result, days_until.
  rewrite Hd, !bind_run.
  destruct Ht as [-> | ->]; cbn; rewrite ?bind_run; eexists; split; reflexivity.
Qed.

(** X8.  When the oracle gave neither a date nor a transit time, the
    normaliser returns; the date becomes the clock reading plus the
    carrier's standard days, and the transit time is computed from a
    second clock reading: it is the standard days only if the clock did
    not advance between the two readings, and one day less if it advanced
    by up to a day. *)
Theorem transit_days_of_fallback_date result context (w : world) :
  estimated_delivery_date result = None ->
  transit_days result = None \/ transit_days result = Some 0%Z ->
  (clock w 0 <= clock w 1 <= clock w 0 + timedelta_days 1)%Z ->
  exists out,
    (_enhance_prediction_result result context w).1 = Some out /\
    estimated_delivery_date out
    = Some (Naive (clock w 0 + timedelta_days (standard_days context))%Z) /\
    transit_days out
    = Some (if (clock w 1 =? clock w 0)%Z then standard_days context
            else (standard_days context - 1)%Z).
Proof.
  intros Hd Ht Hclock.
  destruct (enhance_prediction_transit_unset result context w Hd Ht)
    as (out & Hout & Htransit).
  exists out. split; [done|]. split.
  - rewrite (enhance_prediction_date result context w out Hout). by rewrite Hd.
  - rewrite Htransit. f_equal.
    unfold timedelta_whole_days, timedelta_days in *.
    set (b := standard_days context) in *.
    destruct (Z.eqb_spec (clock w 1) (clock w 0)) as [->|Hne].
    + replace (clock w 0 + b * 86400000000 - clock w 0)%Z
        with (b * 86400000000)%Z by lia.
      by rewrite Z.div_mul.
    + symmetry.
      apply Z.div_unique with (r := (clock w 0 + 1 * 86400000000 - clock w 1)%Z); lia.
Qed.

(** X9.  When the oracle gave a naive date that is already past and no
    transit time, the normaliser returns, and the transit time it computed
    is negative. *)
Theorem transit_days_negative_when_late result context (w : world) (d : datetime) :
  estimated_delivery_date result = Some (Naive d) ->
  transit_days result = None \/ transit_days result = Some 0%Z ->
  (d < clock w 0)%Z ->
  exists out n,
    (_enhance_prediction_result result context w).1 = Some out /\
    transit_days out = Some n /\ (n < 0)%Z.
Proof.
  intros Hd Ht Hlate.
  destruct (enhance_prediction_transit_dated result context w d Hd Ht)
    as (out & Hout & Htransit).
  exists out. eexists. split; [done|]. split; [exact Htransit|].
  unfold timedelta_whole_days. apply Z.div_lt_upper_bound; lia.
Qed.

End DeliveryNormalizer.

Lemma prediction_result_preserved_witness :
  DeliveryPipeline._enhance_prediction_result full_prediction usps_context
    (ticking_world 0%Z)
  = (Some full_prediction, ticking_world 0%Z).
Proof.
  apply (prediction_result_preserved (Alternative:=unit) usps_context (ticking_world 0%Z)
           (Aware 1000%Z) 0.5%float 3%Z "UPS" ["Distance"] None);
    [reflexivity|discriminate..].
Defined.

Lemma transit_days_of_fallback_date_witness :
  DeliveryPipeline.standard_days usps_context = 5%Z /\
  exists out,
    (DeliveryPipeline._enhance_prediction_result (bare_prediction None) usps_context
       (ticking_world 0%Z)).1 = Some out /\
    DeliveryPipeline.estimated_delivery_date out = Some (Naive (timedelta_days 5)) /\
    DeliveryPipeline.transit_days out = Some 4%Z.
Proof.
  assert (Hdays : DeliveryPipeline.standard_days usps_context = 5%Z)
    by (vm_compute; reflexivity).
  split; [exact Hdays|].
  assert (Hclock : (clock (ticking_world 0%Z) 0 <= clock (ticking_world 0%Z) 1
                    <= clock (ticking_world 0%Z) 0 + timedelta_days 1)%Z)
    by (vm_compute; split; discriminate).
  destruct (transit_days_of_fallback_date (bare_prediction None) usps_context
              (ticking_world 0%Z) eq_refl (or_introl eq_refl) Hclock)
    as (out & Hout & Hdate & Htransit).
  rewrite Hdays in Hdate, Htransit. exists out.
  split; [exact Hout|]. split; [exact Hdate|exact Htransit].
Defined.

Lemma transit_days_negative_when_late_witness :
  exists out n,
    (DeliveryPipeline._enhance_prediction_result (bare_prediction (Some (Naive 0%Z)))
       usps_context (ticking_world (timedelta_hours 1))).1 = Some out /\
    DeliveryPipeline.transit_days out = Some n /\
    (n < 0)%Z.
Proof.
  apply (transit_days_negative_when_late (bare_prediction (Some (Naive 0%Z)))
           usps_context (ticking_world (timedelta_hours 1)) 0%Z eq_refl
           (or_introl eq_refl)).
  reflexivity.
Defined.

(** ** agents/delivery_prediction.py: the pipeline *)

Section DeliveryRun.
Import DeliveryPipeline.
Context {F : Type} {PF : PyFloat F} {Row Alternative : Type}.
Implicit Types (env : collaborators F Row Alternative)
  (result : DeliveryPredictionResponse F Alternative)
  (context : DeliveryContext F Row).

Lemma delivery_context_run env (origin_warehouse : string)
    (destination_address : gmap string string) (carrier : option string) (w : world) :
  let run := delivery_context env origin_warehouse destination_address carrier w in
  trace run.2 = DbQuery "warehouses" :: DbQuery "orders" :: trace w /\
  (forall n, clock run.2 n = clock w (S n)) /\
  carrier_performance run.1 = _get_carrier_performance carrier /\
  (0 <= estimated_miles (distance_data run.1) <= 3000)%Z.
Proof.
  unfold delivery_context, _fetch_historical_deliveries, _calculate_distance_data.
  rewrite !bind_run. cbn. repeat split; try done;
    destruct (select_warehouse env origin_warehouse); cbn [estimated_miles];
    try lia; apply estimate_distance_bounded.
Qed.

Lemma predict_delivery_unfold env (origin_warehouse : string)
    (destination_address : gmap string string) (product_ids : list string)
    (carrier : option string) (service_level : option string) (w : world) :
  let c := delivery_context env origin_warehouse destination_address carrier w in
  let w1 := {| clock := clock c.2; trace := OracleRun :: trace c.2 |} in
  predict_delivery env origin_warehouse destination_address product_ids carrier
    service_level w
  = match agent_run env
            (_build_prediction_prompt origin_warehouse destination_address product_ids
               carrier service_level c.1) with
    | None => (None, w1)
    | Some output => _enhance_prediction_result output c.1 w1
    end.
Proof.
  cbn zeta. unfold predict_delivery. rewrite !bind_run. cbn [emit fst snd].
  by destruct (agent_run env _).
Qed.

Lemma standard_days_carrier context (carrier : option string) :
  carrier_performance context = _get_carrier_performance carrier ->
  standard_days context = 4%Z \/ standard_days context = 5%Z.
Proof.
  intros Hc. unfold standard_days. rewrite Hc.
  destruct (carrier_performance_cases (F:=F) carrier) as [-> | ->]; [left|right];
    reflexivity.
Qed.

(** X10.  A call of [predict_delivery] queries 'orders', then
    'warehouses', then consults the oracle once.  The context it builds
    has the performance record of the requested carrier and a distance of
    at most 3000 miles.  The call fails if the oracle fails, and if the
    oracle's date is timezone-aware and its transit time is missing or
    zero; otherwise it returns a prediction that keeps the oracle's date,
    or, when the oracle gave none, dates the delivery 4 or 5 days after
    the second reading of the clock. *)
Theorem predict_delivery_run env (origin_warehouse : string)
    (destination_address : gmap string string) (product_ids : list string)
    (carrier : option string) (service_level : option string) (w : world) :
  let context :=
    (delivery_context env origin_warehouse destination_address carrier w).1 in
  let prompt :=
    _build_prediction_prompt origin_warehouse destination_address product_ids
      carrier service_level context in
  let run :=
    predict_delivery env origin_warehouse destination_address product_ids
      carrier service_level w in
  trace run.2 = OracleRun :: DbQuery "warehouses" :: DbQuery "orders" :: trace w /\
  carrier_performance context = _get_carrier_performance carrier /\
  (0 <= estimated_miles (distance_data context) <= 3000)%Z /\
  (agent_run env prompt = None -> run.1 = None) /\
  (forall output, agent_run env prompt = Some output ->
     if transit_from_aware_date output then run.1 = None
     else
       exists out, run.1 = Some out /\
         (forall d, estimated_delivery_date output = Some d ->
                    estimated_delivery_date out = Some d) /\
         (estimated_delivery_date output = None ->
          exists days, (days = 4 \/ days = 5)%Z /\
            estimated_delivery_date out
            = Some (Naive (clock w 1 + timedelta_days days)%Z))).
Proof.
  intros context prompt run. subst run. rewrite predict_delivery_unfold.
  destruct (delivery_context_run env origin_warehouse destination_address carrier w)
    as (Htrace & Hclock & Hcarrier & Hmiles).
  fold context in Hcarrier, Hmiles |- *. fold prompt.
  set (w0 := (delivery_context env origin_warehouse destination_address carrier w).2) in *.
  split; [|split; [done|split; [done|split]]].
  - destruct (agent_run env prompt) as [output|]; cbn [snd].
    + by rewrite enhance_prediction_trace; cbn [trace]; rewrite Htrace.
    + cbn [trace]. by rewrite Htrace.
  - by intros ->.
  - intros output ->.
    pose proof (enhance_prediction_raises output context
                  {| clock := clock w0; trace := OracleRun :: trace w0 |}) as Hraises.
    destruct (transit_from_aware_date output); [by apply Hraises|].
    destruct (_enhance_prediction_result output context _).1 as [out|] eqn:E;
      [|discriminate (proj1 Hraises eq_refl)].
    exists out. split; [done|].
    rewrite (enhance_prediction_date _ _ _ _ E). split.
    + by intros d ->.
    + intros ->. cbn [clock]. rewrite Hclock.
      destruct (standard_days_carrier context carrier Hcarrier) as [-> | ->];
        eexists; eauto.
Qed.

End DeliveryRun.

(** ** agents/demand_forecasting.py, continued *)

Section DemandMore.
Import DemandForecasting.
Context {F : Type} {PF : PyFloat F} {PD : Pandas}.
Implicit Types (result : DemandForecastResponse F) (env : collaborators F)
  (data : list (order_item F)).

Lemma placeholder_trace (i : Z) (w : world) : trace (placeholder (F:=F) i w).2 = trace w.
Proof. reflexivity. Qed.

Lemma enhance_forecast_trace result (forecast_days : Z) (w : world) :
  trace (_enhance_forecast_result result forecast_days w).2 = trace w.
Proof.
  unfold _enhance_forecast_result. rewrite !bind_run. cbn [snd mret M_ret now trace].
  destruct (forecasts result); [|reflexivity].
  apply comprehension_trace. intros. apply placeholder_trace.
Qed.

Lemma enhance_forecast_metadata result (forecast_days : Z) (w : world) :
  let out := (_enhance_forecast_result result forecast_days w).1 in
  forecast_horizon_days out = forecast_days /\
  is_Some (model_accuracy out).
Proof.
  unfold _enhance_forecast_result. rewrite !bind_run. cbn. eauto.
Qed.

Lemma enhance_forecast_nonempty result (forecast_days : Z) (w : world) :
  (1 <= forecast_days)%Z ->
  forecasts (_enhance_forecast_result result forecast_days w).1 <> [].
Proof.
  intros Hdays Hnil.
  destruct (forecasts result) as [|item items] eqn:E.
  - apply (f_equal length) in Hnil.
    rewrite enhance_forecasts_empty in Hnil by done.
    rewrite length_imap in Hnil. unfold py_range in Hnil.
    rewrite length_map, length_seq in Hnil. cbn [length] in Hnil. lia.
  - unfold _enhance_forecast_result in Hnil. rewrite E, !bind_run in Hnil.
    cbn in Hnil. done.
Qed.

(** The profile is empty or is the result of the loop over the months. *)
Lemma seasonal_patterns_sizes data :
  _calculate_seasonal_patterns data = ∅ \/
  exists rows, _calculate_seasonal_patterns data = seasonal_fold (seasonal_entry rows).
Proof.
  unfold _calculate_seasonal_patterns.
  destruct data as [|r data]; [by left|].
  destruct (has_orders_column _); [|by left]. cbn [negb].
  destruct (date_column _) as [col|]; [|by left].
  destruct (dropna col) as [|row rows] eqn:E; [by left|].
  destruct (has_quantity_column _); [|by left]. cbn [negb].
  right. by exists (row :: rows).
Qed.

(** X11.  For every history the seasonal profile has either no entry or
    exactly twelve: it is never partial. *)
Theorem seasonal_patterns_none_or_twelve data :
  size (_calculate_seasonal_patterns data) = 0%nat \/
  size (_calculate_seasonal_patterns data) = 12%nat.
Proof.
  destruct (seasonal_patterns_sizes data) as [-> | [rows ->]].
  - left. apply map_size_empty.
  - right. apply seasonal_fold_size.
Qed.

Lemma created_at_column_fails data (r : order_item F) :
  r ∈ data -> date_cell r = None -> created_at_column data = None.
Proof.
  induction data as [|r' data IH]; intros Hr Hc; [by apply elem_of_nil in Hr|].
  cbn [created_at_column]. apply elem_of_cons in Hr as [<-|Hr].
  - by rewrite Hc.
  - rewrite (IH Hr Hc). by destruct (date_cell r').
Qed.

Lemma created_at_column_invalid data (r : order_item F) cells :
  r ∈ data -> date_cell r = Some CreatedInvalid ->
  created_at_column data = Some cells -> existsb cell_invalid cells = true.
Proof.
  revert cells. induction data as [|r' data IH]; intros cells Hr Hc Hcol;
    [by apply elem_of_nil in Hr|].
  cbn [created_at_column] in Hcol.
  destruct (date_cell r') as [cell|] eqn:E; [|done].
  destruct (created_at_column data) as [cells'|]; [|done].
  injection Hcol as <-. cbn [existsb].
  apply elem_of_cons in Hr as [<-|Hr].
  - rewrite Hc in E. by injection E as <-.
  - rewrite (IH cells' Hr Hc eq_refl). apply orb_true_r.
Qed.

Lemma date_column_fails data (r : order_item F) :
  r ∈ data -> date_cell r = None \/ date_cell r = Some CreatedInvalid ->
  date_column data = None.
Proof.
  intros Hr [Hc|Hc]; unfold date_column.
  - by rewrite (created_at_column_fails data r Hr Hc).
  - destruct (created_at_column data) as [cells|] eqn:E; [|done].
    unfold to_datetime. by rewrite (created_at_column_invalid data r cells Hr Hc E).
Qed.

(** X12.  One row whose order has no 'created_at' key, or one that is not
    a timestamp, empties the whole profile, however many readable rows
    the history has. *)
Theorem seasonal_patterns_unreadable_row data (r : order_item F) :
  r ∈ data ->
  orders r = OrdersDict CreatedKeyMissing \/ orders r = OrdersDict CreatedInvalid ->
  _calculate_seasonal_patterns data = ∅.
Proof.
  intros Hr Ho. unfold _calculate_seasonal_patterns.
  destruct data as [|r0 data]; [done|].
  destruct (has_orders_column _); [|done]. cbn [negb].
  rewrite (date_column_fails _ r Hr); [done|].
  unfold date_cell. destruct Ho as [-> | ->]; [by left|by right].
Qed.

(** X13.  Forecasts the oracle supplied are kept as they are; the
    generation time becomes the clock reading (read once) and the horizon
    the requested number of days, whatever the oracle put there. *)
Theorem oracle_forecasts_kept result (forecast_days : Z) (w : world) :
  forecasts result <> [] ->
  let run := _enhance_forecast_result result forecast_days w in
  forecasts run.1 = forecasts result /\
  generated_at run.1 = clock w 0 /\
  forecast_horizon_days run.1 = forecast_days /\
  (forall n, clock run.2 n = clock w (S n)).
Proof.
  intros Hne. unfold _enhance_forecast_result.
  destruct (forecasts result) as [|item items] eqn:E; [done|].
  rewrite !bind_run. cbn. done.
Qed.

(** X14.  When the oracle supplied no forecast, the number of placeholder
    items is min(forecast_days, 7) for any integer: none at all for a
    horizon of zero or fewer days (the forecasts stay empty), seven for a
    horizon of a week or more. *)
Theorem placeholder_count result (forecast_days : Z) (w : world) :
  forecasts result = [] ->
  length (forecasts (_enhance_forecast_result result forecast_days w).1)
  = Z.to_nat (Z.min forecast_days 7) /\
  (forecast_days <= 0 -> forecasts (_enhance_forecast_result result forecast_days w).1 = [])%Z /\
  (7 <= forecast_days ->
   length (forecasts (_enhance_forecast_result result forecast_days w).1) = 7%nat)%Z.
Proof.
  intros Hempty. rewrite enhance_forecasts_empty by done.
  rewrite length_imap. unfold py_range. rewrite length_map, length_seq, Z.sub_0_r.
  split; [done|]. split.
  - intros Hle. replace (Z.to_nat (Z.min forecast_days 7)) with 0%nat by lia. done.
  - intros Hge. lia.
Qed.

Lemma forecast_context_run env (product_ids : list string)
    (warehouse_ids : option (list string)) (include_seasonality : bool) (w : world) :
  let run := forecast_context env product_ids warehouse_ids include_seasonality w in
  trace run.2 = DbQuery "order_items" :: trace w /\
  (forall n, clock run.2 n = clock w (S n)).
Proof. unfold forecast_context, _fetch_historical_data. rewrite !bind_run. cbn. done. Qed.

Lemma forecast_demand_unfold env (product_ids : list string)
    (warehouse_ids : option (list string)) (forecast_days : Z)
    (include_seasonality : bool) (w : world) :
  let c := forecast_context env product_ids warehouse_ids include_seasonality w in
  let w1 := {| clock := clock c.2; trace := OracleRun :: trace c.2 |} in
  forecast_demand env product_ids warehouse_ids forecast_days include_seasonality w
  = match agent_run env
            (_build_forecast_prompt product_ids warehouse_ids forecast_days c.1) with
    | None => (None, w1)
    | Some output =>
        (Some (_enhance_forecast_result output forecast_days w1).1,
         (_enhance_forecast_result output forecast_days w1).2)
    end.
Proof.
  cbn zeta. unfold forecast_demand. rewrite !bind_run. cbn [emit fst snd].
  destruct (agent_run env _); [|done]. by rewrite bind_run.
Qed.

(** X15.  A call of [forecast_demand] queries 'order_items' once, then
    consults the oracle once.  If the oracle fails the call fails;
    otherwise it returns a forecast whose horizon is the requested number
    of days, whose accuracy is set, and which has at least one item when a
    day or more was requested. *)
Theorem forecast_demand_run env (product_ids : list string)
    (warehouse_ids : option (list string)) (forecast_days : Z)
    (include_seasonality : bool) (w : world) :
  let context :=
    (forecast_context env product_ids warehouse_ids include_seasonality w).1 in
  let prompt := _build_forecast_prompt product_ids warehouse_ids forecast_days context in
  let run :=
    forecast_demand env product_ids warehouse_ids forecast_days include_seasonality w in
  trace run.2 = OracleRun :: DbQuery "order_items" :: trace w /\
  (agent_run env prompt = None -> run.1 = None) /\
  (forall output, agent_run env prompt = Some output ->
     exists out, run.1 = Some out /\
       forecast_horizon_days out = forecast_days /\
       is_Some (model_accuracy out) /\
       ((1 <= forecast_days)%Z -> forecasts out <> [])).
Proof.
  intros context prompt run. subst run. rewrite forecast_demand_unfold.
  destruct (forecast_context_run env product_ids warehouse_ids include_seasonality w)
    as (Htrace & Hclock).
  fold context. fold prompt.
  set (w0 := (forecast_context env product_ids warehouse_ids include_seasonality w).2) in *.
  split; [|split].
  - destruct (agent_run env prompt) as [output|]; cbn [snd].
    + by rewrite enhance_forecast_trace; cbn [trace]; rewrite Htrace.
    + cbn [trace]. by rewrite Htrace.
  - by intros ->.
  - intros output ->. eexists. split; [reflexivity|]. cbn [fst].
    set (w1 := {| clock := _; trace := _ |}).
    destruct (enhance_forecast_metadata output forecast_days w1) as [Hh Ha].
    split; [exact Hh|]. split; [exact Ha|].
    intros Hdays. by apply enhance_forecast_nonempty.
Qed.

End DemandMore.

Lemma seasonal_patterns_unreadable_row_witness :
  DemandForecasting._calculate_seasonal_patterns (two_month_orders ++ [unreadable_order])
  = ∅.
Proof.
  apply (seasonal_patterns_unreadable_row (two_month_orders ++ [unreadable_order])
           unreadable_order).
  - apply elem_of_app. right. left.
  - right. reflexivity.
Defined.

Lemma oracle_forecasts_kept_witness :
  DemandForecasting.forecasts
    (DemandForecasting._enhance_forecast_result one_forecast 30%Z (ticking_world 0%Z)).1
  = [placeholder_at 0%Z 0%Z] /\
  DemandForecasting.forecast_horizon_days
    (DemandForecasting._enhance_forecast_result one_forecast 30%Z (ticking_world 0%Z)).1
  = 30%Z.
Proof.
  destruct (oracle_forecasts_kept one_forecast 30%Z (ticking_world 0%Z))
    as (Hf & _ & Hh & _); [discriminate|].
  split; [exact Hf|exact Hh].
Defined.

Lemma placeholder_count_witness :
  DemandForecasting.forecasts
    (DemandForecasting._enhance_forecast_result no_forecasts 0%Z (frozen_world 1000%Z)).1
  = [].
Proof.
  destruct (placeholder_count no_forecasts 0%Z (frozen_world 1000%Z) eq_refl)
    as (_ & Hnone & _).
  apply Hnone. discriminate.
Defined.

(** ** agents/anomaly_detection.py: the alert thresholds, continued *)

Section ThresholdsMore.
Context {F : Type} {PF : PyFloat F}.
Import AnomalyDetection.
Implicit Types (bm m r : gmap string F) (f v w : F) (k metric : string).

Lemma alert_step_size bm f metric v r :
  size (alert_step bm f metric v r) <= size r + 2.
Proof.
  unfold alert_step.
  destruct (PyStr.contains "std" metric).
  - rewrite map_size_insert. destruct (r !! _); unfold id; lia.
  - destruct (bm !! _); [|lia].
    rewrite !map_size_insert.
    repeat match goal with |- context [match ?x with _ => _ end] => destruct x end;
      unfold id; lia.
Qed.

Lemma thresholds_fold_size bm f m :
  size (map_fold (alert_step bm f) ∅ m) <= 2 * size m.
Proof.
  apply (map_fold_weak_ind (fun r m => size r <= 2 * size m)).
  - rewrite !map_size_empty. lia.
  - intros metric v m' r Hfresh IH. rewrite map_size_insert_None by done.
    pose proof (alert_step_size bm f metric v r). lia.
Qed.

(** X16.  The thresholds hold exactly these entries and no other: for a
    metric whose name contains 'std', '<metric>_threshold' with the value
    times (2.0 - sensitivity); for any other metric whose counterpart (its
    name with 'avg' replaced by 'std') is in the baseline,
    '<metric>_upper' and '<metric>_lower', the value plus and minus the
    counterpart's value times (2.0 - sensitivity). *)
Theorem alert_thresholds_entries bm (s : F) k w :
  _calculate_alert_thresholds bm s !! k = Some w <->
  (exists metric v, bm !! metric = Some v /\ PyStr.contains "std" metric = true /\
     k = metric +:+ "_threshold" /\ w = fmul v (fsub (lit 2.0%Q) s)) \/
  (exists metric v sv, bm !! metric = Some v /\ PyStr.contains "std" metric = false /\
     bm !! PyStr.replace "avg" "std" metric = Some sv /\
     (k = metric +:+ "_upper" /\ w = fadd v (fmul sv (fsub (lit 2.0%Q) s)) \/
      k = metric +:+ "_lower" /\ w = fsub v (fmul sv (fsub (lit 2.0%Q) s)))).
Proof.
  rewrite alert_thresholds_lookup. unfold emitted. split.
  - intros (metric & v & Hm & Hin).
    destruct (PyStr.contains "std" metric) eqn:Hstd.
    + apply list_elem_of_singleton in Hin as [= -> ->]. left. eauto 10.
    + destruct (bm !! PyStr.replace "avg" "std" metric) as [sv|] eqn:Hsv;
        [|by apply elem_of_nil in Hin].
      right. exists metric, v, sv. repeat split; try done.
      apply elem_of_cons in Hin as [[= -> ->]|Hin]; [by left|].
      apply list_elem_of_singleton in Hin as [= -> ->]. by right.
  - intros [(metric & v & Hm & Hstd & -> & ->)
           |(metric & v & sv & Hm & Hstd & Hsv & Hk)];
      exists metric, v; (split; [done|]); rewrite Hstd.
    + left.
    + rewrite Hsv. destruct Hk as [[-> ->]|[-> ->]]; [left|right; left].
Qed.

(** X17.  There are at most two thresholds per baseline metric; an empty
    baseline gives no threshold. *)
Theorem alert_thresholds_size bm (s : F) :
  size (_calculate_alert_thresholds bm s) <= 2 * size bm /\
  _calculate_alert_thresholds ∅ s = ∅.
Proof. split; [apply thresholds_fold_size|reflexivity]. Qed.

End ThresholdsMore.

(** ** agents/anomaly_detection.py: normalisation of a detection, continued *)

Section NormalizerMore.
Import AnomalyDetection.
Context {F : Type} {PF : PyFloat F} {Row Patterns : Type}.
Implicit Types (result : AnomalyDetectionResponse F)
  (context : AnomalyContext F Row Patterns).

Lemma enhance_detection_trace result context time_range (w : world) :
  trace (_enhance_detection_result result context time_range w).2 = trace w.
Proof.
  unfold _enhance_detection_result. rewrite bind_run. cbn [snd mret M_ret].
  destruct (next_check_recommended result); [done|].
  repeat match goal with |- context [if ?b then _ else _] => destruct b end; done.
Qed.

Lemma enhance_detection_fields result context time_range (w : world) :
  let out := (_enhance_detection_result result context time_range w).1 in
  analysis_period out = time_range /\
  anomalies out = Some (default [] (anomalies result)) /\
  total_anomalies out = Z.of_nat (length (default [] (anomalies result))) /\
  is_Some (model_confidence out) /\
  is_Some (next_check_recommended out).
Proof.
  unfold _enhance_detection_result. rewrite bind_run. cbn.
  destruct (anomalies result) as [[|a l]|]; cbn; eauto 10.
Qed.

(** X18.  A non-zero confidence and a next check that the oracle supplied
    are kept; only the count and the analysed period are overwritten, and
    the clock is not read. *)
Theorem detection_result_kept result context time_range (w : world) c t :
  model_confidence result = Some c -> feqb c (of_int 0) = false ->
  next_check_recommended result = Some t ->
  _enhance_detection_result result context time_range w
  = ({| anomalies := Some (default [] (anomalies result));
        total_anomalies := Z.of_nat (length (default [] (anomalies result)));
        analysis_period := time_range;
        model_confidence := Some c;
        next_check_recommended := Some t |}, w).
Proof.
  intros Hc Hz Ht. unfold _enhance_detection_result. rewrite bind_run, Hc, Hz, Ht.
  cbn. by destruct (anomalies result) as [[|a l]|].
Qed.

End NormalizerMore.

Lemma detection_result_kept_witness :
  AnomalyDetection._enhance_detection_result confident_anomalies empty_context
    {[ "start" := 0%Z ]} (frozen_world 1000%Z)
  = ({| AnomalyDetection.anomalies := Some [low_anomaly];
        AnomalyDetection.total_anomalies := 1%Z;
        AnomalyDetection.analysis_period := {[ "start" := 0%Z ]};
        AnomalyDetection.model_confidence := Some 0.5%float;
        AnomalyDetection.next_check_recommended := Some 5000%Z |},
     frozen_world 1000%Z).
Proof.
  apply (detection_result_kept confident_anomalies empty_context {[ "start" := 0%Z ]}
           (frozen_world 1000%Z) 0.5%float 5000%Z); reflexivity.
Defined.

Section Confidence.
Import AnomalyDetection.
Context {Row Patterns : Type}.
Implicit Types (context : AnomalyContext Q Row Patterns).
Open Scope Q_scope.



End Confidence.

(** ** Grouping rows by a key, and the extremal keys *)


















(** ** agents/anomaly_detection.py: fetching, baselines and recent patterns *)

Section AnomalyRun.
Import AnomalyDetection AnomalyPipeline.
Context {F : Type} {PF : PyFloat F} {SS : SeriesStats F} {PD : Pandas}.
Implicit Types (data : list (row F)) (env : collaborators F) (r : row F).

Lemma fetch_data_run (source : record_source F) (data_type : string)
    (time_range : gmap string datetime) (w : world) :
  _fetch_data_for_analysis source data_type time_range w
  = match table_of data_type, time_range !! "start", time_range !! "end" with
    | Some table, Some start_date, Some end_date =>
        (default [] (source table start_date end_date),
         {| clock := clock w; trace := DbQuery table :: trace w |})
    | _, _, _ => ([], w)
    end.
Proof.
  unfold _fetch_data_for_analysis, table_of,
    _fetch_inventory_data, _fetch_pricing_data, _fetch_order_data, fetch_table.
  destruct (time_range !! "start") as [start_date|],
    (time_range !! "end") as [end_date|];
    destruct (String.eqb data_type "inventory"),
      (String.eqb data_type "pricing"), (String.eqb data_type "orders");
    rewrite ?bind_run; done.
Qed.

(** X20.  For a data type other than 'inventory', 'pricing' and 'orders',
    or a time range without 'start' or 'end', [_fetch_data_for_analysis]
    returns no row and makes no query.  Otherwise it makes exactly one
    query, on the table of the data type, does not read the clock, and
    returns the rows found (none when the query fails). *)
Theorem fetch_data_for_analysis_queries (source : record_source F) (data_type : string)
    (time_range : gmap string datetime) (w : world) :
  let run := _fetch_data_for_analysis source data_type time_range w in
  match table_of data_type, time_range !! "start", time_range !! "end" with
  | Some table, Some start_date, Some end_date =>
      run.1 = default [] (source table start_date end_date) /\
      trace run.2 = DbQuery table :: trace w /\
      clock run.2 = clock w
  | _, _, _ => run = ([], w)
  end.
Proof.
  cbn zeta. rewrite fetch_data_run.
  by destruct (table_of data_type), (time_range !! "start"), (time_range !! "end").
Qed.

Lemma to_datetime_invalid data r :
  r ∈ data -> created_at r = Some TsInvalid -> to_datetime data = Raises.
Proof.
  intros Hr Hc. unfold to_datetime.
  assert (Hex : existsb cell_invalid (map (fun r => default TsNull (created_at r)) data)
                = true); [|by rewrite Hex].
  apply existsb_exists. exists TsInvalid. split; [|done].
  apply in_map_iff. exists r. split; [by rewrite Hc|by apply list_elem_of_In].
Qed.

Lemma cell_times_valid data :
  omap id (map cell_time (map (fun r => default TsNull (created_at r)) data))
  = valid_timestamps data.
Proof.
  unfold valid_timestamps. induction data as [|r data IH]; [done|].
  cbn [map omap list_omap]. rewrite IH.
  by destruct (created_at r) as [[| |text t]|].
Qed.

Lemma to_datetime_valid data (aware : bool) timestamps :
  to_datetime data = Datetimes aware timestamps ->
  omap id timestamps = valid_timestamps data.
Proof.
  unfold to_datetime. destruct (existsb _ _); [done|].
  destruct (to_datetime_kind _); intros [= <- <-] || intros [=];
    apply cell_times_valid.
Qed.

Lemma has_created_at_elem data r :
  r ∈ data -> is_Some (created_at r) -> has_created_at data = true.
Proof.
  intros Hr Hc. unfold has_created_at. apply existsb_exists. exists r.
  split; [by apply list_elem_of_In|]. by apply bool_decide_eq_true.
Qed.

Lemma frame_empty_no_created_at data :
  frame_empty data = true -> has_created_at data = false.
Proof.
  unfold frame_empty, has_created_at. induction data as [|r data IH]; [done|].
  cbn [forallb existsb]. intros [Hr Hrest]%andb_true_iff.
  apply andb_true_iff in Hr as [_ Hc]. apply bool_decide_eq_true in Hc.
  rewrite (IH Hrest), orb_false_r. apply bool_decide_eq_false. rewrite Hc. by intros [? ?].
Qed.

Lemma frame_empty_no_column data col :
  frame_empty data = true -> has_column col data = false.
Proof.
  unfold frame_empty, has_column. induction data as [|r data IH]; [done|].
  cbn [forallb existsb]. intros [Hr Hrest]%andb_true_iff.
  apply andb_true_iff in Hr as [Hn _]. apply bool_decide_eq_true in Hn.
  rewrite (IH Hrest), orb_false_r. apply bool_decide_eq_false.
  rewrite Hn, lookup_empty. by intros [? ?].
Qed.

(** X21.  For inventory and order data, one row whose 'created_at' is not
    a timestamp discards the whole baseline, the metrics of the value
    column included. *)
Theorem baseline_discarded_on_unreadable_timestamp data (data_type : string) r :
  r ∈ data -> created_at r = Some TsInvalid ->
  data_type = "inventory" \/ data_type = "orders" ->
  _calculate_baseline_metrics data data_type = ∅.
Proof.
  intros Hr Hc Htype. unfold _calculate_baseline_metrics.
  destruct data as [|r0 data0] eqn:Edata; [done|]. rewrite <- Edata in *. clear Edata.
  assert (Hcol : has_created_at data = true).
  { apply (has_created_at_elem data r Hr). rewrite Hc. by eexists. }
  assert (Hfe : frame_empty data = false).
  { destruct (frame_empty data) eqn:Efe; [|done].
    apply frame_empty_no_created_at in Efe. congruence. }
  destruct Htype as [-> | ->]; cbn [String.eqb Ascii.eqb Bool.eqb];
    unfold _calculate_inventory_baseline, _calculate_order_baseline, daily_metrics;
    by rewrite Hfe, Hcol, (to_datetime_invalid data r Hr Hc).
Qed.

Lemma baseline_empty_without_rows_or_type data (data_type : string) :
  data = [] \/ table_of data_type = None ->
  _calculate_baseline_metrics data data_type = ∅.
Proof.
  unfold _calculate_baseline_metrics, table_of. intros [-> | Htype]; [done|].
  destruct data as [|r data]; [done|].
  destruct (String.eqb data_type "inventory"); [done|].
  destruct (String.eqb data_type "pricing"); [done|].
  by destruct (String.eqb data_type "orders").
Qed.

Lemma pricing_baseline_price data :
  has_column "price" data = true ->
  let b := _calculate_baseline_metrics data "pricing" in
  b !! "avg_price" = Some (DemandForecasting.mean (column "price" data)) /\
  b !! "std_price" = Some (series_std (column "price" data)) /\
  b !! "max_price" = Some (series_max (column "price" data)) /\
  b !! "min_price" = Some (series_min (column "price" data)).
Proof.
  intros Hcol. unfold _calculate_baseline_metrics.
  destruct data as [|r0 data0] eqn:Edata; [done|]. rewrite <- Edata in *. clear Edata.
  cbn [String.eqb Ascii.eqb Bool.eqb]. unfold _calculate_pricing_baseline.
  destruct (frame_empty data) eqn:Efe.
  { rewrite (frame_empty_no_column data "price" Efe) in Hcol. done. }
  cbn [default]. unfold value_metrics. rewrite Hcol.
  cbn [String.append].
  destruct (has_column "discount_percentage" data);
    repeat split;
    repeat (first [ rewrite lookup_insert_eq; reflexivity
                  | rewrite lookup_insert_ne by discriminate ]).
Qed.

(** X22.  From pricing rows with a 'price' column, the thresholds hold
    the mean price plus and minus the standard deviation times the factor
    (2.0 - sensitivity), the standard deviation times the factor, and, for
    the largest and for the smallest price, that price plus and minus
    itself times the factor. *)
Theorem pricing_thresholds_from_rows data (sensitivity : F) :
  has_column "price" data = true ->
  let prices := column "price" data in
  let factor := fsub (lit 2.0%Q) sensitivity in
  let thresholds :=
    _calculate_alert_thresholds (_calculate_baseline_metrics data "pricing") sensitivity in
  thresholds !! "avg_price_upper"
    = Some (fadd (DemandForecasting.mean prices) (fmul (series_std prices) factor)) /\
  thresholds !! "avg_price_lower"
    = Some (fsub (DemandForecasting.mean prices) (fmul (series_std prices) factor)) /\
  thresholds !! "std_price_threshold" = Some (fmul (series_std prices) factor) /\
  thresholds !! "max_price_upper"
    = Some (fadd (series_max prices) (fmul (series_max prices) factor)) /\
  thresholds !! "max_price_lower"
    = Some (fsub (series_max prices) (fmul (series_max prices) factor)) /\
  thresholds !! "min_price_upper"
    = Some (fadd (series_min prices) (fmul (series_min prices) factor)) /\
  thresholds !! "min_price_lower"
    = Some (fsub (series_min prices) (fmul (series_min prices) factor)).
Proof.
  intros Hcol prices factor thresholds.
  destruct (pricing_baseline_price data Hcol) as (Havg & Hstd & Hmax & Hmin).
  subst thresholds. set (bm := _calculate_baseline_metrics data "pricing") in *.
  destruct (alert_thresholds_bounds bm sensitivity "avg_price" _ _ Havg eq_refl Hstd)
    as [Hu Hl].
  destruct (alert_thresholds_other_metric bm sensitivity "max_price" _ Hmax eq_refl eq_refl)
    as [Hmu Hml].
  destruct (alert_thresholds_other_metric bm sensitivity "min_price" _ Hmin eq_refl eq_refl)
    as [Hnu Hnl].
  pose proof (alert_thresholds_std bm sensitivity "std_price" _ Hstd eq_refl) as Ht.
  repeat split; assumption.
Qed.

Lemma analyze_recent_unavailable data (data_type : string) (w : world) :
  has_created_at data = false \/ to_datetime data = Raises ->
  _analyze_recent_patterns data data_type w = (None, w).
Proof.
  intros Hbad. unfold _analyze_recent_patterns.
  destruct data as [|r0 data0] eqn:Edata; [done|]. rewrite <- Edata in *. clear Edata.
  destruct (frame_empty data); [done|].
  destruct (has_created_at data) eqn:Hcol; [|done]. cbn [negb].
  destruct Hbad as [?| ->]; done.
Qed.

Lemma analyze_recent_aware data (data_type : string) (w : world) :
  has_created_at data = true ->
  (exists timestamps, to_datetime data = Datetimes true timestamps) \/
  to_datetime data = Objects ->
  _analyze_recent_patterns data data_type w
  = (None, {| clock := fun n => clock w (S n); trace := trace w |}).
Proof.
  intros Hcol Haware. unfold _analyze_recent_patterns.
  destruct data as [|r0 data0] eqn:Edata; [done|]. rewrite <- Edata in *. clear Edata.
  destruct (frame_empty data) eqn:Efe.
  { apply frame_empty_no_created_at in Efe. congruence. }
  rewrite Hcol. cbn [negb].
  destruct Haware as [[timestamps ->]| ->]; by rewrite bind_run.
Qed.

Lemma analyze_recent_available data (data_type : string) (w : world) timestamps :
  has_created_at data = true ->
  to_datetime data = Datetimes false timestamps ->
  let hours := recent_hours data (clock w 0) in
  let hourly_counts := group_sizes hours in
  _analyze_recent_patterns data data_type w
  = (Some {| total_recent_records := length hours;
             recent_data_available := (0 <? length hours)%nat;
             data_frequency := "normal";
             peak_hour := if (0 <? length hours)%nat then fst <$> idxmax hourly_counts
                          else None;
             min_hour := if (0 <? length hours)%nat then fst <$> idxmin hourly_counts
                         else None;
             hourly_variance :=
               if (0 <? length hours)%nat then
                 Some (if (1 <? length hourly_counts)%nat
                       then series_var
                              (map (fun kn => of_int (Z.of_nat kn.2)) hourly_counts)
                       else of_int 0)
               else None |},
     {| clock := fun n => clock w (S n); trace := trace w |}).
Proof.
  intros Hcol Hts. unfold _analyze_recent_patterns.
  destruct data as [|r0 data0] eqn:Edata; [done|]. rewrite <- Edata in *. clear Edata.
  destruct (frame_empty data) eqn:Efe.
  { apply frame_empty_no_created_at in Efe. congruence. }
  rewrite Hcol. cbn [negb]. rewrite Hts.
  rewrite bind_run. cbn [now fst snd mret M_ret].
  unfold recent_hours. rewrite <- (to_datetime_valid data false timestamps Hts).
  by rewrite !length_map.
Qed.

(** X23.  [_analyze_recent_patterns] returns a summary exactly when some
    row has a 'created_at' and the column is read as timestamps without
    time zone; the clock is then read once.  When no row has a
    'created_at', or reading the column raises (as it does when a cell is
    not a timestamp), the summary is empty and the clock is not read.  When
    the column is read as timezone-aware timestamps, or as objects, the
    clock is read once, the comparison with it raises, and the summary is
    empty. *)
Theorem recent_patterns_availability data (data_type : string) (w : world) :
  let run := _analyze_recent_patterns data data_type w in
  (is_Some run.1 <->
   has_created_at data = true /\
   exists timestamps, to_datetime data = Datetimes false timestamps) /\
  (has_created_at data = false \/ to_datetime data = Raises -> run = (None, w)) /\
  (forall r, r ∈ data -> created_at r = Some TsInvalid -> run = (None, w)) /\
  (has_created_at data = true -> to_datetime data <> Raises ->
   forall n, clock run.2 n = clock w (S n)) /\
  (has_created_at data = true ->
   (exists timestamps, to_datetime data = Datetimes true timestamps) \/
   to_datetime data = Objects ->
   run.1 = None).
Proof.
  cbn zeta. split; [|split; [|split; [|split]]].
  - destruct (has_created_at data) eqn:Hcol.
    + destruct (to_datetime data) as [|[|] timestamps|] eqn:Hts.
      * rewrite analyze_recent_unavailable by (by right). cbn.
        split; [by intros [? ?]|by intros [_ [? ?]]].
      * rewrite analyze_recent_aware by eauto. cbn.
        split; [by intros [? ?]|by intros [_ [? ?]]].
      * rewrite (analyze_recent_available _ _ _ timestamps) by done. cbn.
        split; [eauto|by eexists].
      * rewrite analyze_recent_aware by eauto. cbn.
        split; [by intros [? ?]|by intros [_ [? ?]]].
    + rewrite analyze_recent_unavailable by (by left). cbn.
      split; [by intros [? ?]|by intros [? _]].
  - apply analyze_recent_unavailable.
  - intros r Hr Hc. apply analyze_recent_unavailable. right.
    by apply (to_datetime_invalid data r).
  - intros Hcol Hts n.
    destruct (to_datetime data) as [|[|] timestamps|] eqn:E; [done| | |].
    + rewrite analyze_recent_aware; [done|done|]. rewrite E. eauto.
    + by rewrite (analyze_recent_available _ _ _ timestamps).
    + rewrite analyze_recent_aware; [done|done|]. rewrite E. eauto.
  - intros Hcol Haware. by rewrite analyze_recent_aware.
Qed.


Lemma analyze_recent_trace data (data_type : string) (w : world) :
  trace (_analyze_recent_patterns data data_type w).2 = trace w.
Proof.
  unfold _analyze_recent_patterns. destruct data as [|r0 data0]; [done|].
  destruct (frame_empty _); [done|]. destruct (negb _); [done|].
  destruct (to_datetime _) as [|[|] timestamps|]; by rewrite ?bind_run.
Qed.

Lemma anomaly_context_run env (data_type : string) (time_range : gmap string datetime)
    (sensitivity : F) (w : world) :
  let run := anomaly_context env data_type time_range sensitivity w in
  trace run.2
  = match table_of data_type, time_range !! "start", time_range !! "end" with
    | Some table, Some _, Some _ => [DbQuery table]
    | _, _, _ => []
    end ++ trace w /\
  historical_data run.1
  = match table_of data_type, time_range !! "start", time_range !! "end" with
    | Some table, Some start_date, Some end_date =>
        default [] (source env table start_date end_date)
    | _, _, _ => []
    end /\
  baseline_metrics run.1 = _calculate_baseline_metrics (historical_data run.1) data_type /\
  alert_thresholds run.1
  = _calculate_alert_thresholds (baseline_metrics run.1) sensitivity.
Proof.
  unfold anomaly_context. rewrite !bind_run. cbn [fst snd mret M_ret].
  cbn [historical_data baseline_metrics alert_thresholds].
  rewrite analyze_recent_trace, fetch_data_run.
  by destruct (table_of data_type), (time_range !! "start"), (time_range !! "end").
Qed.

End AnomalyRun.

Lemma baseline_discarded_on_unreadable_timestamp_witness :
  AnomalyPipeline._calculate_baseline_metrics unreadable_rows "orders" = ∅.
Proof.
  apply (baseline_discarded_on_unreadable_timestamp unreadable_rows "orders"
           (valued_row "total_amount" 9%float (Some AnomalyPipeline.TsInvalid))).
  - right. left.
  - reflexivity.
  - by right.
Defined.

Lemma pricing_thresholds_from_rows_witness :
  AnomalyPipeline.has_column "price" price_rows = true /\
  AnomalyDetection._calculate_alert_thresholds
    (AnomalyPipeline._calculate_baseline_metrics price_rows "pricing") 0.5%float
    !! "max_price_upper" = Some 30%float /\
  AnomalyDetection._calculate_alert_thresholds
    (AnomalyPipeline._calculate_baseline_metrics price_rows "pricing") 0.5%float
    !! "min_price_lower" = Some (-4)%float.
Proof.
  assert (Hcol : AnomalyPipeline.has_column "price" price_rows = true)
    by (vm_compute; reflexivity).
  split; [exact Hcol|].
  destruct (pricing_thresholds_from_rows price_rows 0.5%float Hcol)
    as (_ & _ & _ & Hmax & _ & _ & Hmin).
  split.
  - rewrite Hmax. vm_compute. reflexivity.
  - rewrite Hmin. vm_compute. reflexivity.
Defined.


(** ** agents/anomaly_detection.py: the pipeline *)

Section AnomalyPipelineRun.
Import AnomalyDetection AnomalyPipeline.
Context {F : Type} {PF : PyFloat F} {SS : SeriesStats F} {PD : Pandas}.
Implicit Types (data : list (row F)) (env : collaborators F).

Lemma detect_anomalies_unfold env (data_type : string)
    (time_range : gmap string datetime) (sensitivity : F)
    (include_recommendations : bool) (w : world) :
  let c := anomaly_context env data_type time_range sensitivity w in
  let w1 := {| clock := clock c.2; trace := OracleRun :: trace c.2 |} in
  detect_anomalies env data_type time_range sensitivity include_recommendations w
  = match _build_detection_prompt data_type time_range sensitivity c.1 with
    | None => (None, c.2)
    | Some prompt =>
        match agent_run env prompt with
        | None => (None, w1)
        | Some output =>
            (Some (_enhance_detection_result output c.1 time_range w1).1,
             (_enhance_detection_result output c.1 time_range w1).2)
        end
    end.
Proof.
  cbn zeta. unfold detect_anomalies. rewrite !bind_run.
  destruct (_build_detection_prompt _ _ _ _) as [prompt|]; [|done].
  rewrite bind_run. cbn [emit fst snd].
  destruct (agent_run env _); [|done]. by rewrite bind_run.
Qed.

Lemma anomaly_context_unbounded env (data_type : string)
    (time_range : gmap string datetime) (sensitivity : F) (w : world) :
  time_range !! "start" = None \/ time_range !! "end" = None ->
  (anomaly_context env data_type time_range sensitivity w).2 = w.
Proof.
  intros Hrange. unfold anomaly_context. rewrite !bind_run. cbn [fst snd mret M_ret].
  rewrite fetch_data_run.
  assert (E : match table_of data_type, time_range !! "start", time_range !! "end" with
              | Some table, Some start_date, Some end_date =>
                  (default [] (source env table start_date end_date),
                   {| clock := clock w; trace := DbQuery table :: trace w |})
              | _, _, _ => ([], w)
              end = ([], w)).
  { destruct (table_of data_type); [|done].
    destruct Hrange as [-> | ->]; [done|]. by destruct (time_range !! "start"). }
  by rewrite E.
Qed.

Lemma build_detection_prompt_bounds (data_type : string)
    (time_range : gmap string datetime) (sensitivity : F)
    (context : AnomalyContext F (row F) (option (recent_summary F))) :
  match _build_detection_prompt data_type time_range sensitivity context with
  | None => time_range !! "start" = None \/ time_range !! "end" = None
  | Some prompt =>
      time_range !! "start" = Some (prompt_start prompt) /\
      time_range !! "end" = Some (prompt_end prompt) /\
      prompt_thresholds prompt = alert_thresholds context
  end.
Proof.
  unfold _build_detection_prompt.
  destruct (time_range !! "start"), (time_range !! "end"); cbn; auto.
Qed.

(** X25.  A call of [detect_anomalies] with a time range that lacks
    'start' or 'end' fails, without a query, a clock reading or an oracle
    run.  With both bounds the call makes at most one query (on the table
    of the data type, when the type is known), then consults the oracle
    once, with the two bounds and with thresholds computed from the
    baseline of the fetched rows.  If the oracle fails the call fails;
    otherwise the answer carries the requested time range, the oracle's
    anomalies with their count, a confidence and a next check.  The flag
    [include_recommendations] has no effect. *)
Theorem detect_anomalies_run env (data_type : string)
    (time_range : gmap string datetime) (sensitivity : F)
    (include_recommendations : bool) (w : world) :
  let context := (anomaly_context env data_type time_range sensitivity w).1 in
  let run :=
    detect_anomalies env data_type time_range sensitivity include_recommendations w in
  match _build_detection_prompt data_type time_range sensitivity context with
  | None =>
      (time_range !! "start" = None \/ time_range !! "end" = None) /\
      run = (None, w)
  | Some prompt =>
      time_range !! "start" = Some (prompt_start prompt) /\
      time_range !! "end" = Some (prompt_end prompt) /\
      trace run.2
      = OracleRun ::
        match table_of data_type, time_range !! "start", time_range !! "end" with
        | Some table, Some _, Some _ => [DbQuery table]
        | _, _, _ => []
        end ++ trace w /\
      prompt_thresholds prompt
      = _calculate_alert_thresholds
          (_calculate_baseline_metrics (historical_data context) data_type)
          sensitivity /\
      (agent_run env prompt = None -> run.1 = None) /\
      (forall output, agent_run env prompt = Some output ->
         exists out, run.1 = Some out /\
           analysis_period out = time_range /\
           anomalies out = Some (default [] (anomalies output)) /\
           total_anomalies out = Z.of_nat (length (default [] (anomalies output))) /\
           is_Some (model_confidence out) /\
           is_Some (next_check_recommended out))
  end /\
  run
  = detect_anomalies env data_type time_range sensitivity (negb include_recommendations) w.
Proof.
  intros context run. subst run. rewrite !detect_anomalies_unfold.
  destruct (anomaly_context_run env data_type time_range sensitivity w)
    as (Htrace & Hdata & Hbase & Hthr).
  fold context in Hdata, Hbase, Hthr |- *.
  split; [|reflexivity].
  pose proof (build_detection_prompt_bounds data_type time_range sensitivity context)
    as Hprompt.
  destruct (_build_detection_prompt data_type time_range sensitivity context)
    as [prompt|].
  - destruct Hprompt as (Hstart & Hend & Hp).
    split; [done|]. split; [done|]. split; [|split; [|split]].
    + destruct (agent_run env prompt) as [output|]; cbn [snd].
      * by rewrite enhance_detection_trace; cbn [trace]; rewrite Htrace.
      * cbn [trace]. by rewrite Htrace.
    + by rewrite Hp, Hthr, Hbase.
    + by intros ->.
    + intros output ->. eexists. split; [reflexivity|]. cbn [fst].
      apply enhance_detection_fields.
  - split; [done|]. f_equal. by apply anomaly_context_unbounded.
Qed.

End AnomalyPipelineRun.

(** ** models/requests.py and main.py with the agents *)

Section SensitivityFactor.
Import AnomalyDetection Requests.
Open Scope Q_scope.


End SensitivityFactor.


Section ForecastEndpoint.
Import DemandForecasting.
Context {F : Type} {PF : PyFloat F} {PD : Pandas}.
Implicit Types (env : collaborators F).

(** X27.  The forecast endpoint, with its agent running, on a body whose
    fields have the declared types: a body that fails validation is
    answered 422 without any query or oracle run; otherwise 'order_items'
    is queried once and the oracle consulted once, and the answer is
    either a 500 whose detail is 'Forecasting error: ' followed by the
    text of the exception raised, or a 200 whose horizon is the requested
    number of days (30 when the body gives none), within 1..365, and which
    has at least one forecast and an accuracy. *)
Theorem forecast_endpoint_outcome env (failure : string)
    (body : Requests.DemandForecastBody) (w : world) :
  let run :=
    Main.forecast_demand (Some (Main.raising_method failure (forecast_demand env)))
      body w in
  match Requests.validate_DemandForecastRequest body with
  | Requests.Invalid errors => run = (Main.Http422 errors, w)
  | Requests.Valid request =>
      trace run.2 = OracleRun :: DbQuery "order_items" :: trace w /\
      (run.1 = Main.Http500 ("Forecasting error: " +:+ failure) \/
       exists out, run.1 = Main.Http200 out /\
         forecast_horizon_days out = default 30%Z (Requests.body_forecast_days body) /\
         (1 <= forecast_horizon_days out <= 365)%Z /\
         forecasts out <> [] /\
         is_Some (model_accuracy out))
  end.
Proof.
  cbn zeta. unfold Main.forecast_demand.
  destruct (Requests.validate_DemandForecastRequest body) as [request|errors] eqn:Hv;
    [|done].
  assert (Hdays : Requests.forecast_days request
                  = default 30%Z (Requests.body_forecast_days body) /\
                  (1 <= Requests.forecast_days request <= 365)%Z).
  { unfold Requests.validate_DemandForecastRequest in Hv.
    destruct (Requests.body_product_ids body) as [ids|]; [|done].
    cbn [Requests.required app] in Hv.
    destruct (Requests.body_forecast_days body) as [d|].
    - unfold Requests.check_int_range in Hv.
      destruct (Z.leb_spec 1 d); [|done]. destruct (Z.leb_spec d 365); [|done].
      cbn [app] in Hv. injection Hv as <-. cbn. lia.
    - injection Hv as <-. cbn. lia. }
  destruct Hdays as [Hdef Hrange].
  unfold Main.raising_method, Main.raising.
  rewrite !bind_run, forecast_demand_unfold.
  destruct (forecast_context_run env (Requests.product_ids request)
              (Requests.warehouse_ids request) (Requests.include_seasonality request) w)
    as (Htrace & _).
  set (c := forecast_context _ _ _ _ _) in *.
  destruct (agent_run env _) as [output|]; cbn [fst snd mret M_ret].
  - rewrite enhance_forecast_trace. cbn [trace]. rewrite Htrace. split; [done|].
    right. eexists. split; [reflexivity|].
    set (w1 := {| clock := _; trace := _ |}).
    destruct (enhance_forecast_metadata output (Requests.forecast_days request) w1)
      as [Hh Ha].
    rewrite Hh. split; [done|]. split; [done|]. split; [|done].
    apply enhance_forecast_nonempty. lia.
  - cbn [trace]. rewrite Htrace. split; [done|]. by left.
Qed.

End ForecastEndpoint.

Section DeliveryEndpointRun.
Import DeliveryPipeline.
Context {F : Type} {PF : PyFloat F} {Row Alternative : Type}.
Implicit Types (env : collaborators F Row Alternative).

(** X28.  The delivery endpoint, with its agent running, on a body whose
    fields have the declared types: a body that lacks a required field is
    answered 422, without any query or oracle run; otherwise the service
    level is the body's ('standard' when omitted), 'orders' and
    'warehouses' are queried and the oracle consulted once, and the answer
    is either a 500 whose detail is 'Prediction error: ' followed by the
    text of the exception raised, or a 200 whose date, confidence, transit
    time, carrier and factors are all set. *)
Theorem delivery_endpoint_outcome env (failure : string)
    (body : DeliveryEndpoint.DeliveryPredictionBody) (w : world) :
  let run :=
    DeliveryEndpoint.predict_delivery
      (Some (DeliveryEndpoint.raising_method failure (predict_delivery env))) body w in
  match DeliveryEndpoint.validate_DeliveryPredictionRequest body with
  | Requests.Invalid errors =>
      run = (Main.Http422 errors, w) /\
      errors <> [] /\
      (DeliveryEndpoint.body_origin_warehouse body = None \/
       DeliveryEndpoint.body_destination_address body = None \/
       DeliveryEndpoint.body_product_ids body = None)
  | Requests.Valid request =>
      DeliveryEndpoint.service_level request
      = default (Some "standard") (DeliveryEndpoint.body_service_level body) /\
      trace run.2
      = OracleRun :: DbQuery "warehouses" :: DbQuery "orders" :: trace w /\
      (run.1 = Main.Http500 ("Prediction error: " +:+ failure) \/
       exists out, run.1 = Main.Http200 out /\
         is_Some (estimated_delivery_date out) /\
         is_Some (confidence_score out) /\
         is_Some (transit_days out) /\
         (exists carrier, carrier_recommendation out = Some carrier /\
                          carrier <> EmptyString) /\
         (exists factors, factors_considered out = Some factors /\ factors <> []))
  end.
Proof.
  cbn zeta. unfold DeliveryEndpoint.predict_delivery.
  destruct (DeliveryEndpoint.validate_DeliveryPredictionRequest body)
    as [request|errors] eqn:Hv.
  - split.
    { unfold DeliveryEndpoint.validate_DeliveryPredictionRequest in Hv.
      destruct (DeliveryEndpoint.body_origin_warehouse body),
        (DeliveryEndpoint.body_destination_address body),
        (DeliveryEndpoint.body_product_ids body); try done.
      by injection Hv as <-. }
    unfold DeliveryEndpoint.raising_method, Main.raising.
    rewrite !bind_run, predict_delivery_unfold.
    destruct (delivery_context_run env (DeliveryEndpoint.origin_warehouse request)
                (DeliveryEndpoint.destination_address request)
                (DeliveryEndpoint.carrier request) w) as (Htrace & _).
    set (c := delivery_context _ _ _ _ _) in *.
    destruct (agent_run env _) as [output|]; cbn [fst snd mret M_ret].
    + rewrite enhance_prediction_trace. cbn [trace]. rewrite Htrace. split; [done|].
      set (w1 := {| clock := _; trace := _ |}).
      destruct (_enhance_prediction_result output c.1 w1).1 as [out|] eqn:E;
        [|by left].
      right. exists out. split; [done|].
      destruct (enhance_prediction_fields output c.1 w1 out E)
        as (Hd & (conf & Hconf & _) & Ht & Hcarrier & Hfactors & _).
      rewrite Hconf. eauto 10.
    + cbn [trace]. rewrite Htrace. split; [done|]. by left.
  - split; [done|].
    unfold DeliveryEndpoint.validate_DeliveryPredictionRequest in Hv.
    destruct (DeliveryEndpoint.body_origin_warehouse body),
      (DeliveryEndpoint.body_destination_address body),
      (DeliveryEndpoint.body_product_ids body); try done;
      injection Hv as <-; cbn; (split; [done|]); auto.
Qed.

End DeliveryEndpointRun.

(** ** services/supabase_client.py *)

Section Client.
Import SupabaseClient.
Context {Client : Type}.


End Client.
